(** * Food allergen scanner: the rule-based matching engine

    A shallow embedding of the ingredient parser, the allergy checker, the
    hidden-allergen detector, the medication checker and the user profile of
    the food allergen scanner, followed by the properties established about
    them.

    Python [str] values are modelled as [string] over ASCII characters:
    [lower], [strip] and the character classes of [re] are the ASCII
    restrictions of the Python operations.  Dictionaries whose iteration
    order the code depends on (first match wins) are association lists in
    insertion order.  Wall-clock fields of the profile ([created_at],
    [updated_at]) are not part of the model. *)

From Stdlib Require Import String Ascii List Bool Arith ZArith Lia.
Import ListNotations.
Open Scope string_scope.
Open Scope bool_scope.

(** ** Python string primitives *)

Module PyStr.

Definition code (c : ascii) : nat := nat_of_ascii c.

Definition between (lo hi : nat) (c : ascii) : bool :=
  Nat.leb lo (code c) && Nat.leb (code c) hi.

Definition is_upper (c : ascii) : bool := between 65 90 c.
Definition is_lower (c : ascii) : bool := between 97 122 c.
Definition is_digit (c : ascii) : bool := between 48 57 c.

(** [str.isspace] on ASCII: tab, LF, VT, FF, CR, FS, GS, RS, US, space.
    The same class is used by [\s] in [re]. *)
Definition is_space (c : ascii) : bool :=
  between 9 13 c || between 28 32 c.

(** [\w] on ASCII. *)
Definition is_word (c : ascii) : bool :=
  is_upper c || is_lower c || is_digit c || Nat.eqb (code c) 95.

Definition lower_char (c : ascii) : ascii :=
  if is_upper c then ascii_of_nat (code c + 32) else c.

(** [s.lower()] *)
Fixpoint lower (s : string) : string :=
  match s with
  | EmptyString => EmptyString
  | String c s' => String (lower_char c) (lower s')
  end.

Definition is_empty (s : string) : bool :=
  match s with EmptyString => true | _ => false end.

(** Truthiness of a Python [str]. *)
Definition truthy (s : string) : bool := negb (is_empty s).

(** [s.lstrip(chars)] with the character set given as a predicate. *)
Fixpoint lstrip_by (p : ascii -> bool) (s : string) : string :=
  match s with
  | EmptyString => EmptyString
  | String c s' => if p c then lstrip_by p s' else s
  end.

(** [s.rstrip(chars)] with the character set given as a predicate. *)
Fixpoint rstrip_by (p : ascii -> bool) (s : string) : string :=
  match s with
  | EmptyString => EmptyString
  | String c s' =>
      let r := rstrip_by p s' in
      if is_empty r && p c then EmptyString else String c r
  end.

(** [s.strip()] *)
Definition strip (s : string) : string :=
  rstrip_by is_space (lstrip_by is_space s).

(** [s.startswith(pre)] *)
Fixpoint starts_with (pre s : string) : bool :=
  match pre, s with
  | EmptyString, _ => true
  | String _ _, EmptyString => false
  | String a pre', String b s' => Ascii.eqb a b && starts_with pre' s'
  end.

(** [sub in s] *)
Fixpoint contains (sub s : string) : bool :=
  starts_with sub s ||
  match s with
  | EmptyString => false
  | String _ s' => contains sub s'
  end.

Fixpoint drop (n : nat) (s : string) : string :=
  match n, s with
  | O, _ => s
  | S _, EmptyString => EmptyString
  | S n', String _ s' => drop n' s'
  end.

(** [s.split(sep)] for a non-empty separator.  The scan returns the piece
    being read and the pieces after it; [skip] counts the characters of a
    separator occurrence still to be passed over. *)
Fixpoint split_aux (sep : string) (skip : nat) (s : string)
  : string * list string :=
  match s with
  | EmptyString => (EmptyString, [])
  | String c s' =>
      match skip with
      | S k => split_aux sep k s'
      | O =>
          if starts_with sep s
          then let (p, ps) := split_aux sep (String.length sep - 1) s' in
               (EmptyString, p :: ps)
          else let (p, ps) := split_aux sep 0 s' in
               (String c p, ps)
      end
  end.

Definition split (s sep : string) : list string :=
  let (p, ps) := split_aux sep 0 s in p :: ps.

(** [s.split()]: the maximal runs of non-whitespace characters. *)
Fixpoint split_ws_aux (s : string) : string * list string :=
  match s with
  | EmptyString => (EmptyString, [])
  | String c s' =>
      let (w, ws) := split_ws_aux s' in
      if is_space c
      then (EmptyString, if is_empty w then ws else w :: ws)
      else (String c w, ws)
  end.

Definition split_ws (s : string) : list string :=
  let (w, ws) := split_ws_aux s in if is_empty w then ws else w :: ws.

(** [sep.join(l)] *)
Definition join (sep : string) (l : list string) : string :=
  String.concat sep l.

(** [x in l] for a list of strings. *)
Definition mem (x : string) (l : list string) : bool :=
  existsb (String.eqb x) l.

(** [list(set(l))]: the distinct elements of [l].  Python fixes no order
    for the result; the model keeps the last occurrence of each. *)
Definition list_set (l : list string) : list string :=
  nodup string_dec l.

End PyStr.

(** ** The fragment of [re] used by the parser *)

Module Re.
Import PyStr.

(** A matcher gives, for the character before a position ([None] at the
    start of the text) and the text from that position on, the length of
    the match that starts there. *)
Definition matcher : Type := option ascii -> string -> option nat.

(** [re.sub(pattern, '', text)]: the leftmost non-overlapping matches are
    deleted, scanning from left to right.  An empty match deletes
    nothing. *)
Fixpoint sub_aux (m : matcher) (skip : nat) (prev : option ascii)
         (s : string) : string :=
  match s with
  | EmptyString => EmptyString
  | String c s' =>
      match skip with
      | S k => sub_aux m k (Some c) s'
      | O =>
          match m prev s with
          | Some (S k) => sub_aux m k (Some c) s'
          | _ => String c (sub_aux m 0 (Some c) s')
          end
      end
  end.

Definition sub (m : matcher) (text : string) : string :=
  sub_aux m 0 None text.

(** Length of the longest prefix whose characters satisfy [p]. *)
Fixpoint span (p : ascii -> bool) (s : string) : nat :=
  match s with
  | EmptyString => 0
  | String c s' => if p c then S (span p s') else 0
  end.

(** Index of the first occurrence of [c]. *)
Fixpoint find_char (c : ascii) (s : string) : option nat :=
  match s with
  | EmptyString => None
  | String d s' =>
      if Ascii.eqb c d then Some 0
      else option_map S (find_char c s')
  end.

(** [startswith] under [re.IGNORECASE], for a lower-case literal. *)
Fixpoint starts_with_ci (lit s : string) : bool :=
  match lit, s with
  | EmptyString, _ => true
  | String _ _, EmptyString => false
  | String a lit', String b s' =>
      Ascii.eqb a (lower_char b) && starts_with_ci lit' s'
  end.

(** [\b]: exactly one of the two neighbouring characters is a word
    character. *)
Definition word_boundary (prev : option ascii) (s : string) : bool :=
  xorb (match prev with Some c => is_word c | None => false end)
       (match s with String c _ => is_word c | EmptyString => false end).

(** [\b\d+\.?\d*%] *)
Definition percentage : matcher := fun prev s =>
  if word_boundary prev s then
    let n1 := span is_digit s in
    match n1 with
    | O => None
    | S _ =>
        let s1 := drop n1 s in
        let d := if starts_with "." s1 then 1 else 0 in
        let s2 := drop d s1 in
        let n2 := span is_digit s2 in
        if starts_with "%" (drop n2 s2) then Some (n1 + d + n2 + 1)
        else None
    end
  else None.

(** [open [^close]* close], the shape of the two bracket patterns. *)
Definition delimited (open close : ascii) : matcher := fun _ s =>
  match s with
  | String c s' =>
      if Ascii.eqb c open
      then option_map (fun n => n + 2) (find_char close s')
      else None
  | EmptyString => None
  end.

(** [\([^)]*\)] *)
Definition parentheses : matcher := delimited "("%char ")"%char.

(** [\[[^\]]*\]] *)
Definition brackets : matcher := delimited "["%char "]"%char.

(** [E\d{3,4}] under [re.IGNORECASE] *)
Definition additives : matcher := fun _ s =>
  match s with
  | String c s' =>
      if Ascii.eqb (lower_char c) "e"%char then
        let n := span is_digit s' in
        if Nat.leb 3 n then Some (1 + Nat.min n 4) else None
      else None
  | EmptyString => None
  end.

(** First alternative of [alts] that matches at the position. *)
Fixpoint first_alt (alts : list string) (s : string) : option string :=
  match alts with
  | [] => None
  | a :: alts' => if starts_with_ci a s then Some a else first_alt alts' s
  end.

(** [(preservative|antioxidant|emulsifier|stabilizer):\s*] *)
Definition preservatives : matcher := fun _ s =>
  match first_alt ["preservative:"; "antioxidant:"; "emulsifier:";
                   "stabilizer:"] s with
  | Some a =>
      let n := String.length a in
      Some (n + span is_space (drop n s))
  | None => None
  end.

(** [(may contain|contains|produced in facility)] *)
Definition allergen_warnings : matcher := fun _ s =>
  option_map String.length
    (first_alt ["may contain"; "contains"; "produced in facility"] s).

End Re.

(** ** models/user_profile.py *)

Record UserProfile : Type := mkUserProfile {
  name : string;
  age : option Z;
  allergies : list string;
  medications : list string;
  medical_conditions : list string;
  emergency_contact : string
}.

Definition set_allergies (l : list string) (p : UserProfile) : UserProfile :=
  mkUserProfile (name p) (age p) l (medications p) (medical_conditions p)
                (emergency_contact p).

(** [UserProfile.add_allergy] *)
Definition add_allergy (allergy : string) (self : UserProfile) : UserProfile :=
  if PyStr.truthy allergy
     && negb (PyStr.mem (PyStr.lower allergy)
                        (map PyStr.lower (allergies self)))
  then set_allergies (allergies self ++ [allergy]) self
  else self.

(** [UserProfile.remove_allergy] *)
Definition remove_allergy (allergy : string) (self : UserProfile)
  : UserProfile :=
  set_allergies
    (filter (fun a => negb (String.eqb (PyStr.lower a) (PyStr.lower allergy)))
            (allergies self))
    self.

(** The profile of [UserProfile()] with every argument left at its
    default. *)
Definition empty_profile : UserProfile :=
  mkUserProfile "" None [] [] [] "".

(** The calls that change the allergies of a profile, and a sequence of
    them run from left to right. *)
Inductive AllergyCall : Type :=
  | AddAllergy (allergy : string)
  | RemoveAllergy (allergy : string).

Definition call (self : UserProfile) (c : AllergyCall) : UserProfile :=
  match c with
  | AddAllergy a => add_allergy a self
  | RemoveAllergy a => remove_allergy a self
  end.

Definition run (calls : list AllergyCall) (self : UserProfile) : UserProfile :=
  fold_left call calls self.

Definition set_medications (l : list string) (p : UserProfile)
  : UserProfile :=
  mkUserProfile (name p) (age p) (allergies p) l (medical_conditions p)
                (emergency_contact p).

(** [UserProfile.add_medication] *)
Definition add_medication (medication : string) (self : UserProfile)
  : UserProfile :=
  if PyStr.truthy medication
     && negb (PyStr.mem (PyStr.lower medication)
                        (map PyStr.lower (medications self)))
  then set_medications (medications self ++ [medication]) self
  else self.

(** [UserProfile.remove_medication] *)
Definition remove_medication (medication : string) (self : UserProfile)
  : UserProfile :=
  set_medications
    (filter (fun m =>
               negb (String.eqb (PyStr.lower m) (PyStr.lower medication)))
            (medications self))
    self.

(** The test of [has_allergy] and [has_medication]: one lower-cased string
    occurs in the other. *)
Definition overlaps (entry text : string) : bool :=
  PyStr.contains (PyStr.lower entry) (PyStr.lower text)
  || PyStr.contains (PyStr.lower text) (PyStr.lower entry).

(** [UserProfile.has_allergy] *)
Definition has_allergy (self : UserProfile) (ingredient : string) : bool :=
  existsb (fun allergy => overlaps allergy ingredient) (allergies self).

(** [UserProfile.has_medication] *)
Definition has_medication (self : UserProfile) (medication : string) : bool :=
  existsb (fun med => overlaps med medication) (medications self).

(** [UserProfile._get_age_group]; the age is any integer, and the test
    [not self.age] holds for a missing age and for the age 0. *)
Definition _get_age_group (self : UserProfile) : string :=
  match age self with
  | None => "unknown"
  | Some a =>
      if Z.eqb a 0 then "unknown"
      else if Z.ltb a 2 then "infant"
      else if Z.ltb a 13 then "child"
      else if Z.ltb a 18 then "adolescent"
      else if Z.ltb a 65 then "adult"
      else "senior"
  end.

(** The guard [not user_profile or not user_profile.<field>] of the
    checkers does not fire: there is a profile and its field is a non-empty
    list. *)
Definition has_entries (field : UserProfile -> list string)
           (user_profile : option UserProfile) : bool :=
  match user_profile with
  | None => false
  | Some p => match field p with [] => false | _ :: _ => true end
  end.

(** ** services/ingredient_analyzer.py: the parser *)

Module IngredientParser.
Import PyStr.

(** [self.processing_patterns], in insertion order. *)
Definition processing_patterns : list Re.matcher :=
  [Re.percentage; Re.parentheses; Re.brackets; Re.additives;
   Re.preservatives; Re.allergen_warnings].

Definition remove_patterns (text : string) : string :=
  fold_left (fun t m => Re.sub m t) processing_patterns text.

(** The list [[',', ';', '\\n', '\\r', '|']] of the source: the third and
    fourth entries are the two-character strings backslash-n and
    backslash-r. *)
Definition separators : list string := [","; ";"; "\n"; "\r"; "|"].

(** One round of the splitting loop. *)
Definition split_round (ingredients : list string) (separator : string)
  : list string :=
  flat_map (fun ingredient => map strip (split ingredient separator))
           ingredients.

Definition split_all (text : string) : list string :=
  fold_left split_round separators [text].

(** The class [[\d\.\-\s]] of the leading-numbering pattern. *)
Definition is_leading (c : ascii) : bool :=
  is_digit c || Ascii.eqb c "."%char || Ascii.eqb c "-"%char || is_space c.

(** The characters of [rstrip('.,;:')]. *)
Definition is_trailing (c : ascii) : bool :=
  Ascii.eqb c "."%char || Ascii.eqb c ","%char
  || Ascii.eqb c ";"%char || Ascii.eqb c ":"%char.

(** Body of the cleaning loop: the tokens one fragment contributes. *)
Definition clean (ingredient : string) : list string :=
  let ingredient := strip ingredient in
  if truthy ingredient && Nat.ltb 1 (String.length ingredient) then
    let ingredient := lstrip_by is_leading ingredient in
    let ingredient := rstrip_by is_trailing ingredient in
    if truthy ingredient then [ingredient] else []
  else [].

Definition _parse_ingredients (ingredients_text : string) : list string :=
  if negb (truthy ingredients_text) || negb (truthy (strip ingredients_text))
  then []
  else
    let text := strip (lower ingredients_text) in
    let text := remove_patterns text in
    flat_map clean (split_all text).

(** The joined form in which the application prints a token list:
    [', '.join(ingredients)]. *)
Definition joined (tokens : list string) : string := join ", " tokens.

End IngredientParser.

(** ** Severities and risk levels *)

(** The severity strings ['low'], ['moderate'], ['high'] of the knowledge
    bases. *)
Inductive Severity : Type := Low | Moderate | High.

(** The values of ['risk_level']. *)
Inductive RiskLevel : Type :=
  | Unknown
  | Safe
  | Risk (s : Severity).

Definition Severity_eqb (a b : Severity) : bool :=
  match a, b with
  | Low, Low | Moderate, Moderate | High, High => true
  | _, _ => false
  end.

(** The order [safe < low < moderate < high]. *)
Definition rank (l : RiskLevel) : nat :=
  match l with
  | Unknown => 0
  | Safe => 0
  | Risk Low => 1
  | Risk Moderate => 2
  | Risk High => 3
  end.

Definition level_max (a b : RiskLevel) : RiskLevel :=
  if Nat.ltb (rank a) (rank b) then b else a.

(** ** models/allergy_checker.py *)

Module AllergyChecker.
Import PyStr.

(** [self.allergen_database] *)
Definition allergen_database : list (string * list string) :=
  [("dairy", ["milk"; "cheese"; "butter"; "cream"; "yogurt"; "lactose";
              "casein"; "whey"; "lactoglobulin"; "lactalbumin"]);
   ("eggs", ["egg"; "eggs"; "albumin"; "globulin"; "lecithin";
             "lysozyme"; "mayonnaise"; "meringue"; "ovalbumin"]);
   ("peanuts", ["peanut"; "peanuts"; "groundnut"; "ground nut";
                "arachis oil"; "peanut oil"; "peanut butter"]);
   ("tree_nuts", ["almond"; "brazil nut"; "cashew"; "hazelnut"; "pecan";
                  "pistachio"; "walnut"; "macadamia"; "pine nut";
                  "chestnut"]);
   ("soy", ["soy"; "soya"; "soybean"; "tofu"; "miso"; "tempeh";
            "soy sauce"; "lecithin"; "edamame"]);
   ("wheat", ["wheat"; "flour"; "gluten"; "semolina"; "spelt";
              "kamut"; "bulgur"; "couscous"; "seitan"]);
   ("fish", ["fish"; "salmon"; "tuna"; "cod"; "sardine"; "anchovy";
             "mackerel"; "bass"; "trout"; "fish sauce"]);
   ("shellfish", ["crab"; "lobster"; "shrimp"; "prawn"; "scallop";
                  "oyster"; "mussel"; "clam"; "crayfish"; "langoustine"]);
   ("sesame", ["sesame"; "tahini"; "sesame oil"; "sesame seed";
               "gomasio"])].

(** [self.severity_levels] *)
Definition severity_levels : list (string * Severity) :=
  [("peanuts", High); ("tree_nuts", High); ("shellfish", High);
   ("fish", Moderate); ("eggs", Moderate); ("dairy", Moderate);
   ("soy", Low); ("wheat", Moderate); ("sesame", Moderate)].

(** [self.cross_contamination_risks] *)
Definition cross_contamination_table : list (string * list string) :=
  [("peanuts", ["tree_nuts"; "soy"]);
   ("tree_nuts", ["peanuts"]);
   ("dairy", ["eggs"]);
   ("wheat", ["oats"; "barley"; "rye"])].

(** [d.get(key, [])] on an association list. *)
Fixpoint get_list (d : list (string * list string)) (key : string)
  : list string :=
  match d with
  | [] => []
  | (k, v) :: d' => if String.eqb k key then v else get_list d' key
  end.

(** [a in b or b in a] *)
Definition either_contains (a b : string) : bool :=
  contains a b || contains b a.

(** The loop that finds the category of a user allergy: the first
    category one of whose listed allergens contains the allergy or is
    contained in it. *)
Fixpoint find_category (db : list (string * list string))
         (allergy_lower : string) : option string :=
  match db with
  | [] => None
  | (category, allergens) :: db' =>
      if existsb (either_contains allergy_lower) allergens
      then Some category
      else find_category db' allergy_lower
  end.

(** Truthiness of the variable that holds the category or [None]. *)
Definition category_truthy (c : option string) : bool :=
  match c with Some k => truthy k | None => false end.

Definition append_new (matches : list string) (ingredient : string)
  : list string :=
  if mem ingredient matches then matches else matches ++ [ingredient].

Definition _find_allergen_matches (user_allergy : string)
           (ingredients : list string) : list string :=
  let user_allergy_lower := strip (lower user_allergy) in
  let matches :=
    filter (fun ingredient =>
              contains user_allergy_lower ingredient
              || contains ingredient user_allergy_lower) ingredients in
  let allergen_category := find_category allergen_database user_allergy_lower in
  match allergen_category with
  | Some category =>
      if truthy category then
        let category_allergens := get_list allergen_database category in
        fold_left
          (fun matches ingredient =>
             fold_left
               (fun matches allergen =>
                  if contains allergen ingredient
                     || contains ingredient allergen
                  then append_new matches ingredient
                  else matches)
               category_allergens matches)
          ingredients matches
      else matches
  | None => matches
  end.

Fixpoint severity_lookup (levels : list (string * Severity))
         (allergen_lower : string) : Severity :=
  match levels with
  | [] => Moderate
  | (severity_allergen, severity) :: levels' =>
      if contains allergen_lower severity_allergen
         || contains severity_allergen allergen_lower
         || existsb (either_contains allergen_lower)
                    (get_list allergen_database severity_allergen)
      then severity
      else severity_lookup levels' allergen_lower
  end.

Definition _get_allergen_severity (allergen : string) : Severity :=
  severity_lookup severity_levels (strip (lower allergen)).

Definition _check_cross_contamination (user_allergy : string)
           (ingredients : list string) : list string :=
  let allergen_lower := strip (lower user_allergy) in
  let user_allergen_category := find_category allergen_database allergen_lower in
  if negb (category_truthy user_allergen_category) then []
  else
    let cross_risk_categories :=
      get_list cross_contamination_table
               (match user_allergen_category with
                | Some c => c | None => "" end) in
    flat_map
      (fun risk_category =>
         let risk_allergens := get_list allergen_database risk_category in
         if existsb
              (fun ingredient =>
                 existsb (fun risk_allergen =>
                            contains risk_allergen ingredient)
                         risk_allergens)
              ingredients
         then ["Cross-contamination risk with " ++ risk_category]
         else [])
      cross_risk_categories.

Definition _calculate_overall_risk (high_risk moderate_risk low_risk
                                    : list string) : RiskLevel :=
  match high_risk, moderate_risk, low_risk with
  | _ :: _, _, _ => Risk High
  | [], _ :: _, _ => Risk Moderate
  | [], [], _ :: _ => Risk Low
  | [], [], [] => Safe
  end.

(** The dictionary returned by [check_allergens], without its
    ['recommendations'] text.  ['ingredient_matches'] is absent from the
    dictionary of the early return. *)
Record Analysis : Type := mkAnalysis {
  risk_level : RiskLevel;
  detected_allergens : list string;
  high_risk_allergens : list string;
  moderate_risk_allergens : list string;
  low_risk_allergens : list string;
  cross_contamination_risks : list string;
  ingredient_matches : option (list string)
}.

(** The local lists of [check_allergens] while its loop runs. *)
Record Locals : Type := mkLocals {
  l_detected : list string;
  l_high : list string;
  l_moderate : list string;
  l_low : list string;
  l_cross : list string;
  l_matches : list string
}.

(** One iteration of the loop over the user's allergies. *)
Definition check_one (normalized_ingredients : list string) (st : Locals)
           (user_allergy : string) : Locals :=
  let allergen_matches :=
    _find_allergen_matches user_allergy normalized_ingredients in
  match allergen_matches with
  | [] =>
      mkLocals (l_detected st) (l_high st) (l_moderate st) (l_low st)
               (l_cross st) allergen_matches
  | _ :: _ =>
      let severity := _get_allergen_severity user_allergy in
      let cross_risks :=
        _check_cross_contamination user_allergy normalized_ingredients in
      mkLocals
        (l_detected st ++ [user_allergy])
        (match severity with High => l_high st ++ [user_allergy]
                           | _ => l_high st end)
        (match severity with Moderate => l_moderate st ++ [user_allergy]
                           | _ => l_moderate st end)
        (match severity with Low => l_low st ++ [user_allergy]
                           | _ => l_low st end)
        (l_cross st ++ cross_risks)
        allergen_matches
  end.

Definition check_allergens (ingredients : list string)
           (user_profile : option UserProfile) : Analysis :=
  match user_profile with
  | None => mkAnalysis Unknown [] [] [] [] [] None
  | Some p =>
      match allergies p with
      | [] => mkAnalysis Unknown [] [] [] [] [] None
      | _ :: _ =>
          let normalized_ingredients :=
            map (fun ing => strip (lower ing)) ingredients in
          let st :=
            fold_left (check_one normalized_ingredients) (allergies p)
                      (mkLocals [] [] [] [] [] []) in
          mkAnalysis
            (_calculate_overall_risk (l_high st) (l_moderate st) (l_low st))
            (l_detected st) (l_high st) (l_moderate st) (l_low st)
            (list_set (l_cross st))
            (Some (l_matches st))
      end
  end.

(** The local table [alternatives] of [get_safe_alternatives]. *)
Definition alternatives : list (string * list string) :=
  [("dairy", ["Almond milk"; "Oat milk"; "Coconut milk"; "Soy milk"]);
   ("eggs", ["Flax eggs"; "Chia eggs"; "Applesauce"; "Aquafaba"]);
   ("wheat", ["Rice flour"; "Almond flour"; "Coconut flour"; "Quinoa"]);
   ("nuts", ["Sunflower seed butter"; "Pumpkin seed butter"; "Tahini"]);
   ("soy", ["Coconut aminos"; "Pea protein"; "Hemp protein"])].

(** The alternatives one detected allergen contributes. *)
Definition alternatives_for (allergen : string) : list string :=
  let allergen_lower := lower allergen in
  flat_map
    (fun entry : string * list string =>
       if contains (fst entry) allergen_lower
          || contains allergen_lower (fst entry)
       then snd entry else [])
    alternatives.

Definition get_safe_alternatives (detected_allergens : list string)
  : list string :=
  list_set (flat_map alternatives_for detected_allergens).

End AllergyChecker.

(** ** services/ingredient_analyzer.py: hidden allergens and the analysis *)

Module IngredientAnalyzer.
Import PyStr.

(** The local table [hidden_sources] of [_detect_hidden_allergens]. *)
Definition hidden_sources : list (string * list string) :=
  [("dairy", ["casein"; "whey"; "lactose"; "lactoglobulin"; "lactalbumin";
              "ghee"; "butter flavor"; "cream flavor"; "milk solids"]);
   ("egg", ["albumin"; "globulin"; "lecithin"; "lysozyme"; "ovalbumin";
            "egg whites"; "egg substitute"]);
   ("soy", ["lecithin"; "tocopherol"; "vegetable protein"; "vegetable oil";
            "natural flavor"]);
   ("wheat", ["modified food starch"; "vegetable protein"; "malt";
              "dextrin"; "maltodextrin"; "starch"]);
   ("peanuts", ["arachis oil"; "groundnut oil"; "beer nuts";
                "monkey nuts"]);
   ("tree_nuts", ["natural flavoring"; "marzipan"; "nougat"; "praline"])].

(** The label [f"{ingredient} (hidden {allergen_category})"]. *)
Definition hidden_label (ingredient allergen_category : string) : string :=
  ingredient ++ " (hidden " ++ allergen_category ++ ")".

(** The labels one user allergy contributes, in the order of the loops. *)
Definition hidden_for (ingredients : list string) (user_allergy : string)
  : list string :=
  let allergy_lower := lower user_allergy in
  flat_map
    (fun entry : string * list string =>
       let (allergen_category, hidden_names) := entry in
       if contains allergen_category allergy_lower
          || contains allergy_lower allergen_category
       then
         flat_map
           (fun ingredient =>
              let ingredient_lower := lower ingredient in
              if existsb (fun hidden_name =>
                            contains hidden_name ingredient_lower)
                         hidden_names
              then [hidden_label ingredient allergen_category]
              else [])
           ingredients
       else [])
    hidden_sources.

Definition _detect_hidden_allergens (ingredients : list string)
           (user_profile : option UserProfile) : list string :=
  if has_entries allergies user_profile then
    match user_profile with
    | Some p => list_set (flat_map (hidden_for ingredients) (allergies p))
    | None => []
    end
  else [].

(** The dictionary returned by [analyze_ingredients]: the error variant
    when no ingredient is found, otherwise the allergy analysis extended
    with the hidden allergens and the parsed ingredients.  The quality
    and nutrition entries and the recommendation text are not part of the
    model. *)
Inductive Result : Type :=
  | NoIngredients
  | Analyzed (allergy_analysis : AllergyChecker.Analysis)
             (hidden_allergens : list string)
             (processed_ingredients : list string)
             (total_ingredients : nat).

Definition analyze_ingredients (ingredients_text : string)
           (user_profile : option UserProfile) : Result :=
  let ingredients := IngredientParser._parse_ingredients ingredients_text in
  match ingredients with
  | [] => NoIngredients
  | _ :: _ =>
      Analyzed (AllergyChecker.check_allergens ingredients user_profile)
               (_detect_hidden_allergens ingredients user_profile)
               ingredients
               (List.length ingredients)
  end.

(** The ['risk_level'] entry of either variant. *)
Definition result_risk_level (r : Result) : RiskLevel :=
  match r with
  | NoIngredients => Unknown
  | Analyzed a _ _ _ => AllergyChecker.risk_level a
  end.

(** The ['hidden_allergens'] entry, absent from the error variant. *)
Definition result_hidden_allergens (r : Result) : option (list string) :=
  match r with
  | NoIngredients => None
  | Analyzed _ h _ _ => Some h
  end.

(** The indicator lists of [_analyze_ingredient_quality]. *)
Definition artificial_indicators : list string :=
  ["artificial"; "synthetic"; "modified"; "hydrolyzed";
   "monosodium glutamate"; "msg"; "high fructose corn syrup"].

Definition natural_indicators : list string :=
  ["natural"; "organic"; "whole"; "fresh"; "pure"; "raw"].

Definition preservative_indicators : list string :=
  ["preservative"; "sodium benzoate"; "potassium sorbate";
   "bht"; "bha"; "tbhq"; "sulfite"].

Definition additive_indicators : list string :=
  ["color"; "coloring"; "dye"; "flavor"; "flavoring";
   "emulsifier"; "stabilizer"; "thickener"].

Definition whole_food_names : list string :=
  ["water"; "salt"; "sugar"; "flour"; "oil"; "milk"; "egg";
   "meat"; "chicken"; "beef"; "fish"; "vegetable"; "fruit"].

(** [any(indicator in ingredient_lower for indicator in indicators)] *)
Definition any_in (indicators : list string) (ingredient_lower : string)
  : bool :=
  existsb (fun indicator => contains indicator ingredient_lower) indicators.

(** The dictionary [quality_factors]. *)
Record QualityFactors : Type := mkQualityFactors {
  artificial_ingredients : list string;
  natural_ingredients : list string;
  preservatives_found : list string;
  additives_found : list string;
  whole_foods : list string;
  processed_foods : list string
}.

(** The score and the factors while the loop runs. *)
Record QualityState : Type := mkQualityState {
  q_score : Z;
  q_factors : QualityFactors
}.

(** One iteration of the loop of [_analyze_ingredient_quality]. *)
Definition quality_step (st : QualityState) (ingredient : string)
  : QualityState :=
  let ingredient_lower := lower ingredient in
  let f0 := q_factors st in
  let st1 :=
    if any_in artificial_indicators ingredient_lower then
      mkQualityState
        (q_score st - 5)
        (mkQualityFactors
           (artificial_ingredients f0 ++ [ingredient])
           (natural_ingredients f0) (preservatives_found f0)
           (additives_found f0) (whole_foods f0) (processed_foods f0))
    else if any_in natural_indicators ingredient_lower then
      mkQualityState
        (q_score st + 3)
        (mkQualityFactors
           (artificial_ingredients f0)
           (natural_ingredients f0 ++ [ingredient]) (preservatives_found f0)
           (additives_found f0) (whole_foods f0) (processed_foods f0))
    else st in
  let f1 := q_factors st1 in
  let st2 :=
    if any_in preservative_indicators ingredient_lower then
      mkQualityState
        (q_score st1 - 2)
        (mkQualityFactors
           (artificial_ingredients f1) (natural_ingredients f1)
           (preservatives_found f1 ++ [ingredient])
           (additives_found f1) (whole_foods f1) (processed_foods f1))
    else st1 in
  let f2 := q_factors st2 in
  let st3 :=
    if any_in additive_indicators ingredient_lower then
      mkQualityState
        (q_score st2 - 1)
        (mkQualityFactors
           (artificial_ingredients f2) (natural_ingredients f2)
           (preservatives_found f2)
           (additives_found f2 ++ [ingredient])
           (whole_foods f2) (processed_foods f2))
    else st2 in
  let f3 := q_factors st3 in
  if any_in whole_food_names ingredient_lower then
    mkQualityState
      (q_score st3 + 1)
      (mkQualityFactors
         (artificial_ingredients f3) (natural_ingredients f3)
         (preservatives_found f3) (additives_found f3)
         (whole_foods f3 ++ [ingredient]) (processed_foods f3))
  else st3.

(** The quality category of a score. *)
Definition quality_category_of (quality_score : Z) : string :=
  if Z.leb 10 quality_score then "excellent"
  else if Z.leb 5 quality_score then "good"
  else if Z.leb 0 quality_score then "fair"
  else if Z.leb (-5) quality_score then "poor"
  else "very_poor".

(** The dictionary returned by [_analyze_ingredient_quality]. *)
Record Quality : Type := mkQuality {
  quality_score : Z;
  quality_category : string;
  quality_factors : QualityFactors;
  total_artificial : nat;
  total_natural : nat;
  total_preservatives : nat;
  total_additives : nat
}.

Definition _analyze_ingredient_quality (ingredients : list string)
  : Quality :=
  let st :=
    fold_left quality_step ingredients
              (mkQualityState 0 (mkQualityFactors [] [] [] [] [] [])) in
  mkQuality
    (q_score st)
    (quality_category_of (q_score st))
    (q_factors st)
    (List.length (artificial_ingredients (q_factors st)))
    (List.length (natural_ingredients (q_factors st)))
    (List.length (preservatives_found (q_factors st)))
    (List.length (additives_found (q_factors st))).

End IngredientAnalyzer.

(** ** services/medication_checker.py *)

Module MedicationChecker.
Import PyStr.

(** An entry of [self.known_interactions]; the ['timing'] key is
    optional. *)
Record MedRecord : Type := mkMedRecord {
  avoid : list string;
  caution : list string;
  timing_note : option string;
  med_severity : Severity
}.

(** An entry of [self.medication_categories]. *)
Record CategoryRecord : Type := mkCategoryRecord {
  cat_medications : list string;
  food_interactions : list string;
  cat_severity : Severity
}.

(** The two tables of a checker instance. *)
Record Checker : Type := mkChecker {
  known_interactions : list (string * MedRecord);
  medication_categories : list (string * CategoryRecord)
}.

(** The tables built by [__init__]. *)
Definition init : Checker :=
  mkChecker
    [("warfarin",
      mkMedRecord ["vitamin k"; "green leafy vegetables"; "broccoli";
                   "spinach"; "kale"]
                  ["alcohol"; "cranberry juice"; "grapefruit"]
                  None High);
     ("aspirin",
      mkMedRecord ["alcohol"]
                  ["vitamin e"; "omega-3"; "fish oil"; "garlic supplements"]
                  None Moderate);
     ("metformin",
      mkMedRecord ["excessive alcohol"]
                  ["high carbohydrate foods"; "sugary drinks"]
                  None Moderate);
     ("lisinopril",
      mkMedRecord ["potassium supplements"; "salt substitutes"]
                  ["bananas"; "oranges"; "potatoes"; "high potassium foods"]
                  None Moderate);
     ("simvastatin",
      mkMedRecord ["grapefruit"; "grapefruit juice"]
                  ["red yeast rice"; "niacin"; "alcohol"]
                  None High);
     ("digoxin",
      mkMedRecord ["licorice"; "st johns wort"]
                  ["high fiber foods"; "bran"]
                  None High);
     ("levothyroxine",
      mkMedRecord ["soy products"; "coffee"; "calcium supplements"]
                  ["iron supplements"; "high fiber foods"]
                  (Some "take 30-60 minutes before eating") Moderate);
     ("monoamine oxidase inhibitor",
      mkMedRecord ["aged cheeses"; "wine"; "beer"; "soy sauce";
                   "pickled foods"; "smoked meats"]
                  ["chocolate"; "caffeine"; "fava beans"]
                  None High);
     ("tetracycline",
      mkMedRecord ["dairy products"; "calcium"; "iron supplements"]
                  ["antacids"; "aluminum"; "magnesium"]
                  (Some "take 1 hour before or 2 hours after meals")
                  Moderate);
     ("phenytoin",
      mkMedRecord ["alcohol"]
                  ["folic acid supplements"; "tube feeding"]
                  None Moderate)]
    [("blood_thinners",
      mkCategoryRecord
        ["warfarin"; "heparin"; "coumadin"; "eliquis"; "xarelto"]
        ["vitamin k rich foods"; "alcohol"; "cranberry"; "grapefruit"]
        High);
     ("antibiotics",
      mkCategoryRecord
        ["tetracycline"; "ciprofloxacin"; "amoxicillin"; "penicillin"]
        ["dairy products"; "calcium"; "iron"]
        Moderate);
     ("antidepressants",
      mkCategoryRecord
        ["ssri"; "maoi"; "tricyclic"; "sertraline"; "fluoxetine"]
        ["alcohol"; "aged foods"; "tyramine rich foods"]
        High);
     ("heart_medications",
      mkCategoryRecord
        ["digoxin"; "beta blockers"; "ace inhibitors"]
        ["potassium"; "sodium"; "alcohol"]
        Moderate);
     ("diabetes_medications",
      mkCategoryRecord
        ["metformin"; "insulin"; "sulfonylureas"]
        ["alcohol"; "high sugar foods"; "carbohydrates"]
        Moderate)].

Inductive InteractionType : Type :=
  | Avoid
  | Caution
  | CategoryInteraction.

(** An interaction dictionary.  The ['category'] key exists only in
    category interactions, the ['timing'] key only in the others. *)
Record Interaction : Type := mkInteraction {
  medication : string;
  ingredient : string;
  interaction_type : InteractionType;
  category : option string;
  severity : Severity;
  description : string;
  timing : option string
}.

Record TimingRecommendation : Type := mkTiming {
  t_medication : string;
  t_timing : string
}.

(** The table of [_check_ingredient_aliases]. *)
Definition ingredient_alias_table : list (string * list string) :=
  [("vitamin k", ["phylloquinone"; "menaquinone"; "green leafy"]);
   ("grapefruit", ["citrus paradisi"; "grapefruit juice"]);
   ("dairy", ["milk"; "cheese"; "yogurt"; "cream"; "butter"]);
   ("alcohol", ["ethanol"; "wine"; "beer"; "spirits"; "ethyl alcohol"]);
   ("caffeine", ["coffee"; "tea"; "cola"; "energy drink"]);
   ("tyramine", ["aged cheese"; "wine"; "soy sauce"; "pickled"]);
   ("potassium", ["banana"; "orange"; "potato"; "salt substitute"])].

(** The loop of [_check_ingredient_aliases]: the first group related to
    the target decides. *)
Fixpoint alias_scan (aliases : list (string * list string))
         (ingredient target : string) : bool :=
  match aliases with
  | [] => false
  | (alias_group, alias_list) :: aliases' =>
      if contains alias_group target then
        existsb (fun alias => contains alias ingredient) alias_list
      else if contains target alias_group then
        existsb (fun alias => contains alias ingredient) alias_list
      else alias_scan aliases' ingredient target
  end.

Definition _check_ingredient_aliases (ingredient target : string) : bool :=
  alias_scan ingredient_alias_table ingredient target.

Definition _ingredient_contains (ingredients : list string)
           (target : string) : bool :=
  let target_lower := lower target in
  let target_words := split_ws target_lower in
  existsb
    (fun ingredient =>
       let ingredient_lower := lower ingredient in
       contains target_lower ingredient_lower
       || forallb (fun word => contains word ingredient_lower) target_words
       || _check_ingredient_aliases ingredient_lower target_lower)
    ingredients.

(** The table of [_get_medication_aliases]. *)
Definition medication_alias_table : list (string * list string) :=
  [("warfarin", ["coumadin"; "jantoven"]);
   ("aspirin", ["acetylsalicylic acid"; "asa"]);
   ("metformin", ["glucophage"; "fortamet"]);
   ("lisinopril", ["prinivil"; "zestril"]);
   ("simvastatin", ["zocor"]);
   ("levothyroxine", ["synthroid"; "levoxyl"; "thyroid hormone"]);
   ("digoxin", ["lanoxin"; "digitalis"])].

Definition _get_medication_aliases (medication : string) : list string :=
  AllergyChecker.get_list medication_alias_table medication.

(** The test that selects a record for a medication string. *)
Definition resolves (med_name medication_lower : string) : bool :=
  contains med_name medication_lower
  || existsb (fun alias => contains alias medication_lower)
             (_get_medication_aliases med_name).

(** [interaction_data.get('timing', '')] *)
Definition timing_or_empty (r : MedRecord) : string :=
  match timing_note r with Some t => t | None => "" end.

(** ['moderate' if severity == 'high' else 'low'] *)
Definition caution_severity (s : Severity) : Severity :=
  match s with High => Moderate | _ => Low end.

Definition avoid_interaction (medication : string) (r : MedRecord)
           (avoid_item : string) : Interaction :=
  mkInteraction medication avoid_item Avoid None (med_severity r)
    ("Should avoid " ++ avoid_item ++ " when taking " ++ medication)
    (Some (timing_or_empty r)).

Definition caution_interaction (medication : string) (r : MedRecord)
           (caution_item : string) : Interaction :=
  mkInteraction medication caution_item Caution None
    (caution_severity (med_severity r))
    ("Use caution with " ++ caution_item ++ " when taking " ++ medication)
    (Some (timing_or_empty r)).

(** The interactions one resolved record contributes. *)
Definition record_interactions (medication : string)
           (ingredients : list string) (r : MedRecord)
  : list Interaction :=
  map (avoid_interaction medication r)
      (filter (_ingredient_contains ingredients) (avoid r))
  ++ map (caution_interaction medication r)
         (filter (_ingredient_contains ingredients) (caution r)).

(** [category.replace('_', ' ')] *)
Fixpoint underscores_to_spaces (s : string) : string :=
  match s with
  | EmptyString => EmptyString
  | String c s' =>
      String (if Ascii.eqb c "_"%char then " "%char else c)
             (underscores_to_spaces s')
  end.

Definition category_interaction (medication category : string)
           (d : CategoryRecord) (food_interaction : string) : Interaction :=
  mkInteraction medication food_interaction CategoryInteraction
    (Some category) (cat_severity d)
    (food_interaction ++ " may interact with "
       ++ underscores_to_spaces category ++ " medications")
    None.

Definition _check_category_interactions (self : Checker)
           (medication : string) (ingredients : list string)
  : list Interaction :=
  let medication_lower := strip (lower medication) in
  flat_map
    (fun entry : string * CategoryRecord =>
       let (category, category_data) := entry in
       if existsb (fun med => contains med medication_lower)
                  (cat_medications category_data)
       then
         map (category_interaction medication category category_data)
             (filter (_ingredient_contains ingredients)
                     (food_interactions category_data))
       else [])
    (medication_categories self).

Definition _check_single_medication (self : Checker) (medication : string)
           (ingredients : list string) : list Interaction :=
  let medication_lower := strip (lower medication) in
  flat_map
    (fun entry : string * MedRecord =>
       let (med_name, interaction_data) := entry in
       if resolves med_name medication_lower
       then record_interactions medication ingredients interaction_data
       else [])
    (known_interactions self)
  ++ _check_category_interactions self medication ingredients.

(** The dictionary returned by [check_interactions], without its
    ['recommendations'] text.  ['detailed_interactions'] is absent from
    the dictionary of the early return. *)
Record Report : Type := mkReport {
  interactions_found : bool;
  total_interactions : nat;
  high_risk_interactions : list Interaction;
  moderate_risk_interactions : list Interaction;
  low_risk_interactions : list Interaction;
  timing_recommendations : list TimingRecommendation;
  detailed_interactions : option (list Interaction)
}.

(** The local lists of [check_interactions] while its loops run. *)
Record Tally : Type := mkTally {
  all_interactions : list Interaction;
  high_list : list Interaction;
  moderate_list : list Interaction;
  low_list : list Interaction;
  timing_list : list TimingRecommendation
}.

(** [interaction.get('timing')] used as a condition. *)
Definition has_timing (i : Interaction) : bool :=
  match timing i with Some t => truthy t | None => false end.

(** One iteration of the inner loop, over the interactions of one
    medication. *)
Definition categorize (medication : string) (st : Tally)
           (interaction : Interaction) : Tally :=
  mkTally
    (all_interactions st)
    (match severity interaction with
     | High => high_list st ++ [interaction] | _ => high_list st end)
    (match severity interaction with
     | Moderate => moderate_list st ++ [interaction] | _ => moderate_list st end)
    (match severity interaction with
     | Low => low_list st ++ [interaction] | _ => low_list st end)
    (if has_timing interaction
     then timing_list st
          ++ [mkTiming medication
                (match timing interaction with Some t => t | None => "" end)]
     else timing_list st).

(** One iteration of the outer loop, over the medications. *)
Definition check_medication (self : Checker) (ingredients : list string)
           (st : Tally) (medication : string) : Tally :=
  let med_interactions :=
    _check_single_medication self medication ingredients in
  match med_interactions with
  | [] => st
  | _ :: _ =>
      fold_left (categorize medication) med_interactions
        (mkTally (all_interactions st ++ med_interactions)
                  (high_list st) (moderate_list st) (low_list st) (timing_list st))
  end.

Definition check_interactions (self : Checker) (ingredients : list string)
           (user_profile : option UserProfile) : Report :=
  if has_entries medications user_profile then
    match user_profile with
    | Some p =>
        let st :=
          fold_left (check_medication self ingredients) (medications p)
                    (mkTally [] [] [] [] []) in
        mkReport
          (Nat.ltb 0 (List.length (all_interactions st)))
          (List.length (all_interactions st))
          (high_list st) (moderate_list st) (low_list st)
          (timing_list st)
          (Some (all_interactions st))
    | None => mkReport false 0 [] [] [] [] None
    end
  else mkReport false 0 [] [] [] [] None.

(** [medication in self.known_interactions] *)
Definition has_record (known : list (string * MedRecord)) (key : string)
  : bool :=
  existsb (fun entry => String.eqb (fst entry) key) known.

(** [self.known_interactions.get(key)] *)
Fixpoint get_record (known : list (string * MedRecord)) (key : string)
  : option MedRecord :=
  match known with
  | [] => None
  | (k, r) :: known' =>
      if String.eqb k key then Some r else get_record known' key
  end.

(** The record of [key] replaced by its image under [f], in place. *)
Fixpoint update_record (known : list (string * MedRecord)) (key : string)
         (f : MedRecord -> MedRecord) : list (string * MedRecord) :=
  match known with
  | [] => []
  | (k, r) :: known' =>
      if String.eqb k key then (k, f r) :: known'
      else (k, r) :: update_record known' key f
  end.

(** The last two statements of [add_custom_interaction]: the ingredient is
    appended to the avoid list for the severity ['high'] and to the
    caution list otherwise, unless the list holds it. *)
Definition with_item (severity : Severity) (ingredient : string)
           (r : MedRecord) : MedRecord :=
  match severity with
  | High =>
      if mem ingredient (avoid r) then r
      else mkMedRecord (avoid r ++ [ingredient]) (caution r)
                       (timing_note r) (med_severity r)
  | _ =>
      if mem ingredient (caution r) then r
      else mkMedRecord (avoid r) (caution r ++ [ingredient])
                       (timing_note r) (med_severity r)
  end.

(** [add_custom_interaction], for a severity among the three levels.  The
    description is not used by the code. *)
Definition add_custom_interaction (self : Checker)
           (medication ingredient : string) (severity : Severity)
           (description : string) : Checker :=
  let known :=
    if has_record (known_interactions self) medication
    then known_interactions self
    else (known_interactions self
          ++ [(medication, mkMedRecord [] [] None severity)])%list in
  mkChecker (update_record known medication (with_item severity ingredient))
            (medication_categories self).

(** The dictionary returned by [get_medication_info]; the severity
    ['unknown'] of an unlisted medication is [None]. *)
Record MedicationInfo : Type := mkMedicationInfo {
  info_name : string;
  avoid_foods : list string;
  caution_foods : list string;
  info_severity : option Severity;
  timing_instructions : string;
  info_aliases : list string
}.

(** The loop of [get_medication_info]: the first record whose name occurs
    in the medication. *)
Fixpoint info_scan (known : list (string * MedRecord))
         (medication_lower : string) : option (string * MedRecord) :=
  match known with
  | [] => None
  | (med_name, interaction_data) :: known' =>
      if contains med_name medication_lower
      then Some (med_name, interaction_data)
      else info_scan known' medication_lower
  end.

Definition get_medication_info (self : Checker) (medication : string)
  : MedicationInfo :=
  match info_scan (known_interactions self) (strip (lower medication)) with
  | Some (med_name, interaction_data) =>
      mkMedicationInfo med_name (avoid interaction_data)
                       (caution interaction_data)
                       (Some (med_severity interaction_data))
                       (timing_or_empty interaction_data)
                       (_get_medication_aliases med_name)
  | None => mkMedicationInfo medication [] [] None "" []
  end.

End MedicationChecker.

(** * Vocabulary of the properties *)

Module MedicationSpec.
Import MedicationChecker.

(** The severity one level below, with floor [low], as the
    specification words it. *)
Definition one_level_below (s : Severity) : Severity :=
  match s with
  | High => Moderate
  | Moderate => Low
  | Low => Low
  end.

(** The timing recommendation the loop derives from an interaction. *)
Definition timing_of (i : Interaction) : TimingRecommendation :=
  mkTiming (medication i)
           (match timing i with Some t => t | None => "" end).

Definition risk_total (st : Tally) : nat :=
  List.length (high_list st) + List.length (moderate_list st)
  + List.length (low_list st).

(** What the loop over the medications maintains. *)
Definition loop_invariant (st : Tally) : Prop :=
  List.length (all_interactions st) = risk_total st
  /\ timing_list st = map timing_of (filter has_timing (all_interactions st)).

(** The report is consistent: it has a ['detailed_interactions'] entry
    whose length is the total and the sum of the three risk lists, and
    the flag says whether the total is positive. *)
Definition consistent (r : Report) : Prop :=
  exists detailed,
    detailed_interactions r = Some detailed
    /\ total_interactions r = List.length detailed
    /\ List.length detailed
       = List.length (high_risk_interactions r)
         + List.length (moderate_risk_interactions r)
         + List.length (low_risk_interactions r)
    /\ (interactions_found r = true <-> 0 < total_interactions r).


(** Every medication that resolves to a record with a timing note gets a
    timing recommendation, whatever the ingredients. *)
Definition timing_always_surfaced (self : Checker)
           (ingredients : list string) (p : UserProfile) : Prop :=
  forall m name r t,
    In m (medications p) ->
    In (name, r) (known_interactions self) ->
    resolves name (PyStr.strip (PyStr.lower m)) = true ->
    timing_note r = Some t ->
    exists tr,
      In tr (timing_recommendations
               (check_interactions self ingredients (Some p)))
      /\ t_medication tr = m.

Definition profile_with_medications (meds : list string) : UserProfile :=
  mkUserProfile "" None [] meds [] "".


(** The interaction has the given severity. *)
Definition interaction_severity_is (s : Severity) (i : Interaction) : bool :=
  Severity_eqb (severity i) s.

(** No record and no category of the checker is selected by the
    medication. *)
Definition unresolved (self : Checker) (medication : string) : bool :=
  let medication_lower := PyStr.strip (PyStr.lower medication) in
  forallb (fun entry : string * MedRecord =>
             negb (resolves (fst entry) medication_lower))
          (known_interactions self)
  && forallb (fun entry : string * CategoryRecord =>
                negb (existsb (fun med => PyStr.contains med medication_lower)
                              (cat_medications (snd entry))))
             (medication_categories self).

(** The kind under which [add_custom_interaction] files an ingredient. *)
Definition custom_kind (s : Severity) : InteractionType :=
  match s with High => Avoid | _ => Caution end.

(** The list of a record in which [add_custom_interaction] files an
    ingredient. *)
Definition custom_list (s : Severity) (r : MedRecord) : list string :=
  match s with High => avoid r | _ => caution r end.

End MedicationSpec.

Module AllergySpec.
Import AllergyChecker.

(** The ingredient list as [check_allergens] normalizes it. *)
Definition normalized (ingredients : list string) : list string :=
  map (fun ing => PyStr.strip (PyStr.lower ing)) ingredients.

(** The user allergy has a non-empty set of ingredient matches. *)
Definition has_match (normalized_ingredients : list string)
           (user_allergy : string) : bool :=
  match _find_allergen_matches user_allergy normalized_ingredients with
  | [] => false
  | _ :: _ => true
  end.

(** The allergen has the given severity. *)
Definition severity_is (s : Severity) (a : string) : bool :=
  Severity_eqb (_get_allergen_severity a) s.

(** The maximum of a collection of severities in the order
    [safe < low < moderate < high]; [safe] for the empty collection. *)
Definition max_level_of (l : list Severity) : RiskLevel :=
  fold_right (fun s acc => level_max (Risk s) acc) Safe l.

Definition profile_with (allergy_list medication_list : list string)
  : UserProfile :=
  mkUserProfile "" None allergy_list medication_list [] "".

(** The level is [unknown] exactly for a profile that declares neither
    allergies nor medications. *)
Definition unknown_iff_nothing_declared (ingredients : list string)
           (p : UserProfile) : Prop :=
  risk_level (check_allergens ingredients (Some p)) = Unknown
  <-> (allergies p = [] /\ medications p = []).

(** Some cross-contamination warning names the category. *)
Definition warns_about (category : string) (a : Analysis) : Prop :=
  exists w, In w (cross_contamination_risks a)
            /\ PyStr.contains category w = true.


(** The lower-cased, stripped allergy occurs in the ingredient or the
    ingredient in it: the direct test of [_find_allergen_matches]. *)
Definition direct_match (user_allergy ingredient : string) : bool :=
  let user_allergy_lower := PyStr.strip (PyStr.lower user_allergy) in
  PyStr.contains user_allergy_lower ingredient
  || PyStr.contains ingredient user_allergy_lower.

(** The allergy resolves to a category one of whose allergens occurs in
    the ingredient or the ingredient in it. *)
Definition category_match (user_allergy ingredient : string) : bool :=
  match find_category allergen_database
                      (PyStr.strip (PyStr.lower user_allergy)) with
  | Some category =>
      PyStr.truthy category
      && existsb (fun allergen =>
                    PyStr.contains allergen ingredient
                    || PyStr.contains ingredient allergen)
                 (get_list allergen_database category)
  | None => false
  end.

(** The four warnings [_check_cross_contamination] can produce. *)
Definition possible_warnings : list string :=
  ["Cross-contamination risk with tree_nuts";
   "Cross-contamination risk with soy";
   "Cross-contamination risk with peanuts";
   "Cross-contamination risk with eggs"].

End AllergySpec.

Module ParserSpec.

(** The line-feed and carriage-return characters as one-character
    strings. *)
Definition newline : string := String (ascii_of_nat 10) EmptyString.
Definition carriage_return : string := String (ascii_of_nat 13) EmptyString.


(** Every character of the string satisfies [P]. *)
Fixpoint every (P : ascii -> Prop) (s : string) : Prop :=
  match s with
  | EmptyString => True
  | String c s' => P c /\ every P s'
  end.

(** [x] occurs in [s] as a block of consecutive characters. *)
Definition infix_of (x s : string) : Prop :=
  exists a b, s = a ++ x ++ b.

(** The character is its own lower-case form. *)
Definition lower_case (c : ascii) : Prop := PyStr.lower_char c = c.

(** The pieces [s.split(sep)] still has to deliver during the scan. *)
Definition pieces (sep : string) (skip : nat) (s : string) : list string :=
  fst (PyStr.split_aux sep skip s) :: snd (PyStr.split_aux sep skip s).

(** A token on which every step of the parser after the pattern removal
    is the identity: it is longer than one character, in lower case,
    without surrounding whitespace, leading numbering or trailing
    punctuation, and holds no separator. *)
Definition canonical (t : string) : bool :=
  Nat.ltb 1 (String.length t)
  && String.eqb (PyStr.lower t) t
  && String.eqb (PyStr.strip t) t
  && String.eqb (PyStr.lstrip_by IngredientParser.is_leading t) t
  && String.eqb (PyStr.rstrip_by IngredientParser.is_trailing t) t
  && forallb (fun sep => negb (PyStr.contains sep t))
             IngredientParser.separators.

(** What every token the parser returns satisfies: it is non-empty, in
    lower case, begins with no numbering or whitespace and holds no
    separator. *)
Definition token_like (t : string) : Prop :=
  t <> ""
  /\ PyStr.lower t = t
  /\ PyStr.lstrip_by IngredientParser.is_leading t = t
  /\ (forall sep, In sep IngredientParser.separators ->
                  PyStr.contains sep t = false).

(** The list with the whitespace at the end of its last string removed:
    what [strip] makes of the joined list. *)
Fixpoint rstrip_last (ts : list string) : list string :=
  match ts with
  | [] => []
  | [t] => [PyStr.rstrip_by PyStr.is_space t]
  | t :: ts' => t :: rstrip_last ts'
  end.

(** Parsing the joined form of the tokens of [text] gives these tokens
    again. *)
Definition reparse_stable (text : string) : Prop :=
  IngredientParser._parse_ingredients
    (IngredientParser.joined (IngredientParser._parse_ingredients text))
  = IngredientParser._parse_ingredients text.


(** A character that is whitespace or one of the separators [,], [;]
    and [|]. *)
Definition blank (c : ascii) : Prop :=
  PyStr.is_space c = true
  \/ c = ","%char \/ c = ";"%char \/ c = "|"%char.

End ParserSpec.

Module QualitySpec.
Import IngredientAnalyzer.

(** The score that the counts of the quality factors determine. *)
Definition score_of_factors (f : QualityFactors) : Z :=
  (3 * Z.of_nat (List.length (natural_ingredients f))
   - 5 * Z.of_nat (List.length (artificial_ingredients f))
   - 2 * Z.of_nat (List.length (preservatives_found f))
   - Z.of_nat (List.length (additives_found f))
   + Z.of_nat (List.length (whole_foods f)))%Z.

(** What the loop of [_analyze_ingredient_quality] maintains after [n]
    ingredients. *)
Definition quality_invariant (n : nat) (st : QualityState) : Prop :=
  q_score st = score_of_factors (q_factors st)
  /\ List.length (artificial_ingredients (q_factors st))
     + List.length (natural_ingredients (q_factors st)) <= n
  /\ List.length (preservatives_found (q_factors st)) <= n
  /\ List.length (additives_found (q_factors st)) <= n
  /\ List.length (whole_foods (q_factors st)) <= n
  /\ processed_foods (q_factors st) = [].

End QualitySpec.

(** * Properties *)

(** ** Membership and list helpers *)

Lemma mem_In : forall x l, PyStr.mem x l = true <-> In x l.
Proof.
  intros x l. unfold PyStr.mem. rewrite existsb_exists. split.
  - intros [y [Hy He]]. apply String.eqb_eq in He. now subst.
  - intros H. exists x. split; [assumption | apply String.eqb_refl].
Qed.

Lemma mem_false_not_In : forall x l, PyStr.mem x l = false <-> ~ In x l.
Proof.
  intros x l. rewrite <- mem_In. destruct (PyStr.mem x l); split; intros H.
  - discriminate.
  - exfalso. now apply H.
  - intros H'. discriminate.
  - reflexivity.
Qed.

Lemma truthy_nonempty : forall s, PyStr.truthy s = true <-> s <> "".
Proof.
  intros [|c s]; simpl; split; intros; try congruence; try discriminate.
  reflexivity.
Qed.

Lemma NoDup_app_single :
  forall (A : Type) (l : list A) (x : A),
    NoDup l -> ~ In x l -> NoDup (l ++ [x])%list.
Proof.
  intros A l x Hnd Hx. induction Hnd as [|y l Hy Hnd IH]; simpl.
  - constructor; [intros [] | constructor].
  - constructor.
    + rewrite in_app_iff. intros [H | [H | []]].
      * now apply Hy.
      * subst. apply Hx. now left.
    + apply IH. intros H. apply Hx. now right.
Qed.

(** ** The user profile *)

Section AddAllergy.
Import PyStr.

Lemma add_allergy_present :
  forall p a, In (lower a) (map lower (allergies p)) -> add_allergy a p = p.
Proof.
  intros p a H. unfold add_allergy.
  apply mem_In in H. rewrite H. now rewrite andb_false_r.
Qed.

Lemma add_allergy_new :
  forall p a, a <> "" -> ~ In (lower a) (map lower (allergies p)) ->
              allergies (add_allergy a p) = (allergies p ++ [a])%list.
Proof.
  intros p a Ha H. unfold add_allergy.
  apply truthy_nonempty in Ha. apply mem_false_not_In in H.
  rewrite Ha, H. reflexivity.
Qed.

Lemma add_allergy_keeps_distinct :
  forall p a, NoDup (map lower (allergies p)) ->
              NoDup (map lower (allergies (add_allergy a p))).
Proof.
  intros p a Hnd. unfold add_allergy.
  destruct (truthy a); simpl; [|assumption].
  destruct (mem (lower a) (map lower (allergies p))) eqn:E; simpl;
    [assumption|].
  rewrite map_app. simpl. apply NoDup_app_single; [assumption|].
  now apply mem_false_not_In.
Qed.

Lemma remove_allergy_keeps_distinct :
  forall p a, NoDup (map lower (allergies p)) ->
              NoDup (map lower (allergies (remove_allergy a p))).
Proof.
  intros p a. unfold remove_allergy. simpl.
  generalize (allergies p). intros l.
  induction l as [|x l IH]; simpl; intros Hnd; [assumption|].
  inversion Hnd as [|? ? Hx Hl]; subst.
  destruct (negb _); simpl; [|now apply IH].
  constructor; [|now apply IH].
  intros H. apply Hx. apply in_map_iff in H. destruct H as [y [Ey Hy]].
  apply filter_In in Hy. destruct Hy as [Hy _].
  rewrite <- Ey. now apply in_map.
Qed.

Lemma run_keeps_distinct :
  forall calls p,
    NoDup (map lower (allergies p)) ->
    NoDup (map lower (allergies (run calls p))).
Proof.
  unfold run. induction calls as [|c calls IH]; intros p Hnd; simpl.
  - assumption.
  - apply IH. destruct c; simpl.
    + now apply add_allergy_keeps_distinct.
    + now apply remove_allergy_keeps_distinct.
Qed.

End AddAllergy.

(** C10, as stated, fails: a list given to the constructor is stored as
    it is, so a profile can hold two allergies equal up to case, and
    [add_allergy] keeps them. *)
Lemma constructor_keeps_case_duplicates :
  ~ NoDup (map PyStr.lower
             (allergies (mkUserProfile "" None ["milk"; "MILK"] [] [] "")))
  /\ ~ NoDup (map PyStr.lower
                (allergies
                   (add_allergy "soy"
                      (mkUserProfile "" None ["milk"; "MILK"] [] [] "")))).
Proof.
  split; intros H; vm_compute in H;
    inversion H as [|x l Hx Hl]; subst; apply Hx; now left.
Qed.

(** C10, amended. [add_allergy] is idempotent up to case: when an existing
    allergy equals the argument after lower-casing, the profile is
    unchanged; a new non-empty string is appended as it is; hence
    [add_allergy] never adds a second entry equal up to case: a list with
    no two such entries keeps that property, and the list of a profile
    built from the empty one by any calls of [add_allergy] and
    [remove_allergy] never holds two entries equal up to case. *)
Theorem add_allergy_case_insensitive :
  forall (p : UserProfile) (a : string) (calls : list AllergyCall),
    ((exists b, In b (allergies p) /\ PyStr.lower b = PyStr.lower a) ->
     add_allergy a p = p)
    /\ (a <> "" ->
        (forall b, In b (allergies p) -> PyStr.lower b <> PyStr.lower a) ->
        allergies (add_allergy a p) = (allergies p ++ [a])%list)
    /\ (NoDup (map PyStr.lower (allergies p)) ->
        NoDup (map PyStr.lower (allergies (add_allergy a p))))
    /\ NoDup (map PyStr.lower (allergies (run calls empty_profile))).
Proof.
  intros p a calls. repeat split.
  - intros [b [Hb He]]. apply add_allergy_present.
    rewrite <- He. now apply in_map.
  - intros Ha Hnew. apply add_allergy_new; [assumption|].
    intros H. apply in_map_iff in H. destruct H as [b [He Hb]].
    now apply (Hnew b).
  - apply add_allergy_keeps_distinct.
  - apply run_keeps_distinct. simpl. constructor.
Qed.

Lemma add_allergy_case_insensitive_witness :
  let p := mkUserProfile "ann" None ["Peanuts"; "milk"] [] [] "" in
  add_allergy "PEANUTS" p = p
  /\ allergies (add_allergy "Soy" p) = ["Peanuts"; "milk"; "Soy"]
  /\ NoDup (map PyStr.lower (allergies (add_allergy "Soy" p)))
  /\ NoDup (map PyStr.lower
              (allergies (run [AddAllergy "Milk"; AddAllergy "MILK";
                               RemoveAllergy "milk"; AddAllergy "mILK"]
                              empty_profile))).
Proof.
  intros p.
  destruct (add_allergy_case_insensitive
              p "PEANUTS"
              [AddAllergy "Milk"; AddAllergy "MILK";
               RemoveAllergy "milk"; AddAllergy "mILK"]) as [H1 [_ [_ H4]]].
  destruct (add_allergy_case_insensitive p "Soy" []) as [_ [H2 [H3 _]]].
  split; [|split; [|split]].
  - apply H1. exists "Peanuts". split; [now left | reflexivity].
  - apply H2; [discriminate|].
    intros b [Hb | [Hb | []]]; subst; vm_compute; discriminate.
  - apply H3. vm_compute.
    repeat constructor; simpl; intuition discriminate.
  - exact H4.
Defined.

(** ** The medication checker *)

Section MedicationProperties.
Import MedicationChecker MedicationSpec.

Variable self : Checker.
Variable ingredients : list string.

Lemma caution_severity_one_level_below :
  forall s, caution_severity s = one_level_below s.
Proof. intros []; reflexivity. Qed.

Lemma categorize_fold :
  forall m l st,
    (forall i, In i l -> medication i = m) ->
    let st' := fold_left (categorize m) l st in
    all_interactions st' = all_interactions st
    /\ risk_total st' = risk_total st + List.length l
    /\ timing_list st'
       = (timing_list st ++ map timing_of (filter has_timing l))%list.
Proof.
  intros m l. induction l as [|i l IH]; intros st Hm; simpl.
  - repeat split.
    + lia.
    + now rewrite app_nil_r.
  - assert (Hl : forall j, In j l -> medication j = m)
      by (intros j Hj; apply Hm; now right).
    destruct (IH (categorize m st i) Hl) as [Ha [Hr Ht]].
    rewrite Ha, Hr, Ht. clear IH Ha Hr Ht.
    assert (Hi : medication i = m) by (apply Hm; now left).
    repeat split.
    + unfold risk_total, categorize; simpl.
      destruct (severity i); simpl; rewrite ?length_app; simpl; lia.
    + unfold categorize; simpl.
      destruct (has_timing i) eqn:E; simpl.
      * rewrite <- app_assoc. simpl. unfold timing_of. now rewrite Hi.
      * reflexivity.
Qed.

Lemma record_interactions_medication :
  forall m r i, In i (record_interactions m ingredients r) ->
                medication i = m.
Proof.
  intros m r i H. unfold record_interactions in H.
  apply in_app_iff in H. destruct H as [H | H];
    apply in_map_iff in H; destruct H as [x [Hx _]]; now subst.
Qed.

Lemma single_medication_name :
  forall m i, In i (_check_single_medication self m ingredients) ->
              medication i = m.
Proof.
  intros m i H. unfold _check_single_medication in H.
  apply in_app_iff in H. destruct H as [H | H].
  - apply in_flat_map in H. destruct H as [[n r] [_ H]].
    destruct (resolves n _); [|contradiction].
    now apply record_interactions_medication in H.
  - unfold _check_category_interactions in H.
    apply in_flat_map in H. destruct H as [[c d] [_ H]].
    destruct (existsb _ _); [|contradiction].
    apply in_map_iff in H. destruct H as [x [Hx _]]. now subst.
Qed.

Lemma check_medication_invariant :
  forall st m, loop_invariant st ->
               loop_invariant (check_medication self ingredients st m).
Proof.
  intros st m [Hlen Htim]. unfold check_medication.
  pose proof (single_medication_name m) as Hname.
  destruct (_check_single_medication self m ingredients) as [|i l] eqn:E.
  - now split.
  - remember (i :: l) as found.
    destruct (categorize_fold m found
                (mkTally (all_interactions st ++ found)
                          (high_list st) (moderate_list st) (low_list st)
                          (timing_list st)) Hname) as [Ha [Hr Ht]].
    simpl in Ha, Hr, Ht. unfold loop_invariant.
    rewrite Ha, Hr, Ht. split.
    + rewrite length_app. unfold risk_total at 1. simpl.
      unfold risk_total in Hlen. lia.
    + rewrite filter_app, map_app. now rewrite Htim.
Qed.

Lemma check_loop_invariant :
  forall meds st, loop_invariant st ->
                  loop_invariant
                    (fold_left (check_medication self ingredients) meds st).
Proof.
  induction meds as [|m meds IH]; intros st H; simpl.
  - assumption.
  - apply IH. now apply check_medication_invariant.
Qed.

Lemma check_loop_interactions :
  forall meds st,
    all_interactions (fold_left (check_medication self ingredients) meds st)
    = (all_interactions st
       ++ flat_map (fun m => _check_single_medication self m ingredients)
                   meds)%list.
Proof.
  induction meds as [|m meds IH]; intros st; simpl.
  - now rewrite app_nil_r.
  - rewrite IH. unfold check_medication at 1.
    pose proof (single_medication_name m) as Hname.
    destruct (_check_single_medication self m ingredients) as [|i l] eqn:E.
    + reflexivity.
    + destruct (categorize_fold m (i :: l)
                  (mkTally (all_interactions st ++ i :: l)
                            (high_list st) (moderate_list st) (low_list st)
                            (timing_list st)) Hname) as [Ha _].
      simpl in Ha. simpl. rewrite Ha. now rewrite <- app_assoc.
Qed.

Lemma report_with_medications :
  forall p, medications p <> [] ->
    exists st,
      loop_invariant st
      /\ all_interactions st
         = flat_map (fun m => _check_single_medication self m ingredients)
                    (medications p)
      /\ check_interactions self ingredients (Some p)
         = mkReport (Nat.ltb 0 (List.length (all_interactions st)))
                    (List.length (all_interactions st))
                    (high_list st) (moderate_list st) (low_list st) (timing_list st)
                    (Some (all_interactions st)).
Proof.
  intros p Hm.
  exists (fold_left (check_medication self ingredients) (medications p)
                    (mkTally [] [] [] [] [])).
  split; [|split].
  - apply check_loop_invariant. now split.
  - now rewrite check_loop_interactions.
  - unfold check_interactions, has_entries.
    destruct (medications p); [contradiction | reflexivity].
Qed.

Lemma report_without_medications :
  forall up, has_entries medications up = false ->
             check_interactions self ingredients up
             = mkReport false 0 [] [] [] [] None.
Proof.
  intros up H. unfold check_interactions. now rewrite H.
Qed.

End MedicationProperties.

Section SingleMedication.
Import MedicationChecker MedicationSpec.

Variable self : Checker.
Variable ingredients : list string.
Variable m : string.

Lemma record_interactions_In :
  forall r i,
    In i (record_interactions m ingredients r) <->
    (exists item, In item (avoid r)
                  /\ _ingredient_contains ingredients item = true
                  /\ i = avoid_interaction m r item)
    \/ (exists item, In item (caution r)
                     /\ _ingredient_contains ingredients item = true
                     /\ i = caution_interaction m r item).
Proof.
  intros r i. unfold record_interactions.
  rewrite in_app_iff, !in_map_iff. split.
  - intros [[x [Hx Hin]] | [x [Hx Hin]]]; apply filter_In in Hin;
      destruct Hin as [Hin Hc]; [left | right]; exists x; auto.
  - intros [[x [Hin [Hc Hx]]] | [x [Hin [Hc Hx]]]]; [left | right];
      exists x; (split; [now symmetry | apply filter_In; auto]).
Qed.

(** The interactions of kind [avoid] or [caution] are those of the
    resolved records. *)
Lemma single_medication_records :
  forall i,
    interaction_type i <> CategoryInteraction ->
    (In i (_check_single_medication self m ingredients) <->
     exists name r,
       In (name, r) (known_interactions self)
       /\ resolves name (PyStr.strip (PyStr.lower m)) = true
       /\ In i (record_interactions m ingredients r)).
Proof.
  intros i Hty. unfold _check_single_medication.
  rewrite in_app_iff, in_flat_map. split.
  - intros [[[name r] [Hin H]] | H].
    + exists name, r. destruct (resolves name _) eqn:E; [auto | contradiction].
    + exfalso. unfold _check_category_interactions in H.
      apply in_flat_map in H. destruct H as [[c d] [_ H]].
      destruct (existsb _ _); [|contradiction].
      apply in_map_iff in H. destruct H as [x [Hx _]].
      subst i. now apply Hty.
  - intros [name [r [Hin [Hres H]]]]. left.
    exists (name, r). split; [assumption|]. now rewrite Hres.
Qed.

End SingleMedication.

(** C8. For a medication that resolves to a record, each matching avoid
    term is reported with kind [avoid] and the record's severity, each
    matching caution term with kind [caution] and the severity one level
    below with floor [low]; and every reported [avoid] or [caution]
    interaction arises in that way. *)
Theorem avoid_and_caution_severity :
  forall (self : MedicationChecker.Checker) (m : string)
         (ingredients : list string),
    let found := MedicationChecker._check_single_medication self m ingredients in
    (forall name r item,
        In (name, r) (MedicationChecker.known_interactions self) ->
        MedicationChecker.resolves name (PyStr.strip (PyStr.lower m)) = true ->
        MedicationChecker._ingredient_contains ingredients item = true ->
        (In item (MedicationChecker.avoid r) ->
         exists i, In i found
                   /\ MedicationChecker.medication i = m
                   /\ MedicationChecker.ingredient i = item
                   /\ MedicationChecker.interaction_type i
                      = MedicationChecker.Avoid
                   /\ MedicationChecker.severity i
                      = MedicationChecker.med_severity r)
        /\ (In item (MedicationChecker.caution r) ->
            exists i, In i found
                      /\ MedicationChecker.medication i = m
                      /\ MedicationChecker.ingredient i = item
                      /\ MedicationChecker.interaction_type i
                         = MedicationChecker.Caution
                      /\ MedicationChecker.severity i
                         = MedicationSpec.one_level_below
                             (MedicationChecker.med_severity r)))
    /\ (forall i,
           In i found ->
           MedicationChecker.interaction_type i
             <> MedicationChecker.CategoryInteraction ->
           exists name r,
             In (name, r) (MedicationChecker.known_interactions self)
             /\ MedicationChecker.resolves name (PyStr.strip (PyStr.lower m))
                = true
             /\ MedicationChecker._ingredient_contains
                  ingredients (MedicationChecker.ingredient i) = true
             /\ ((MedicationChecker.interaction_type i
                  = MedicationChecker.Avoid
                  /\ In (MedicationChecker.ingredient i)
                        (MedicationChecker.avoid r)
                  /\ MedicationChecker.severity i
                     = MedicationChecker.med_severity r)
                 \/ (MedicationChecker.interaction_type i
                     = MedicationChecker.Caution
                     /\ In (MedicationChecker.ingredient i)
                           (MedicationChecker.caution r)
                     /\ MedicationChecker.severity i
                        = MedicationSpec.one_level_below
                            (MedicationChecker.med_severity r)))).
Proof.
  intros self m ingredients found. split.
  - intros name r item Hin Hres Hc. split; intros Hitem.
    + exists (MedicationChecker.avoid_interaction m r item).
      repeat split. apply single_medication_records; [discriminate|].
      exists name, r. repeat split; try assumption.
      apply record_interactions_In. left. exists item. auto.
    + exists (MedicationChecker.caution_interaction m r item).
      repeat split. apply single_medication_records; [discriminate|].
      exists name, r. repeat split; try assumption.
      apply record_interactions_In. right. exists item. auto.
  - intros i Hi Hty.
    apply single_medication_records in Hi; [|assumption].
    destruct Hi as [name [r [Hin [Hres Hi]]]].
    exists name, r. split; [assumption|]. split; [assumption|].
    apply record_interactions_In in Hi.
    destruct Hi as [[item [Hitem [Hc Hi]]] | [item [Hitem [Hc Hi]]]];
      subst i; simpl; (split; [assumption|]).
    + left. auto.
    + right. repeat split; assumption.
Qed.

Lemma avoid_and_caution_severity_witness :
  (exists i,
      In i (MedicationChecker._check_single_medication
              MedicationChecker.init "Warfarin 5mg"
              ["fresh spinach"; "grapefruit"])
      /\ MedicationChecker.medication i = "Warfarin 5mg"
      /\ MedicationChecker.ingredient i = "spinach"
      /\ MedicationChecker.interaction_type i = MedicationChecker.Avoid
      /\ MedicationChecker.severity i = High)
  /\ (exists i,
         In i (MedicationChecker._check_single_medication
                 MedicationChecker.init "Warfarin 5mg"
                 ["fresh spinach"; "grapefruit"])
         /\ MedicationChecker.medication i = "Warfarin 5mg"
         /\ MedicationChecker.ingredient i = "grapefruit"
         /\ MedicationChecker.interaction_type i = MedicationChecker.Caution
         /\ MedicationChecker.severity i = Moderate).
Proof.
  destruct (avoid_and_caution_severity
              MedicationChecker.init "Warfarin 5mg"
              ["fresh spinach"; "grapefruit"]) as [H _].
  pose (r := MedicationChecker.mkMedRecord
               ["vitamin k"; "green leafy vegetables"; "broccoli";
                "spinach"; "kale"]
               ["alcohol"; "cranberry juice"; "grapefruit"]
               None High).
  split.
  - apply (proj1 (H "warfarin" r "spinach"
                    (or_introl eq_refl) eq_refl eq_refl)).
    simpl. tauto.
  - apply (proj2 (H "warfarin" r "grapefruit"
                    (or_introl eq_refl) eq_refl eq_refl)).
    simpl. tauto.
Defined.

(** For a profile with at least one medication the report is consistent:
    the total is the length of the detailed interactions and the sum of
    the lengths of the three risk lists, and the flag is true exactly when
    the total is positive.  Without medications (or without a profile) the
    report is the one of the early return. *)
Lemma check_interactions_consistent :
  forall (self : MedicationChecker.Checker) (ingredients : list string)
         (user_profile : option UserProfile),
    (has_entries medications user_profile = true ->
     MedicationSpec.consistent
       (MedicationChecker.check_interactions self ingredients user_profile))
    /\ (has_entries medications user_profile = false ->
        MedicationChecker.check_interactions self ingredients user_profile
        = MedicationChecker.mkReport false 0 [] [] [] [] None).
Proof.
  intros self ingredients up. split.
  - intros H. destruct up as [p|]; [|discriminate].
    assert (Hm : medications p <> []).
    { intros E. unfold has_entries in H. rewrite E in H. discriminate. }
    destruct (report_with_medications self ingredients p Hm)
      as [st [[Hlen _] [_ Hr]]].
    rewrite Hr. exists (MedicationChecker.all_interactions st).
    simpl. repeat split.
    + exact Hlen.
    + intros E. now apply Nat.ltb_lt in E.
    + intros E. now apply Nat.ltb_lt.
  - apply report_without_medications.
Qed.

(** C9. The code at a profile without medications: the report of the early
    return has no ['detailed_interactions'] entry, so its total is not the
    length of that entry; the other entries agree with an empty result. *)
Theorem report_without_medications_has_no_details :
  let r := MedicationChecker.check_interactions
             MedicationChecker.init ["water"; "salt"] (Some empty_profile) in
  r = MedicationChecker.mkReport false 0 [] [] [] [] None
  /\ MedicationChecker.detailed_interactions r = None
  /\ ~ MedicationSpec.consistent r.
Proof.
  split; [reflexivity | split; [reflexivity|]].
  intros [detailed [H _]]. vm_compute in H. discriminate.
Qed.

(** C4, as stated, fails: levothyroxine resolves to a record with a timing
    note, yet with no matching ingredient no timing recommendation is
    returned. *)
Lemma timing_note_needs_an_interaction :
  ~ MedicationSpec.timing_always_surfaced
      MedicationChecker.init ["water"]
      (MedicationSpec.profile_with_medications ["levothyroxine"]).
Proof.
  intros H.
  destruct (H "levothyroxine" "levothyroxine"
              (MedicationChecker.mkMedRecord
                 ["soy products"; "coffee"; "calcium supplements"]
                 ["iron supplements"; "high fiber foods"]
                 (Some "take 30-60 minutes before eating") Moderate)
              "take 30-60 minutes before eating")
    as [tr [Hin _]].
  - now left.
  - simpl. tauto.
  - reflexivity.
  - reflexivity.
  - vm_compute in Hin. exact Hin.
Qed.

(** C4, amended. The timing recommendations are exactly, in order, the
    timing notes carried by the reported interactions.  So a declared
    medication that resolves to a record with a timing note gets a timing
    recommendation tied to it for each avoid or caution term of the record
    that an ingredient matches, and a list in which nothing matches yields
    no timing recommendation. *)
Theorem timing_follows_interactions :
  forall (self : MedicationChecker.Checker) (ingredients : list string)
         (p : UserProfile),
    medications p <> [] ->
    let r := MedicationChecker.check_interactions self ingredients (Some p) in
    (exists detailed,
        MedicationChecker.detailed_interactions r = Some detailed
        /\ MedicationChecker.timing_recommendations r
           = map MedicationSpec.timing_of
                 (filter MedicationChecker.has_timing detailed))
    /\ (forall m name rec t item,
           In m (medications p) ->
           In (name, rec) (MedicationChecker.known_interactions self) ->
           MedicationChecker.resolves name (PyStr.strip (PyStr.lower m))
             = true ->
           MedicationChecker.timing_note rec = Some t ->
           t <> "" ->
           In item (MedicationChecker.avoid rec
                    ++ MedicationChecker.caution rec)%list ->
           MedicationChecker._ingredient_contains ingredients item = true ->
           In (MedicationChecker.mkTiming m t)
              (MedicationChecker.timing_recommendations r))
    /\ (MedicationChecker.detailed_interactions r = Some [] ->
        MedicationChecker.timing_recommendations r = []).
Proof.
  intros self ingredients p Hm r.
  destruct (report_with_medications self ingredients p Hm)
    as [st [[_ Htim] [Hall Hr]]].
  subst r. rewrite Hr. simpl. split; [|split].
  - exists (MedicationChecker.all_interactions st). now split.
  - intros m name rec t item Hin Hrec Hres Ht Hne Hitem Hc.
    rewrite Htim, Hall.
    assert (Hi : exists i,
               In i (MedicationChecker.record_interactions m ingredients rec)
               /\ MedicationChecker.medication i = m
               /\ MedicationChecker.timing i = Some t
               /\ MedicationChecker.interaction_type i
                  <> MedicationChecker.CategoryInteraction).
    { apply in_app_iff in Hitem. destruct Hitem as [Hitem | Hitem].
      - exists (MedicationChecker.avoid_interaction m rec item).
        split; [|split; [|split]]; simpl; try reflexivity.
        + apply record_interactions_In. left. exists item. auto.
        + unfold MedicationChecker.timing_or_empty. now rewrite Ht.
        + discriminate.
      - exists (MedicationChecker.caution_interaction m rec item).
        split; [|split; [|split]]; simpl; try reflexivity.
        + apply record_interactions_In. right. exists item. auto.
        + unfold MedicationChecker.timing_or_empty. now rewrite Ht.
        + discriminate. }
    destruct Hi as [i [Hi [Hmed [Hti Hty]]]].
    apply in_map_iff. exists i. split.
    + unfold MedicationSpec.timing_of. now rewrite Hmed, Hti.
    + apply filter_In. split.
      * apply in_flat_map. exists m. split; [assumption|].
        apply single_medication_records; [assumption|].
        exists name, rec. auto.
      * unfold MedicationChecker.has_timing. rewrite Hti.
        now apply truthy_nonempty.
  - intros E. injection E as E. rewrite Htim, E. reflexivity.
Qed.

Lemma timing_follows_interactions_witness :
  In (MedicationChecker.mkTiming "Synthroid 50mg"
        "take 30-60 minutes before eating")
     (MedicationChecker.timing_recommendations
        (MedicationChecker.check_interactions
           MedicationChecker.init ["black coffee"]
           (Some (MedicationSpec.profile_with_medications
                    ["Synthroid 50mg"])))).
Proof.
  assert (Hm : medications (MedicationSpec.profile_with_medications
                              ["Synthroid 50mg"]) <> []) by discriminate.
  destruct (timing_follows_interactions
              MedicationChecker.init ["black coffee"]
              (MedicationSpec.profile_with_medications ["Synthroid 50mg"])
              Hm) as [_ [H _]].
  apply (H "Synthroid 50mg" "levothyroxine"
           (MedicationChecker.mkMedRecord
              ["soy products"; "coffee"; "calcium supplements"]
              ["iron supplements"; "high fiber foods"]
              (Some "take 30-60 minutes before eating") Moderate)
           "take 30-60 minutes before eating" "coffee").
  - now left.
  - simpl. tauto.
  - reflexivity.
  - reflexivity.
  - discriminate.
  - simpl. tauto.
  - reflexivity.
Defined.

(** ** The allergy checker *)

Section AllergyProperties.
Import AllergyChecker AllergySpec.

Variable norm : list string.

Lemma check_one_step :
  forall st a,
    let hit := if has_match norm a then [a] else [] in
    let st' := check_one norm st a in
    l_detected st' = (l_detected st ++ hit)%list
    /\ l_high st' = (l_high st ++ filter (severity_is High) hit)%list
    /\ l_moderate st'
       = (l_moderate st ++ filter (severity_is Moderate) hit)%list
    /\ l_low st' = (l_low st ++ filter (severity_is Low) hit)%list
    /\ l_cross st'
       = (l_cross st
          ++ flat_map (fun b => _check_cross_contamination b norm) hit)%list.
Proof.
  intros st a. unfold check_one, has_match, severity_is.
  destruct (_find_allergen_matches a norm) as [|x xs]; simpl.
  - now rewrite !app_nil_r.
  - destruct (_get_allergen_severity a); simpl;
      now rewrite ?app_nil_r.
Qed.

Lemma check_loop :
  forall l st,
    let hits := filter (has_match norm) l in
    let st' := fold_left (check_one norm) l st in
    l_detected st' = (l_detected st ++ hits)%list
    /\ l_high st' = (l_high st ++ filter (severity_is High) hits)%list
    /\ l_moderate st'
       = (l_moderate st ++ filter (severity_is Moderate) hits)%list
    /\ l_low st' = (l_low st ++ filter (severity_is Low) hits)%list
    /\ l_cross st'
       = (l_cross st
          ++ flat_map (fun b => _check_cross_contamination b norm) hits)%list.
Proof.
  induction l as [|a l IH]; intros st; simpl.
  - now rewrite !app_nil_r.
  - destruct (IH (check_one norm st a)) as [Hd [Hh [Hm [Hl Hc]]]].
    destruct (check_one_step st a) as [Hd1 [Hh1 [Hm1 [Hl1 Hc1]]]].
    rewrite Hd, Hh, Hm, Hl, Hc, Hd1, Hh1, Hm1, Hl1, Hc1.
    destruct (has_match norm a); simpl;
      rewrite ?app_nil_r, <- ?app_assoc; repeat split; try reflexivity;
      destruct (severity_is _ a); reflexivity.
Qed.

Lemma overall_risk_is_maximum :
  forall ds,
    _calculate_overall_risk (filter (severity_is High) ds)
                            (filter (severity_is Moderate) ds)
                            (filter (severity_is Low) ds)
    = max_level_of (map _get_allergen_severity ds).
Proof.
  induction ds as [|a ds IH]; simpl.
  - reflexivity.
  - rewrite <- IH. unfold severity_is.
    destruct (_get_allergen_severity a); simpl;
      destruct (filter _ ds); simpl;
      try reflexivity;
      destruct (filter _ ds); simpl; try reflexivity;
      destruct (filter _ ds); reflexivity.
Qed.

End AllergyProperties.

Lemma check_allergens_shape :
  forall ingredients p,
    allergies p <> [] ->
    let norm := AllergySpec.normalized ingredients in
    let hits := filter (AllergySpec.has_match norm) (allergies p) in
    let r := AllergyChecker.check_allergens ingredients (Some p) in
    AllergyChecker.detected_allergens r = hits
    /\ AllergyChecker.risk_level r
       = AllergySpec.max_level_of
           (map AllergyChecker._get_allergen_severity hits)
    /\ AllergyChecker.cross_contamination_risks r
       = PyStr.list_set
           (flat_map (fun b => AllergyChecker._check_cross_contamination b norm)
                     hits).
Proof.
  intros ingredients p Ha norm hits r.
  destruct (check_loop norm (allergies p)
              (AllergyChecker.mkLocals [] [] [] [] [] []))
    as [Hd [Hh [Hm [Hl Hc]]]].
  fold hits in Hd, Hh, Hm, Hl, Hc. simpl in Hd, Hh, Hm, Hl, Hc.
  assert (Hr : r = AllergyChecker.mkAnalysis
                     (AllergyChecker._calculate_overall_risk
                        (filter (AllergySpec.severity_is High) hits)
                        (filter (AllergySpec.severity_is Moderate) hits)
                        (filter (AllergySpec.severity_is Low) hits))
                     hits
                     (filter (AllergySpec.severity_is High) hits)
                     (filter (AllergySpec.severity_is Moderate) hits)
                     (filter (AllergySpec.severity_is Low) hits)
                     (PyStr.list_set
                        (flat_map
                           (fun b =>
                              AllergyChecker._check_cross_contamination b norm)
                           hits))
                     (Some (AllergyChecker.l_matches
                              (fold_left (AllergyChecker.check_one norm)
                                         (allergies p)
                                         (AllergyChecker.mkLocals
                                            [] [] [] [] [] []))))).
  { subst r. unfold AllergyChecker.check_allergens.
    fold (AllergySpec.normalized ingredients). fold norm.
    rewrite <- Hh, <- Hm, <- Hl, <- Hc, <- Hd.
    destruct (allergies p); [contradiction | reflexivity]. }
  rewrite Hr. simpl. repeat split. apply overall_risk_is_maximum.
Qed.

Lemma max_level_of_known :
  forall l, AllergySpec.max_level_of l <> Unknown.
Proof.
  induction l as [|s l IH]; simpl.
  - discriminate.
  - unfold level_max. destruct (Nat.ltb _ _); [assumption | discriminate].
Qed.

(** C3, as stated, fails: with no allergies but a declared medication the
    level is still [unknown]. *)
Lemma unknown_despite_medication :
  ~ AllergySpec.unknown_iff_nothing_declared
      ["spinach"] (AllergySpec.profile_with [] ["warfarin"]).
Proof.
  intros [H _]. destruct (H eq_refl) as [_ Hm]. discriminate.
Qed.

(** C3, amended. The risk level returned by [check_allergens] is [unknown]
    exactly when there is no profile or the profile declares no allergies,
    whatever its medications.  Otherwise the detected allergens are the
    declared allergies with a non-empty match set, and the level is the
    maximum of their severities, [safe] when none is detected. *)
Theorem risk_level_unknown_or_maximum :
  forall (ingredients : list string) (user_profile : option UserProfile),
    let r := AllergyChecker.check_allergens ingredients user_profile in
    (AllergyChecker.risk_level r = Unknown
     <-> has_entries allergies user_profile = false)
    /\ (forall p,
           user_profile = Some p ->
           allergies p <> [] ->
           AllergyChecker.detected_allergens r
           = filter (AllergySpec.has_match (AllergySpec.normalized ingredients))
                    (allergies p)
           /\ AllergyChecker.risk_level r
              = AllergySpec.max_level_of
                  (map AllergyChecker._get_allergen_severity
                       (AllergyChecker.detected_allergens r))).
Proof.
  intros ingredients up r. split.
  - destruct up as [p|]; [|now split].
    destruct (allergies p) as [|a l] eqn:E.
    + subst r. unfold AllergyChecker.check_allergens, has_entries.
      rewrite E. now split.
    + assert (Ha : allergies p <> []) by (rewrite E; discriminate).
      destruct (check_allergens_shape ingredients p Ha) as [_ [Hr _]].
      subst r. rewrite Hr. unfold has_entries. rewrite E. split.
      * intros H. now apply max_level_of_known in H.
      * discriminate.
  - intros p Hp Ha. subst up.
    destruct (check_allergens_shape ingredients p Ha) as [Hd [Hr _]].
    subst r. rewrite Hr, Hd. now split.
Qed.

Lemma risk_level_unknown_or_maximum_witness :
  AllergyChecker.risk_level
    (AllergyChecker.check_allergens
       ["wheat flour"; "peanut oil"; "sugar"]
       (Some (AllergySpec.profile_with ["peanuts"; "wheat"] [])))
  = Risk High.
Proof.
  destruct (risk_level_unknown_or_maximum
              ["wheat flour"; "peanut oil"; "sugar"]
              (Some (AllergySpec.profile_with ["peanuts"; "wheat"] [])))
    as [_ H].
  destruct (H (AllergySpec.profile_with ["peanuts"; "wheat"] []) eq_refl)
    as [Hd Hr].
  - discriminate.
  - rewrite Hr, Hd. reflexivity.
Defined.

(** C1, as stated, fails: for the allergy "peanuts" and the single
    ingredient "soy lecithin" nothing matches directly, and no warning
    about soy is returned. *)
Lemma no_cross_check_without_match :
  ~ AllergySpec.warns_about "soy"
      (AllergyChecker.check_allergens
         ["soy lecithin"] (Some (AllergySpec.profile_with ["peanuts"] []))).
Proof.
  intros [w [Hin _]]. vm_compute in Hin. exact Hin.
Qed.

(** C1, amended. Cross-contamination is checked for exactly those user
    allergies that have at least one ingredient match: the warnings
    returned are the warnings of the detected allergens.  For "peanuts"
    and the list ["soy lecithin"] nothing is detected and no warning is
    returned; once the list also holds "peanut oil", the warning that
    names soy is returned. *)
Theorem cross_contamination_of_detected :
  forall (ingredients : list string) (p : UserProfile) (w : string),
    allergies p <> [] ->
    let r := AllergyChecker.check_allergens ingredients (Some p) in
    (In w (AllergyChecker.cross_contamination_risks r)
     <-> exists a,
           In a (AllergyChecker.detected_allergens r)
           /\ In w (AllergyChecker._check_cross_contamination
                      a (AllergySpec.normalized ingredients)))
    /\ (let e := AllergyChecker.check_allergens
                   ["soy lecithin"]
                   (Some (AllergySpec.profile_with ["peanuts"] [])) in
        AllergyChecker.detected_allergens e = []
        /\ AllergyChecker.cross_contamination_risks e = [])
    /\ In "Cross-contamination risk with soy"
          (AllergyChecker.cross_contamination_risks
             (AllergyChecker.check_allergens
                ["peanut oil"; "soy lecithin"]
                (Some (AllergySpec.profile_with ["peanuts"] [])))).
Proof.
  intros ingredients p w Ha r. split; [|split].
  - destruct (check_allergens_shape ingredients p Ha) as [Hd [_ Hc]].
    subst r. rewrite Hc, Hd. unfold PyStr.list_set.
    rewrite nodup_In, in_flat_map. reflexivity.
  - split; reflexivity.
  - vm_compute. tauto.
Qed.

Lemma cross_contamination_of_detected_witness :
  In "Cross-contamination risk with tree_nuts"
     (AllergyChecker.cross_contamination_risks
        (AllergyChecker.check_allergens
           ["Peanut Butter"; "almond flakes"]
           (Some (AllergySpec.profile_with ["peanuts"] [])))).
Proof.
  assert (Ha : allergies (AllergySpec.profile_with ["peanuts"] []) <> [])
    by discriminate.
  destruct (cross_contamination_of_detected
              ["Peanut Butter"; "almond flakes"]
              (AllergySpec.profile_with ["peanuts"] [])
              "Cross-contamination risk with tree_nuts" Ha) as [[_ H] _].
  apply H. exists "peanuts". split; vm_compute; tauto.
Defined.

(** C2. The code at the scenario: the hidden-allergen list is the single
    label "whey protein (hidden dairy)", but the risk level is [safe]:
    "dairy" resolves to no category in [_find_allergen_matches], although
    [_get_allergen_severity] gives it the severity [moderate]. *)
Theorem dairy_whey_scenario :
  let r := IngredientAnalyzer.analyze_ingredients
             "whey protein, sugar"
             (Some (AllergySpec.profile_with ["dairy"] [])) in
  IngredientAnalyzer.result_hidden_allergens r
  = Some ["whey protein (hidden dairy)"]
  /\ IngredientAnalyzer.result_risk_level r = Safe
  /\ AllergyChecker.find_category AllergyChecker.allergen_database "dairy"
     = None
  /\ AllergyChecker._get_allergen_severity "dairy" = Moderate.
Proof.
  vm_compute. repeat split.
Qed.

(** ** The ingredient parser *)

(** C6. The code at a text with a line feed: the line feed does not split,
    the returned token spans it; what splits is the two-character sequence
    backslash, n. *)
Theorem line_feed_does_not_split :
  IngredientParser._parse_ingredients
    ("milk" ++ ParserSpec.newline ++ "sugar")
  = ["milk" ++ ParserSpec.newline ++ "sugar"]
  /\ IngredientParser._parse_ingredients
       ("milk" ++ ParserSpec.carriage_return ++ "sugar")
     = ["milk" ++ ParserSpec.carriage_return ++ "sugar"]
  /\ IngredientParser._parse_ingredients "milk\nsugar" = ["milk"; "sugar"].
Proof.
  vm_compute. repeat split.
Qed.

Lemma clean_nonempty :
  forall fragment t, In t (IngredientParser.clean fragment) -> t <> "".
Proof.
  intros fragment t. unfold IngredientParser.clean.
  destruct (_ && _); [|intros []].
  destruct (PyStr.truthy _) eqn:E; [|intros []].
  intros [H | []]. subst t. now apply truthy_nonempty.
Qed.

Lemma parse_tokens_nonempty :
  forall text t,
    In t (IngredientParser._parse_ingredients text) -> t <> "".
Proof.
  intros text t. unfold IngredientParser._parse_ingredients.
  destruct (_ || _); [intros []|].
  intros H. apply in_flat_map in H. destruct H as [fragment [_ H]].
  now apply clean_nonempty in H.
Qed.

(** C7. The code at a text with a quantity: the fragment "5 g" passes the
    test on its length and loses its leading number afterwards, so a token
    of length 1 is returned. *)
Theorem single_character_token :
  IngredientParser._parse_ingredients "water, 5 g" = ["water"; "g"]
  /\ String.length "g" = 1.
Proof.
  vm_compute. split; reflexivity.
Qed.

(** *** Strings under the parser's steps *)

Section StringFacts.
Import PyStr.

Lemma lower_app : forall a b, lower (a ++ b) = lower a ++ lower b.
Proof.
  induction a as [|c a IH]; intros b; simpl.
  - reflexivity.
  - now rewrite IH.
Qed.

Lemma append_nonempty_r : forall a b, b <> "" -> a ++ b <> "".
Proof.
  intros [|c a] b Hb; simpl; [assumption | discriminate].
Qed.

Lemma is_empty_false : forall s, s <> "" -> is_empty s = false.
Proof.
  intros [|c s] H; [contradiction | reflexivity].
Qed.

Lemma lstrip_by_fixed_app :
  forall p a b, a <> "" -> lstrip_by p a = a -> lstrip_by p (a ++ b) = a ++ b.
Proof.
  intros p [|c a] b Ha H; [contradiction|].
  simpl in *. destruct (p c) eqn:E; [|reflexivity].
  exfalso.
  assert (Hlen : forall s, String.length (lstrip_by p s) <= String.length s).
  { induction s as [|d s IHs]; simpl; [lia|].
    destruct (p d); simpl; lia. }
  pose proof (Hlen a) as Hl. rewrite H in Hl. simpl in Hl. lia.
Qed.

Lemma rstrip_by_fixed_app :
  forall p a b, b <> "" -> rstrip_by p b = b -> rstrip_by p (a ++ b) = a ++ b.
Proof.
  intros p a b Hb H. induction a as [|c a IH]; simpl.
  - assumption.
  - rewrite IH. rewrite (is_empty_false (a ++ b)); [reflexivity|].
    now apply append_nonempty_r.
Qed.

Lemma split_aux_no_separator :
  forall sep t, contains sep t = false -> split_aux sep 0 t = (t, []).
Proof.
  intros sep t. induction t as [|c t IH]; intros H.
  - reflexivity.
  - cbn [contains] in H. apply orb_false_iff in H. destruct H as [Hs Hc].
    change (split_aux sep 0 (String c t))
      with (if starts_with sep (String c t)
            then let (p, ps) := split_aux sep (String.length sep - 1) t in
                 (EmptyString, p :: ps)
            else let (p, ps) := split_aux sep 0 t in (String c p, ps)).
    rewrite Hs, (IH Hc). reflexivity.
Qed.

Lemma split_no_separator :
  forall sep t, contains sep t = false -> split t sep = [t].
Proof.
  intros sep t H. unfold split. now rewrite split_aux_no_separator.
Qed.

Lemma starts_with_single :
  forall a b s, starts_with (String a "") (String b s) = Ascii.eqb a b.
Proof.
  intros a b s. cbn [starts_with]. apply andb_true_r.
Qed.

Lemma split_aux_comma_app :
  forall t more,
    contains "," t = false ->
    split_aux "," 0 (t ++ String ","%char more)
    = (t, let (p, ps) := split_aux "," 0 more in p :: ps).
Proof.
  induction t as [|c t IH]; intros more H.
  - change (split_aux "," 0 ("" ++ String ","%char more))
      with (let (p, ps) := split_aux "," 0 more in (EmptyString, p :: ps)).
    now destruct (split_aux "," 0 more).
  - cbn [contains] in H. apply orb_false_iff in H. destruct H as [Hs Hc].
    change ((String c t) ++ String ","%char more)
      with (String c (t ++ String ","%char more)).
    change (split_aux "," 0 (String c (t ++ String ","%char more)))
      with (if starts_with "," (String c (t ++ String ","%char more))
            then let (p, ps) :=
                   split_aux "," (String.length "," - 1)
                             (t ++ String ","%char more) in
                 (EmptyString, p :: ps)
            else let (p, ps) :=
                   split_aux "," 0 (t ++ String ","%char more) in
                 (String c p, ps)).
    assert (Hs' : starts_with "," (String c (t ++ String ","%char more))
                  = false).
    { rewrite starts_with_single in *. assumption. }
    rewrite Hs', (IH more Hc). reflexivity.
Qed.

End StringFacts.

(** *** Parsing a joined list of canonical tokens *)

Section Reparse.
Import PyStr IngredientParser ParserSpec.

Lemma canonical_facts :
  forall t,
    canonical t = true ->
    1 < String.length t
    /\ lower t = t
    /\ strip t = t
    /\ lstrip_by is_leading t = t
    /\ rstrip_by is_trailing t = t
    /\ (forall sep, In sep separators -> contains sep t = false).
Proof.
  intros t H. unfold canonical in H.
  repeat (apply andb_true_iff in H; destruct H as [H ?]).
  repeat split.
  - now apply Nat.ltb_lt.
  - now apply String.eqb_eq.
  - now apply String.eqb_eq.
  - now apply String.eqb_eq.
  - now apply String.eqb_eq.
  - intros sep Hsep.
    match goal with
    | F : forallb _ separators = true |- _ =>
        rewrite forallb_forall in F; specialize (F sep Hsep)
    end.
    now apply negb_true_iff.
Qed.

Lemma canonical_nonempty : forall t, canonical t = true -> t <> "".
Proof.
  intros t H. apply canonical_facts in H. destruct H as [H _].
  intros E. subst t. simpl in H. lia.
Qed.

Lemma joined_cons :
  forall t u ts, joined (t :: u :: ts) = t ++ ", " ++ joined (u :: ts).
Proof. reflexivity. Qed.

Lemma joined_nonempty :
  forall t ts, t <> "" -> joined (t :: ts) <> "".
Proof.
  intros t [|u ts] Ht.
  - exact Ht.
  - rewrite joined_cons. destruct t; [contradiction | discriminate].
Qed.

Lemma lower_joined :
  forall ts, Forall (fun t => lower t = t) ts -> lower (joined ts) = joined ts.
Proof.
  induction ts as [|t ts IH]; intros H.
  - reflexivity.
  - inversion H as [|? ? Ht Hts]; subst. destruct ts as [|u ts].
    + exact Ht.
    + rewrite joined_cons, !lower_app, Ht, (IH Hts). reflexivity.
Qed.

Lemma rstrip_joined :
  forall ts,
    Forall (fun t => t <> "" /\ rstrip_by is_space t = t) ts ->
    rstrip_by is_space (joined ts) = joined ts.
Proof.
  induction ts as [|t ts IH]; intros H.
  - reflexivity.
  - inversion H as [|? ? [Hne Ht] Hts]; subst. destruct ts as [|u ts].
    + exact Ht.
    + rewrite joined_cons.
      assert (Hj : joined (u :: ts) <> "").
      { inversion Hts as [|? ? [Hu _] _]; subst. now apply joined_nonempty. }
      apply rstrip_by_fixed_app; [now apply append_nonempty_r|].
      apply rstrip_by_fixed_app; [assumption | now apply IH].
Qed.

Lemma lstrip_is_leading_is_space :
  forall t, t <> "" -> lstrip_by is_leading t = t -> lstrip_by is_space t = t.
Proof.
  intros [|c t] Hne H; [contradiction|].
  simpl in *. destruct (is_leading c) eqn:E.
  - exfalso.
    assert (Hlen : forall s,
               String.length (lstrip_by is_leading s) <= String.length s).
    { induction s as [|d s IHs]; simpl; [lia|].
      destruct (is_leading d); simpl; lia. }
    pose proof (Hlen t) as Hl. rewrite H in Hl. simpl in Hl. lia.
  - unfold is_leading in E. apply orb_false_iff in E. destruct E as [_ E].
    now rewrite E.
Qed.

Lemma strip_fixed_parts :
  forall t, t <> "" -> lstrip_by is_leading t = t -> strip t = t ->
            lstrip_by is_space t = t /\ rstrip_by is_space t = t.
Proof.
  intros t Hne Hl Hs.
  pose proof (lstrip_is_leading_is_space t Hne Hl) as Hl'.
  split; [assumption|]. unfold strip in Hs. now rewrite Hl' in Hs.
Qed.

Lemma strip_joined :
  forall ts, Forall (fun t => canonical t = true) ts ->
             strip (joined ts) = joined ts.
Proof.
  intros ts H. destruct ts as [|t ts]; [reflexivity|].
  assert (Hparts : Forall (fun t => t <> "" /\ rstrip_by is_space t = t)
                          (t :: ts)).
  { eapply Forall_impl; [|exact H]. intros u Hu.
    pose proof (canonical_nonempty u Hu) as Hne.
    apply canonical_facts in Hu. destruct Hu as [_ [_ [Hs [Hl _]]]].
    split; [assumption|]. now apply strip_fixed_parts. }
  unfold strip.
  assert (Hl : lstrip_by is_space (joined (t :: ts)) = joined (t :: ts)).
  { inversion H as [|? ? Ht _]; subst.
    pose proof (canonical_nonempty t Ht) as Hne.
    apply canonical_facts in Ht. destruct Ht as [_ [_ [Hs [Hl _]]]].
    destruct (strip_fixed_parts t Hne Hl Hs) as [Hls _].
    destruct ts as [|u ts]; [exact Hls|].
    rewrite joined_cons. now apply lstrip_by_fixed_app. }
  rewrite Hl. now apply rstrip_joined.
Qed.

Lemma split_aux_joined :
  forall ts t,
    Forall (fun u => contains "," u = false) (t :: ts) ->
    split_aux "," 0 (joined (t :: ts)) = (t, map (String " "%char) ts).
Proof.
  induction ts as [|u ts IH]; intros t H;
    inversion H as [|? ? Ht Hts]; subst.
  - now apply split_aux_no_separator.
  - rewrite joined_cons.
    change (t ++ ", " ++ joined (u :: ts))
      with (t ++ String ","%char (String " "%char (joined (u :: ts)))).
    rewrite (split_aux_comma_app _ _ Ht).
    change (split_aux "," 0 (String " "%char (joined (u :: ts))))
      with (let (p, ps) := split_aux "," 0 (joined (u :: ts)) in
            (String " "%char p, ps)).
    rewrite (IH u Hts). reflexivity.
Qed.

Lemma strip_after_space : forall t, strip (String " "%char t) = strip t.
Proof. reflexivity. Qed.

Lemma first_round :
  forall ts, Forall (fun t => canonical t = true) ts -> ts <> [] ->
             split_round [joined ts] "," = ts.
Proof.
  intros [|t ts] H Hne; [contradiction|].
  unfold split_round. simpl flat_map. rewrite app_nil_r.
  unfold split. rewrite split_aux_joined.
  - assert (Hs : Forall (fun u => strip u = u) (t :: ts)).
    { eapply Forall_impl; [|exact H]. intros u Hu.
      now apply canonical_facts in Hu. }
    inversion Hs as [|? ? Ht Hts]; subst.
    simpl map. rewrite Ht. f_equal.
    rewrite map_map. clear - Hts.
    induction Hts as [|u ts Hu _ IH]; simpl; [reflexivity|].
    rewrite strip_after_space, Hu. now f_equal.
  - eapply Forall_impl; [|exact H]. intros u Hu.
    apply canonical_facts in Hu. destruct Hu as [_ [_ [_ [_ [_ Hsep]]]]].
    apply Hsep. now left.
Qed.

Lemma later_round :
  forall sep ts,
    In sep separators ->
    Forall (fun t => canonical t = true) ts ->
    split_round ts sep = ts.
Proof.
  intros sep ts Hsep H. unfold split_round.
  induction H as [|t ts Ht _ IH]; simpl; [reflexivity|].
  apply canonical_facts in Ht. destruct Ht as [_ [_ [Hs [_ [_ Hno]]]]].
  rewrite (split_no_separator sep t (Hno sep Hsep)). simpl.
  now rewrite Hs, IH.
Qed.

Lemma split_all_joined :
  forall ts, Forall (fun t => canonical t = true) ts -> ts <> [] ->
             split_all (joined ts) = ts.
Proof.
  intros ts H Hne. unfold split_all, separators. cbn [fold_left].
  rewrite (first_round ts H Hne).
  assert (Hin : forall sep, In sep [";"; "\n"; "\r"; "|"] ->
                            split_round ts sep = ts).
  { intros sep Hsep. apply later_round; [|assumption]. now right. }
  rewrite (Hin ";"), (Hin "\n"), (Hin "\r"), (Hin "|");
    simpl; auto 10.
Qed.

Lemma clean_canonical :
  forall t, canonical t = true -> clean t = [t].
Proof.
  intros t H. pose proof (canonical_nonempty t H) as Hne.
  apply canonical_facts in H. destruct H as [Hlen [_ [Hs [Hl [Hr _]]]]].
  unfold clean. rewrite Hs, Hl, Hr.
  apply truthy_nonempty in Hne. rewrite Hne.
  apply Nat.ltb_lt in Hlen. now rewrite Hlen.
Qed.

Lemma clean_all_canonical :
  forall ts, Forall (fun t => canonical t = true) ts ->
             flat_map clean ts = ts.
Proof.
  intros ts H. induction H as [|t ts Ht _ IH]; simpl; [reflexivity|].
  now rewrite (clean_canonical t Ht), IH.
Qed.

(** A list of canonical tokens whose joined form holds no removable
    pattern is a fixed point of joining and parsing. *)
Lemma parse_joined_canonical :
  forall ts,
    Forall (fun t => canonical t = true) ts ->
    remove_patterns (joined ts) = joined ts ->
    _parse_ingredients (joined ts) = ts.
Proof.
  intros ts H Hpat. destruct ts as [|t ts]; [reflexivity|].
  unfold _parse_ingredients.
  assert (Hne : joined (t :: ts) <> "").
  { apply joined_nonempty. apply canonical_nonempty.
    now inversion H. }
  rewrite (strip_joined _ H).
  apply truthy_nonempty in Hne. rewrite Hne. simpl orb. cbv iota.
  rewrite lower_joined.
  - rewrite (strip_joined _ H), Hpat, split_all_joined;
      [now apply clean_all_canonical | assumption | discriminate].
  - eapply Forall_impl; [|exact H]. intros u Hu.
    now apply canonical_facts in Hu.
Qed.

End Reparse.

(** *** What every returned token satisfies *)

Section TokenFacts.
Import PyStr IngredientParser ParserSpec.

Lemma string_app_assoc :
  forall a b c : string, (a ++ b) ++ c = a ++ (b ++ c).
Proof.
  induction a as [|x a IH]; intros b c; simpl.
  - reflexivity.
  - now rewrite IH.
Qed.

Lemma string_app_nil_r : forall a : string, a ++ "" = a.
Proof.
  induction a as [|x a IH]; simpl; [reflexivity | now rewrite IH].
Qed.

Lemma every_app :
  forall P a b, every P (a ++ b) <-> every P a /\ every P b.
Proof.
  intros P a b. induction a as [|c a IH]; simpl.
  - tauto.
  - rewrite IH. tauto.
Qed.

Lemma every_infix :
  forall P x s, infix_of x s -> every P s -> every P x.
Proof.
  intros P x s [a [b E]] H. subst s.
  apply every_app in H. destruct H as [_ H].
  apply every_app in H. tauto.
Qed.

Lemma lower_char_idempotent :
  forall c, lower_char (lower_char c) = lower_char c.
Proof.
  intros c. destruct c as [[] [] [] [] [] [] [] []]; reflexivity.
Qed.

Lemma every_lower : forall s, every lower_case (lower s).
Proof.
  induction s as [|c s IH]; simpl; [exact I|].
  split; [apply lower_char_idempotent | exact IH].
Qed.

Lemma every_lower_fixed : forall s, every lower_case s -> lower s = s.
Proof.
  induction s as [|c s IH]; simpl; [reflexivity|].
  intros [Hc Hs]. unfold lower_case in Hc. now rewrite Hc, IH.
Qed.

Lemma sub_aux_every :
  forall P m s skip prev,
    every P s -> every P (Re.sub_aux m skip prev s).
Proof.
  intros P m. induction s as [|c s IH]; intros skip prev H.
  - exact I.
  - destruct H as [Hc Hs]. cbn [Re.sub_aux].
    destruct skip as [|k].
    + destruct (m prev (String c s)) as [[|n]|]; simpl; auto.
    + auto.
Qed.

Lemma remove_patterns_every :
  forall P text, every P text -> every P (remove_patterns text).
Proof.
  intros P text. unfold remove_patterns.
  generalize processing_patterns. intros ms. revert text.
  induction ms as [|m ms IH]; intros text H; simpl.
  - assumption.
  - apply IH. unfold Re.sub. now apply sub_aux_every.
Qed.

Lemma infix_refl : forall s, infix_of s s.
Proof.
  intros s. exists "", "". simpl. now rewrite string_app_nil_r.
Qed.

Lemma infix_trans :
  forall x y z, infix_of x y -> infix_of y z -> infix_of x z.
Proof.
  intros x y z [a [b E1]] [c [d E2]]. subst.
  exists (c ++ a), (b ++ d).
  now rewrite !string_app_assoc.
Qed.

Lemma infix_cons : forall x s c, infix_of x s -> infix_of x (String c s).
Proof.
  intros x s c [a [b E]]. subst. now exists (String c a), b.
Qed.

Lemma infix_prefix : forall x rest, infix_of x (x ++ rest).
Proof.
  intros x rest. now exists "", rest.
Qed.

Lemma infix_empty : forall s, infix_of "" s.
Proof.
  intros s. now exists "", s.
Qed.

Lemma lstrip_infix : forall p s, infix_of (lstrip_by p s) s.
Proof.
  intros p. induction s as [|c s IH]; simpl.
  - apply infix_refl.
  - destruct (p c); [now apply infix_cons | apply infix_refl].
Qed.

Lemma rstrip_prefix : forall p s, exists rest, s = rstrip_by p s ++ rest.
Proof.
  intros p. induction s as [|c s [rest IH]]; simpl.
  - now exists "".
  - destruct (is_empty (rstrip_by p s) && p c).
    + now exists (String c s).
    + exists rest. simpl. now rewrite <- IH.
Qed.

Lemma rstrip_infix : forall p s, infix_of (rstrip_by p s) s.
Proof.
  intros p s. destruct (rstrip_prefix p s) as [rest E].
  rewrite E at 2. apply infix_prefix.
Qed.

Lemma strip_infix : forall s, infix_of (strip s) s.
Proof.
  intros s. unfold strip.
  eapply infix_trans; [apply rstrip_infix | apply lstrip_infix].
Qed.

Lemma starts_with_app :
  forall z a b, starts_with z a = true -> starts_with z (a ++ b) = true.
Proof.
  induction z as [|x z IH]; intros a b H.
  - reflexivity.
  - destruct a as [|y a]; [discriminate|].
    cbn [starts_with append] in *.
    apply andb_true_iff in H. destruct H as [H1 H2].
    now rewrite H1, (IH a b H2).
Qed.

Lemma contains_app_l :
  forall z a b, contains z a = true -> contains z (a ++ b) = true.
Proof.
  intros z. induction a as [|c a IH]; intros b H.
  - cbn [contains] in H. rewrite orb_false_r in H.
    destruct z; [|discriminate]. destruct b; reflexivity.
  - cbn [contains] in H. apply orb_true_iff in H.
    change (String c a ++ b) with (String c (a ++ b)).
    cbn [contains]. apply orb_true_iff. destruct H as [H | H].
    + left. now apply (starts_with_app z (String c a) b).
    + right. now apply IH.
Qed.

Lemma contains_app_r :
  forall z a b, contains z b = true -> contains z (a ++ b) = true.
Proof.
  intros z. induction a as [|c a IH]; intros b H.
  - assumption.
  - change (String c a ++ b) with (String c (a ++ b)).
    cbn [contains]. rewrite (IH b H). apply orb_true_r.
Qed.

Lemma contains_infix :
  forall z x s, infix_of x s -> contains z x = true -> contains z s = true.
Proof.
  intros z x s [a [b E]] H. subst.
  apply contains_app_r. now apply contains_app_l.
Qed.

Lemma no_separator_infix :
  forall z x s, infix_of x s -> contains z s = false -> contains z x = false.
Proof.
  intros z x s Hin Hs. destruct (contains z x) eqn:E; [|reflexivity].
  rewrite (contains_infix z x s Hin E) in Hs. discriminate.
Qed.

End TokenFacts.

Section SplitFacts.
Import PyStr IngredientParser ParserSpec.

Variable sep : string.

Lemma split_aux_step :
  forall skip c s,
    split_aux sep skip (String c s)
    = match skip with
      | S k => split_aux sep k s
      | O =>
          if starts_with sep (String c s)
          then (EmptyString,
                fst (split_aux sep (String.length sep - 1) s)
                :: snd (split_aux sep (String.length sep - 1) s))
          else (String c (fst (split_aux sep 0 s)), snd (split_aux sep 0 s))
      end.
Proof.
  intros skip c s. cbn [split_aux]. destruct skip as [|k]; [|reflexivity].
  destruct (starts_with sep (String c s)).
  - now destruct (split_aux sep (String.length sep - 1) s).
  - now destruct (split_aux sep 0 s).
Qed.

Lemma split_is_pieces : forall s, split s sep = pieces sep 0 s.
Proof.
  intros s. unfold split, pieces. now destruct (split_aux sep 0 s).
Qed.

(** The piece being read when the scan starts is a prefix of the text. *)
Lemma split_aux_prefix :
  forall s, exists rest, s = fst (split_aux sep 0 s) ++ rest.
Proof.
  induction s as [|c s [rest IH]].
  - now exists "".
  - rewrite split_aux_step. destruct (starts_with sep (String c s)); simpl.
    + now exists (String c s).
    + exists rest. now rewrite <- IH.
Qed.

Lemma pieces_infix :
  forall s skip x, In x (pieces sep skip s) -> infix_of x s.
Proof.
  induction s as [|c s IH]; intros skip x H.
  - destruct H as [H | []]. subst. apply infix_refl.
  - unfold pieces in H. rewrite split_aux_step in H.
    destruct skip as [|k].
    + destruct (starts_with sep (String c s)); simpl in H.
      * destruct H as [H | H]; [subst; apply infix_empty|].
        apply infix_cons. now apply (IH (String.length sep - 1)).
      * destruct H as [H | H].
        -- subst. destruct (split_aux_prefix s) as [rest E].
           rewrite E at 2.
           apply (infix_prefix (String c (fst (split_aux sep 0 s))) rest).
        -- apply infix_cons. apply (IH 0). now right.
    + apply infix_cons. now apply (IH k).
Qed.

Hypothesis sep_nonempty : sep <> "".

Lemma pieces_no_separator :
  forall s skip x, In x (pieces sep skip s) -> contains sep x = false.
Proof.
  induction s as [|c s IH]; intros skip x H.
  - destruct H as [H | []]. subst. destruct sep; [contradiction|reflexivity].
  - unfold pieces in H. rewrite split_aux_step in H.
    destruct skip as [|k].
    + destruct (starts_with sep (String c s)) eqn:Es; simpl in H.
      * destruct H as [H | H].
        -- subst. destruct sep; [contradiction | reflexivity].
        -- now apply (IH (String.length sep - 1)).
      * destruct H as [H | H].
        -- subst. cbn [contains].
           rewrite (IH 0 (fst (split_aux sep 0 s))); [|now left].
           rewrite orb_false_r.
           destruct (starts_with sep (String c (fst (split_aux sep 0 s))))
             eqn:E; [|reflexivity].
           destruct (split_aux_prefix s) as [rest Er].
           apply (starts_with_app _ _ rest) in E.
           change (String c (fst (split_aux sep 0 s)) ++ rest)
             with (String c (fst (split_aux sep 0 s) ++ rest)) in E.
           rewrite <- Er in E. congruence.
        -- apply (IH 0). now right.
    + now apply (IH k).
Qed.

Lemma round_infix :
  forall l x, In x (split_round l sep) ->
              exists y, In y l /\ infix_of x y.
Proof.
  intros l x H. unfold split_round in H.
  apply in_flat_map in H. destruct H as [y [Hy H]].
  apply in_map_iff in H. destruct H as [piece [E Hp]]. subst x.
  exists y. split; [assumption|].
  eapply infix_trans; [apply strip_infix|].
  rewrite split_is_pieces in Hp. now apply pieces_infix in Hp.
Qed.

Lemma round_no_separator :
  forall l x, In x (split_round l sep) -> contains sep x = false.
Proof.
  intros l x H. unfold split_round in H.
  apply in_flat_map in H. destruct H as [y [Hy H]].
  apply in_map_iff in H. destruct H as [piece [E Hp]]. subst x.
  apply (no_separator_infix sep _ piece (strip_infix piece)).
  rewrite split_is_pieces in Hp. now apply pieces_no_separator in Hp.
Qed.

End SplitFacts.

Section PipelineFacts.
Import PyStr IngredientParser ParserSpec.

Lemma rounds_facts :
  forall seps l x,
    In x (fold_left split_round seps l) ->
    (exists y, In y l /\ infix_of x y)
    /\ (forall sep, In sep seps -> sep <> "" -> contains sep x = false).
Proof.
  induction seps as [|s1 seps IH]; intros l x H; simpl in H.
  - split.
    + exists x. split; [assumption | apply infix_refl].
    + intros sep [].
  - destruct (IH _ _ H) as [[y [Hy Hxy]] Hno]. split.
    + destruct (round_infix s1 l y Hy) as [y0 [Hy0 Hyy0]].
      exists y0. split; [assumption|]. now apply (infix_trans x y y0).
    + intros sep [E | Hsep] Hne.
      * subst s1. apply (no_separator_infix sep x y Hxy).
        now apply (round_no_separator sep Hne l).
      * now apply Hno.
Qed.

Lemma lstrip_by_head :
  forall p s, lstrip_by p (lstrip_by p s) = lstrip_by p s.
Proof.
  intros p. induction s as [|c s IH]; simpl; [reflexivity|].
  destruct (p c) eqn:E; [assumption|]. simpl. now rewrite E.
Qed.

Lemma rstrip_by_idempotent :
  forall p s, rstrip_by p (rstrip_by p s) = rstrip_by p s.
Proof.
  intros p. induction s as [|c s IH]; simpl; [reflexivity|].
  destruct (is_empty (rstrip_by p s) && p c) eqn:E; [reflexivity|].
  simpl. now rewrite IH, E.
Qed.

Lemma lstrip_rstrip_fixed :
  forall p q s, lstrip_by p s = s ->
                lstrip_by p (rstrip_by q s) = rstrip_by q s.
Proof.
  intros p q [|c s] H; [reflexivity|].
  simpl in *. destruct (is_empty (rstrip_by q s) && q c); [reflexivity|].
  simpl. destruct (p c) eqn:E; [|reflexivity].
  exfalso.
  assert (Hlen : forall u, String.length (lstrip_by p u) <= String.length u).
  { induction u as [|d u IHu]; simpl; [lia|]. destruct (p d); simpl; lia. }
  pose proof (Hlen s) as Hl. rewrite H in Hl. simpl in Hl. lia.
Qed.

Lemma clean_facts :
  forall fragment t,
    In t (clean fragment) ->
    infix_of t fragment
    /\ lstrip_by is_leading t = t
    /\ rstrip_by is_trailing t = t.
Proof.
  intros fragment t. unfold clean.
  destruct (_ && _); [|intros []].
  destruct (truthy _); [|intros []].
  intros [E | []]. subst t. split; [|split].
  - eapply infix_trans; [apply rstrip_infix|].
    eapply infix_trans; [apply lstrip_infix | apply strip_infix].
  - apply lstrip_rstrip_fixed. apply lstrip_by_head.
  - apply rstrip_by_idempotent.
Qed.

(** Every token the parser returns is non-empty, in lower case, free of
    separators, and begins with no numbering and ends with no
    punctuation. *)
Lemma parse_token_facts :
  forall text t,
    In t (_parse_ingredients text) ->
    t <> ""
    /\ lower t = t
    /\ lstrip_by is_leading t = t
    /\ rstrip_by is_trailing t = t
    /\ (forall sep, In sep separators -> contains sep t = false).
Proof.
  intros text t H. split; [now apply (parse_tokens_nonempty text)|].
  unfold _parse_ingredients in H.
  destruct (_ || _); [destruct H|].
  apply in_flat_map in H. destruct H as [fragment [Hf Ht]].
  apply clean_facts in Ht. destruct Ht as [Hin [Hl Hr]].
  unfold split_all in Hf. apply rounds_facts in Hf.
  destruct Hf as [[y [[Ey | []] Hfy]] Hno]. subst y.
  split; [|split; [assumption | split; [assumption|]]].
  - apply every_lower_fixed.
    apply (every_infix _ t fragment Hin).
    apply (every_infix _ fragment _ Hfy).
    apply remove_patterns_every.
    apply (every_infix _ _ _ (strip_infix _)).
    apply every_lower.
  - intros sep Hsep. apply (no_separator_infix sep t fragment Hin).
    apply Hno; [assumption|].
    unfold separators in Hsep. simpl in Hsep.
    intros E. subst sep. intuition discriminate.
Qed.

End PipelineFacts.

Section ReparseAgain.
Import PyStr IngredientParser ParserSpec.

Lemma parse_tokens_token_like :
  forall text, Forall token_like (_parse_ingredients text).
Proof.
  intros text. apply Forall_forall. intros t Hin.
  destruct (parse_token_facts text t Hin) as [H1 [H2 [H3 [_ H5]]]].
  unfold token_like. auto.
Qed.

Lemma lstrip_fixed_head :
  forall p s, s <> "" -> lstrip_by p s = s ->
              exists c s', s = String c s' /\ p c = false.
Proof.
  intros p [|c s] Hne H; [contradiction|].
  exists c, s. split; [reflexivity|].
  simpl in H. destruct (p c) eqn:E; [|reflexivity].
  exfalso.
  assert (Hlen : forall u, String.length (lstrip_by p u) <= String.length u).
  { induction u as [|d u IHu]; simpl; [lia|]. destruct (p d); simpl; lia. }
  pose proof (Hlen s) as Hl. rewrite H in Hl. simpl in Hl. lia.
Qed.

Lemma token_lstrip_space :
  forall t, token_like t -> lstrip_by is_space t = t.
Proof.
  intros t [Hne [_ [Hl _]]]. now apply lstrip_is_leading_is_space.
Qed.

Lemma token_rstrip_nonempty :
  forall t, token_like t -> rstrip_by is_space t <> "".
Proof.
  intros t Ht. pose proof (token_lstrip_space t Ht) as Hl.
  destruct Ht as [Hne _].
  destruct (lstrip_fixed_head is_space t Hne Hl) as [c [s [E Hc]]].
  subst t. simpl. rewrite Hc, andb_false_r. discriminate.
Qed.

Lemma token_strip :
  forall t, token_like t -> strip t = rstrip_by is_space t.
Proof.
  intros t Ht. unfold strip. now rewrite (token_lstrip_space t Ht).
Qed.

Lemma strip_again : forall s, strip (strip s) = strip s.
Proof.
  intros s. unfold strip.
  rewrite (lstrip_rstrip_fixed is_space is_space (lstrip_by is_space s)).
  - apply rstrip_by_idempotent.
  - apply lstrip_by_head.
Qed.

Lemma rstrip_by_app_keep :
  forall p a b,
    rstrip_by p b <> "" -> rstrip_by p (a ++ b) = a ++ rstrip_by p b.
Proof.
  intros p a b Hb. induction a as [|c a IH]; simpl.
  - reflexivity.
  - rewrite IH. rewrite (is_empty_false (a ++ rstrip_by p b)); [reflexivity|].
    now apply append_nonempty_r.
Qed.

Lemma rstrip_last_nonempty :
  forall t ts,
    Forall token_like (t :: ts) -> joined (rstrip_last (t :: ts)) <> "".
Proof.
  intros t ts H. inversion H as [|? ? Ht Hts]; subst.
  destruct ts as [|u ts].
  - simpl. now apply token_rstrip_nonempty.
  - change (rstrip_last (t :: u :: ts)) with (t :: rstrip_last (u :: ts)).
    apply joined_nonempty. now destruct Ht.
Qed.

Lemma rstrip_joined_tokens :
  forall ts,
    Forall token_like ts ->
    rstrip_by is_space (joined ts) = joined (rstrip_last ts).
Proof.
  induction ts as [|t ts IH]; intros H.
  - reflexivity.
  - inversion H as [|? ? Ht Hts]; subst. destruct ts as [|u ts].
    + reflexivity.
    + change (rstrip_last (t :: u :: ts)) with (t :: rstrip_last (u :: ts)).
      assert (Hshape : exists v vs, rstrip_last (u :: ts) = v :: vs).
      { destruct ts; simpl; eauto. }
      destruct Hshape as [v [vs Ev]].
      pose proof (rstrip_last_nonempty u ts Hts) as Hne.
      rewrite Ev in *. rewrite !joined_cons.
      rewrite <- (IH Hts) in *.
      rewrite rstrip_by_app_keep.
      * f_equal. rewrite rstrip_by_app_keep; [reflexivity | assumption].
      * rewrite rstrip_by_app_keep by assumption.
        now apply append_nonempty_r.
Qed.

Lemma strip_joined_tokens :
  forall ts,
    Forall token_like ts -> strip (joined ts) = joined (rstrip_last ts).
Proof.
  intros ts H. unfold strip. destruct ts as [|t ts]; [reflexivity|].
  assert (Hl : lstrip_by is_space (joined (t :: ts)) = joined (t :: ts)).
  { inversion H as [|? ? Ht _]; subst.
    pose proof (token_lstrip_space t Ht) as Hls. destruct Ht as [Hne _].
    destruct ts as [|u ts]; [exact Hls|].
    rewrite joined_cons. now apply lstrip_by_fixed_app. }
  rewrite Hl. now apply rstrip_joined_tokens.
Qed.

Lemma rstrip_last_no_comma :
  forall ts,
    Forall token_like ts ->
    Forall (fun u => contains "," u = false) (rstrip_last ts).
Proof.
  induction ts as [|t ts IH]; intros H; [constructor|].
  inversion H as [|? ? Ht Hts]; subst.
  assert (Hc : contains "," t = false).
  { destruct Ht as [_ [_ [_ Hsep]]]. apply Hsep. now left. }
  destruct ts as [|u ts].
  - constructor; [|constructor].
    apply (no_separator_infix "," _ t (rstrip_infix is_space t) Hc).
  - change (rstrip_last (t :: u :: ts)) with (t :: rstrip_last (u :: ts)).
    constructor; [assumption | now apply IH].
Qed.

Lemma strip_rstrip_last :
  forall ts,
    Forall token_like ts -> map strip (rstrip_last ts) = map strip ts.
Proof.
  induction ts as [|t ts IH]; intros H; [reflexivity|].
  inversion H as [|? ? Ht Hts]; subst. destruct ts as [|u ts].
  - simpl. f_equal. rewrite (token_strip t Ht). unfold strip.
    rewrite (lstrip_rstrip_fixed is_space is_space t
               (token_lstrip_space t Ht)).
    apply rstrip_by_idempotent.
  - change (rstrip_last (t :: u :: ts)) with (t :: rstrip_last (u :: ts)).
    simpl map. f_equal. now apply IH.
Qed.

Lemma first_round_tokens :
  forall ts,
    Forall token_like ts -> ts <> [] ->
    split_round [joined (rstrip_last ts)] "," = map strip ts.
Proof.
  intros ts H Hne. rewrite <- (strip_rstrip_last ts H).
  pose proof (rstrip_last_no_comma ts H) as Hc.
  assert (Hshape : exists v vs, rstrip_last ts = v :: vs).
  { destruct ts as [|t [|u ts]]; [contradiction | simpl; eauto
                                  | simpl; eauto]. }
  destruct Hshape as [v [vs Ev]]. rewrite Ev in *.
  unfold split_round. simpl flat_map. rewrite app_nil_r.
  unfold split. rewrite (split_aux_joined vs v Hc).
  simpl map. f_equal. rewrite map_map.
  apply map_ext. intros x. apply strip_after_space.
Qed.

Lemma later_round_tokens :
  forall sep ts,
    In sep separators ->
    Forall token_like ts ->
    split_round (map strip ts) sep = map strip ts.
Proof.
  intros sep ts Hsep H. unfold split_round.
  induction H as [|t ts Ht _ IH]; simpl; [reflexivity|].
  assert (Hno : contains sep (strip t) = false).
  { destruct Ht as [_ [_ [_ Hn]]].
    apply (no_separator_infix sep _ t (strip_infix t)). now apply Hn. }
  rewrite (split_no_separator sep (strip t) Hno). simpl.
  now rewrite strip_again, IH.
Qed.

Lemma split_all_tokens :
  forall ts,
    Forall token_like ts -> ts <> [] ->
    split_all (joined (rstrip_last ts)) = map strip ts.
Proof.
  intros ts H Hne. unfold split_all, separators. cbn [fold_left].
  rewrite (first_round_tokens ts H Hne).
  assert (Hin : forall sep, In sep [";"; "\n"; "\r"; "|"] ->
                            split_round (map strip ts) sep = map strip ts).
  { intros sep Hsep. apply later_round_tokens; [|assumption]. now right. }
  rewrite (Hin ";"), (Hin "\n"), (Hin "\r"), (Hin "|");
    simpl; auto 10.
Qed.

Lemma clean_after_strip :
  forall ts, flat_map clean (map strip ts) = flat_map clean ts.
Proof.
  induction ts as [|t ts IH]; simpl; [reflexivity|].
  rewrite IH. f_equal. unfold clean. now rewrite strip_again.
Qed.

(** Parsing the joined form of a list of tokens cleans each token once
    more, when the pattern removal leaves the stripped joined form as it
    is. *)
Lemma parse_joined_tokens :
  forall ts,
    Forall token_like ts ->
    remove_patterns (strip (joined ts)) = strip (joined ts) ->
    _parse_ingredients (joined ts) = flat_map clean ts.
Proof.
  intros ts H Hpat. destruct ts as [|t ts]; [reflexivity|].
  unfold _parse_ingredients.
  assert (Hlow : lower (joined (t :: ts)) = joined (t :: ts)).
  { apply lower_joined. eapply Forall_impl; [|exact H].
    intros u Hu. now destruct Hu as [_ [Hu _]]. }
  assert (Hne : joined (t :: ts) <> "").
  { apply joined_nonempty. inversion H as [|? ? Ht _]. now destruct Ht. }
  assert (Hne' : strip (joined (t :: ts)) <> "").
  { rewrite (strip_joined_tokens _ H). now apply rstrip_last_nonempty. }
  apply truthy_nonempty in Hne. apply truthy_nonempty in Hne'.
  rewrite Hne, Hne'. simpl orb. cbv iota.
  rewrite Hlow, Hpat, (strip_joined_tokens _ H).
  rewrite split_all_tokens; [apply clean_after_strip | assumption|].
  discriminate.
Qed.

Lemma flat_map_singletons :
  forall (A : Type) (f : A -> list A) (l : list A),
    Forall (fun x => f x = [x]) l -> flat_map f l = l.
Proof.
  intros A f l H. induction H as [|x l Hx _ IH]; simpl; [reflexivity|].
  now rewrite Hx, IH.
Qed.

End ReparseAgain.

(** C5, as stated, fails. The patterns are removed in one pass:
    "concontainstains, sugar" parses to the tokens "contains" and "sugar",
    whose joined form "contains, sugar" parses to "sugar" alone. The
    trailing punctuation is removed after the whitespace: "milk . , eggs"
    parses to "milk " and "eggs", whose joined form parses to "milk" and
    "eggs". *)
Lemma reparse_not_stable :
  IngredientParser._parse_ingredients "concontainstains, sugar"
  = ["contains"; "sugar"]
  /\ ~ ParserSpec.reparse_stable "concontainstains, sugar"
  /\ IngredientParser._parse_ingredients "milk . , eggs" = ["milk "; "eggs"]
  /\ ~ ParserSpec.reparse_stable "milk . , eggs".
Proof.
  split; [vm_compute; reflexivity|].
  split; [unfold ParserSpec.reparse_stable; vm_compute; discriminate|].
  split; [vm_compute; reflexivity|].
  unfold ParserSpec.reparse_stable. vm_compute. discriminate.
Qed.

(** C5, amended. On an input whose tokens, joined with ", " and stripped
    as the parser strips its input, hold nothing that the pattern removal
    deletes, joining the returned tokens and parsing again yields, in the
    same order, these tokens passed once more through the cleaning of the
    parser; so it yields exactly the same token sequence whenever that
    cleaning leaves each token as it is. *)
Theorem reparse_cleans_again :
  forall text : string,
    let tokens := IngredientParser._parse_ingredients text in
    IngredientParser.remove_patterns
      (PyStr.strip (IngredientParser.joined tokens))
    = PyStr.strip (IngredientParser.joined tokens) ->
    IngredientParser._parse_ingredients (IngredientParser.joined tokens)
    = flat_map IngredientParser.clean tokens
    /\ (Forall (fun t => IngredientParser.clean t = [t]) tokens ->
        ParserSpec.reparse_stable text).
Proof.
  intros text tokens Hpat.
  assert (H : IngredientParser._parse_ingredients
                (IngredientParser.joined tokens)
              = flat_map IngredientParser.clean tokens).
  { apply parse_joined_tokens; [|assumption].
    apply parse_tokens_token_like. }
  split; [assumption|].
  intros Hfix. unfold ParserSpec.reparse_stable. fold tokens.
  rewrite H. now apply flat_map_singletons.
Qed.

Lemma reparse_cleans_again_witness :
  ParserSpec.reparse_stable
    "Wheat Flour (enriched), 2. Peanut Oil 5%; Sugar | E330, contains Soy."
  /\ IngredientParser._parse_ingredients
       (IngredientParser.joined
          (IngredientParser._parse_ingredients "milk . , eggs"))
     = ["milk"; "eggs"].
Proof.
  split.
  - apply (proj2 (reparse_cleans_again
                    "Wheat Flour (enriched), 2. Peanut Oil 5%; Sugar | E330, contains Soy."
                    eq_refl)).
    vm_compute. repeat constructor.
  - rewrite (proj1 (reparse_cleans_again "milk . , eggs" eq_refl)).
    reflexivity.
Defined.

(** * Further properties of the code *)

(** ** The user profile: adding, removing and looking up *)

Section ProfileMore.
Import PyStr.

Lemma contains_refl : forall s, contains s s = true.
Proof.
  intros s. destruct s as [|c s]; [reflexivity|].
  cbn [contains]. apply orb_true_iff. left.
  assert (H : forall t, starts_with t t = true).
  { induction t as [|d t IH]; [reflexivity|].
    cbn [starts_with]. now rewrite Ascii.eqb_refl, IH. }
  apply H.
Qed.

Lemma filter_all_kept :
  forall (A : Type) (f : A -> bool) (l : list A),
    (forall x, In x l -> f x = true) -> filter f l = l.
Proof.
  intros A f l. induction l as [|x l IH]; intros H; simpl.
  - reflexivity.
  - rewrite (H x (or_introl eq_refl)). f_equal.
    apply IH. intros y Hy. apply H. now right.
Qed.

Lemma overlaps_same_lower :
  forall a b, lower a = lower b -> overlaps a b = true.
Proof.
  intros a b H. unfold overlaps. rewrite H, contains_refl. reflexivity.
Qed.

End ProfileMore.

(** X1. Removing an allergy right after adding it restores the list: for
    a non-empty allergy that no entry equals up to case, [remove_allergy]
    after [add_allergy] gives back the allergies the profile had; and
    after [remove_allergy] no entry equals the removed one up to case,
    whatever the profile held. *)
Theorem remove_after_add_allergy :
  forall (p : UserProfile) (a : string),
    (a <> "" ->
     (forall b, In b (allergies p) -> PyStr.lower b <> PyStr.lower a) ->
     allergies (remove_allergy a (add_allergy a p)) = allergies p)
    /\ (forall b, In b (allergies (remove_allergy a p)) ->
                  In b (allergies p) /\ PyStr.lower b <> PyStr.lower a).
Proof.
  intros p a. split.
  - intros Ha Hnew.
    assert (Hadd : allergies (add_allergy a p) = (allergies p ++ [a])%list).
    { apply add_allergy_new; [assumption|].
      intros H. apply in_map_iff in H. destruct H as [b [He Hb]].
      now apply (Hnew b). }
    unfold remove_allergy. simpl. rewrite Hadd, filter_app. simpl.
    rewrite String.eqb_refl. simpl. rewrite app_nil_r.
    apply filter_all_kept. intros b Hb.
    apply negb_true_iff. apply String.eqb_neq. now apply Hnew.
  - intros b Hb. unfold remove_allergy in Hb. simpl in Hb.
    apply filter_In in Hb. destruct Hb as [Hin Hne]. split; [assumption|].
    apply negb_true_iff in Hne. now apply String.eqb_neq in Hne.
Qed.

Lemma remove_after_add_allergy_witness :
  allergies (remove_allergy "SOY"
               (add_allergy "SOY"
                  (mkUserProfile "ann" None ["Peanuts"; "milk"] [] [] "")))
  = ["Peanuts"; "milk"].
Proof.
  apply (proj1 (remove_after_add_allergy
                  (mkUserProfile "ann" None ["Peanuts"; "milk"] [] [] "")
                  "SOY")).
  - discriminate.
  - intros b [Hb | [Hb | []]]; subst; vm_compute; discriminate.
Defined.

(** X2. [add_medication] is idempotent up to case: a medication that an
    entry equals after lower-casing, or the empty string, leaves the
    profile unchanged; a new non-empty one is appended as it is; the
    allergies are never touched, and a list with no two entries equal up
    to case keeps that property under [add_medication] and
    [remove_medication]. *)
Theorem add_medication_case_insensitive :
  forall (p : UserProfile) (m : string),
    ((m = "" \/ In (PyStr.lower m) (map PyStr.lower (medications p))) ->
     add_medication m p = p)
    /\ (m <> "" ->
        ~ In (PyStr.lower m) (map PyStr.lower (medications p)) ->
        medications (add_medication m p) = (medications p ++ [m])%list)
    /\ allergies (add_medication m p) = allergies p
    /\ (NoDup (map PyStr.lower (medications p)) ->
        NoDup (map PyStr.lower (medications (add_medication m p)))
        /\ NoDup (map PyStr.lower (medications (remove_medication m p)))).
Proof.
  intros p m. split; [|split; [|split]].
  - intros [E | H]; unfold add_medication.
    + subst m. reflexivity.
    + apply mem_In in H. rewrite H. now rewrite andb_false_r.
  - intros Hm H. unfold add_medication.
    apply truthy_nonempty in Hm. apply mem_false_not_In in H.
    now rewrite Hm, H.
  - unfold add_medication. now destruct (_ && _).
  - intros Hnd. split.
    + unfold add_medication. destruct (PyStr.truthy m); simpl; [|assumption].
      destruct (PyStr.mem _ _) eqn:E; simpl; [assumption|].
      rewrite map_app. simpl. apply NoDup_app_single; [assumption|].
      now apply mem_false_not_In.
    + unfold remove_medication. simpl. revert Hnd.
      generalize (medications p). intros l.
      induction l as [|x l IH]; simpl; intros Hnd; [assumption|].
      inversion Hnd as [|? ? Hx Hl]; subst.
      destruct (negb _); simpl; [|now apply IH].
      constructor; [|now apply IH].
      intros H. apply Hx. apply in_map_iff in H. destruct H as [y [Ey Hy]].
      apply filter_In in Hy. destruct Hy as [Hy _].
      rewrite <- Ey. now apply in_map.
Qed.

Lemma add_medication_case_insensitive_witness :
  let p := mkUserProfile "ann" None [] ["Warfarin"] [] "" in
  add_medication "WARFARIN" p = p
  /\ medications (add_medication "Aspirin" p) = ["Warfarin"; "Aspirin"]
  /\ NoDup (map PyStr.lower (medications (add_medication "Aspirin" p))).
Proof.
  intros p.
  destruct (add_medication_case_insensitive p "WARFARIN") as [H1 _].
  destruct (add_medication_case_insensitive p "Aspirin") as [_ [H2 [_ H4]]].
  split; [|split].
  - apply H1. right. simpl. now left.
  - apply H2; [discriminate|]. simpl. intros [H | []]. discriminate.
  - apply H4. simpl. constructor; [intros [] | constructor].
Defined.

(** X3. An allergy that was added is found: after [add_allergy a] with a
    non-empty [a], [has_allergy] answers true for [a] in any letter case,
    also when [a] was not appended because an entry already equals it up
    to case; and on a profile without allergies [has_allergy] is false
    for every ingredient. *)
Theorem has_allergy_after_add :
  forall (p : UserProfile) (a a' : string),
    (a <> "" -> PyStr.lower a' = PyStr.lower a ->
     has_allergy (add_allergy a p) a' = true)
    /\ (allergies p = [] -> has_allergy p a = false).
Proof.
  intros p a a'. split.
  - intros Ha Hcase. unfold has_allergy. apply existsb_exists.
    destruct (PyStr.mem (PyStr.lower a) (map PyStr.lower (allergies p)))
      eqn:E.
    + apply mem_In in E. apply in_map_iff in E. destruct E as [b [Eb Hb]].
      exists b. split.
      * unfold add_allergy. rewrite (proj2 (mem_In _ _)).
        -- now rewrite andb_false_r.
        -- rewrite <- Eb. now apply in_map.
      * apply overlaps_same_lower. congruence.
    + exists a. split.
      * unfold add_allergy. apply truthy_nonempty in Ha. rewrite Ha, E.
        simpl. apply in_or_app. right. now left.
      * apply overlaps_same_lower. congruence.
  - intros E. unfold has_allergy. now rewrite E.
Qed.

Lemma has_allergy_after_add_witness :
  has_allergy (add_allergy "Tree Nuts"
                 (mkUserProfile "ann" None ["milk"] [] [] ""))
              "TREE NUTS" = true
  /\ has_allergy empty_profile "milk" = false.
Proof.
  split.
  - apply (proj1 (has_allergy_after_add
                    (mkUserProfile "ann" None ["milk"] [] [] "")
                    "Tree Nuts" "TREE NUTS")).
    + discriminate.
    + reflexivity.
  - apply (proj2 (has_allergy_after_add empty_profile "milk" "")).
    reflexivity.
Defined.

(** X4. The age groups: the group is "unknown" exactly for a missing age
    and for the age 0, and "infant" for every other age below 2, that is
    for the age 1 and for every negative age; from 2 on the groups follow
    the bounds 13, 18 and 65. *)
Theorem age_group_bounds :
  forall p : UserProfile,
    (_get_age_group p = "unknown" <-> age p = None \/ age p = Some 0%Z)
    /\ (_get_age_group p = "infant"
        <-> exists a, age p = Some a /\ (a < 2)%Z /\ a <> 0%Z)
    /\ (_get_age_group p = "child"
        <-> exists a, age p = Some a /\ (2 <= a < 13)%Z)
    /\ (_get_age_group p = "adolescent"
        <-> exists a, age p = Some a /\ (13 <= a < 18)%Z)
    /\ (_get_age_group p = "adult"
        <-> exists a, age p = Some a /\ (18 <= a < 65)%Z)
    /\ (_get_age_group p = "senior"
        <-> exists a, age p = Some a /\ (65 <= a)%Z).
Proof.
  intros p. unfold _get_age_group. destruct (age p) as [a|].
  - destruct (Z.eqb a 0) eqn:E0;
      [apply Z.eqb_eq in E0 | apply Z.eqb_neq in E0].
    { subst a. repeat split; intros H; try discriminate; auto;
        destruct H as [b [Hb Hr]]; injection Hb as <-; lia. }
    destruct (Z.ltb a 2) eqn:E2;
      [apply Z.ltb_lt in E2 | apply Z.ltb_ge in E2].
    { repeat split; intros H; try discriminate;
        try (destruct H as [H | H]; try discriminate;
             injection H as H; lia);
        try (exists a; repeat split; [lia | assumption]);
        try (destruct H as [b [Hb Hr]]; injection Hb as <-; lia). }
    destruct (Z.ltb a 13) eqn:E13;
      [apply Z.ltb_lt in E13 | apply Z.ltb_ge in E13].
    { repeat split; intros H; try discriminate;
        try (destruct H as [H | H]; try discriminate;
             injection H as H; lia);
        try (exists a; split; [reflexivity | lia]);
        try (destruct H as [b [Hb Hr]]; injection Hb as <-; lia). }
    destruct (Z.ltb a 18) eqn:E18;
      [apply Z.ltb_lt in E18 | apply Z.ltb_ge in E18].
    { repeat split; intros H; try discriminate;
        try (destruct H as [H | H]; try discriminate;
             injection H as H; lia);
        try (exists a; split; [reflexivity | lia]);
        try (destruct H as [b [Hb Hr]]; injection Hb as <-; lia). }
    destruct (Z.ltb a 65) eqn:E65;
      [apply Z.ltb_lt in E65 | apply Z.ltb_ge in E65].
    { repeat split; intros H; try discriminate;
        try (destruct H as [H | H]; try discriminate;
             injection H as H; lia);
        try (exists a; split; [reflexivity | lia]);
        try (destruct H as [b [Hb Hr]]; injection Hb as <-; lia). }
    repeat split; intros H; try discriminate;
      try (destruct H as [H | H]; try discriminate;
           injection H as H; lia);
      try (exists a; split; [reflexivity | lia]);
      try (destruct H as [b [Hb Hr]]; injection Hb as <-; lia).
  - repeat split; intros H; try discriminate; auto;
      destruct H as [b [Hb _]]; discriminate.
Qed.

Lemma age_group_bounds_witness :
  _get_age_group (mkUserProfile "tom" (Some (-3)%Z) [] [] [] "") = "infant"
  /\ _get_age_group (mkUserProfile "zoe" (Some 0%Z) [] [] [] "") = "unknown".
Proof.
  split.
  - apply (proj1 (proj2 (age_group_bounds
                           (mkUserProfile "tom" (Some (-3)%Z) [] [] [] "")))).
    exists (-3)%Z. split; [reflexivity | split; [lia | discriminate]].
  - apply (proj1 (age_group_bounds
                    (mkUserProfile "zoe" (Some 0%Z) [] [] [] ""))).
    right. reflexivity.
Defined.

(** ** The allergy checker: matches, monotonicity, normalization *)

Section MatchFacts.
Import PyStr AllergyChecker AllergySpec.

Lemma append_new_In :
  forall m ing x, In x (append_new m ing) <-> In x m \/ x = ing.
Proof.
  intros m ing x. unfold append_new.
  destruct (mem ing m) eqn:E.
  - apply mem_In in E. split; [tauto|].
    intros [H | H]; [assumption | now subst].
  - rewrite in_app_iff. simpl. intuition (subst; auto).
Qed.

Lemma inner_loop_In :
  forall (rel : string -> bool) ing allergens m x,
    In x (fold_left
            (fun matches allergen =>
               if rel allergen then append_new matches ing else matches)
            allergens m)
    <-> In x m \/ (x = ing /\ existsb rel allergens = true).
Proof.
  intros rel ing. induction allergens as [|al als IH]; intros m x; simpl.
  - split; [tauto|]. intros [H | [_ H]]; [assumption | discriminate].
  - rewrite IH. destruct (rel al); simpl.
    + rewrite append_new_In. tauto.
    + tauto.
Qed.

Lemma outer_loop_In :
  forall (rel : string -> string -> bool) allergens ings m x,
    In x (fold_left
            (fun matches ingredient =>
               fold_left
                 (fun matches allergen =>
                    if rel allergen ingredient
                    then append_new matches ingredient else matches)
                 allergens matches)
            ings m)
    <-> In x m
        \/ (In x ings /\ existsb (fun al => rel al x) allergens = true).
Proof.
  intros rel allergens. induction ings as [|ing ings IH]; intros m x; simpl.
  - tauto.
  - rewrite IH.
    rewrite (inner_loop_In (fun al => rel al ing) ing allergens m x).
    split.
    + intros [[H | [E H]] | [H1 H2]]; auto.
      subst. right. split; [now left | assumption].
    + intros [H | [[E | H1] H2]]; auto.
      subst. left. right. now split.
Qed.

Lemma find_allergen_matches_In :
  forall a ings x,
    In x (_find_allergen_matches a ings)
    <-> In x ings /\ (direct_match a x = true \/ category_match a x = true).
Proof.
  intros a ings x. unfold _find_allergen_matches, direct_match, category_match.
  destruct (find_category allergen_database (strip (lower a))) as [c|].
  - destruct (truthy c); simpl.
    + rewrite (outer_loop_In
                 (fun al ing => contains al ing || contains ing al)).
      rewrite filter_In. tauto.
    + rewrite filter_In. split; [tauto|].
      intros [H [H' | H']]; [tauto | discriminate].
  - rewrite filter_In. split; [tauto|].
    intros [H [H' | H']]; [tauto | discriminate].
Qed.

Lemma has_match_exists :
  forall norm a,
    has_match norm a = true
    <-> exists x, In x norm
                  /\ (direct_match a x = true \/ category_match a x = true).
Proof.
  intros norm a. unfold has_match.
  destruct (_find_allergen_matches a norm) as [|y ys] eqn:E.
  - split; [discriminate|]. intros [x Hx].
    apply find_allergen_matches_In in Hx. rewrite E in Hx. destruct Hx.
  - split; [|reflexivity]. intros _. exists y.
    apply find_allergen_matches_In. rewrite E. now left.
Qed.

Lemma has_match_more :
  forall norm extra a,
    has_match norm a = true -> has_match (norm ++ extra) a = true.
Proof.
  intros norm extra a H. apply has_match_exists in H.
  destruct H as [x [Hx H]]. apply has_match_exists. exists x.
  split; [|assumption]. apply in_or_app. now left.
Qed.

Lemma rank_level_max :
  forall a b, rank (level_max a b) = Nat.max (rank a) (rank b).
Proof.
  intros a b. unfold level_max.
  destruct (Nat.ltb (rank a) (rank b)) eqn:E;
    [apply Nat.ltb_lt in E | apply Nat.ltb_ge in E]; lia.
Qed.

Lemma max_level_more :
  forall (f g : string -> bool) l,
    (forall x, f x = true -> g x = true) ->
    rank (max_level_of (map _get_allergen_severity (filter f l)))
    <= rank (max_level_of (map _get_allergen_severity (filter g l))).
Proof.
  intros f g l H. induction l as [|x l IH]; simpl; [lia|].
  destruct (f x) eqn:Ef.
  - rewrite (H x Ef). simpl. rewrite !rank_level_max. lia.
  - destruct (g x); simpl; [rewrite rank_level_max|]; lia.
Qed.

Lemma is_space_lower_char :
  forall c, is_space (lower_char c) = is_space c.
Proof.
  intros c. destruct c as [[] [] [] [] [] [] [] []]; reflexivity.
Qed.

Lemma lower_lstrip :
  forall s, lower (lstrip_by is_space s) = lstrip_by is_space (lower s).
Proof.
  induction s as [|c s IH]; simpl; [reflexivity|].
  rewrite is_space_lower_char. destruct (is_space c); [assumption|].
  reflexivity.
Qed.

Lemma lower_is_empty : forall s, is_empty (lower s) = is_empty s.
Proof. intros [|c s]; reflexivity. Qed.

Lemma lower_rstrip :
  forall s, lower (rstrip_by is_space s) = rstrip_by is_space (lower s).
Proof.
  induction s as [|c s IH]; simpl; [reflexivity|].
  rewrite <- IH, lower_is_empty, is_space_lower_char.
  now destruct (is_empty (rstrip_by is_space s) && is_space c).
Qed.

Lemma lower_strip : forall s, lower (strip s) = strip (lower s).
Proof.
  intros s. unfold strip. now rewrite lower_rstrip, lower_lstrip.
Qed.

Lemma lower_idempotent : forall s, lower (lower s) = lower s.
Proof.
  intros s. apply every_lower_fixed. apply every_lower.
Qed.

Lemma strip_idempotent : forall s, strip (strip s) = strip s.
Proof.
  intros s. unfold strip.
  rewrite (lstrip_rstrip_fixed is_space is_space (lstrip_by is_space s)).
  - apply rstrip_by_idempotent.
  - apply lstrip_by_head.
Qed.

Lemma normalized_idempotent :
  forall ings, normalized (normalized ings) = normalized ings.
Proof.
  intros ings. unfold normalized. rewrite map_map. apply map_ext.
  intros x. now rewrite lower_strip, lower_idempotent, strip_idempotent.
Qed.

End MatchFacts.

(** X5. The matches of a user allergy are exactly the ingredients of the
    list that the allergy matches directly (one occurs in the other) or
    through the category it resolves to; so every match is an ingredient
    of the list and an empty list gives no match. *)
Theorem allergen_matches_characterised :
  forall (a : string) (ings : list string) (x : string),
    (In x (AllergyChecker._find_allergen_matches a ings)
     <-> In x ings
         /\ (AllergySpec.direct_match a x = true
             \/ AllergySpec.category_match a x = true))
    /\ AllergyChecker._find_allergen_matches a [] = [].
Proof.
  intros a ings x. split.
  - apply find_allergen_matches_In.
  - destruct (AllergyChecker._find_allergen_matches a []) as [|y ys] eqn:E;
      [reflexivity|].
    assert (H : In y (AllergyChecker._find_allergen_matches a []))
      by (rewrite E; now left).
    apply find_allergen_matches_In in H. destruct H as [[] _].
Qed.

Lemma allergen_matches_characterised_witness :
  In "cashew butter"
     (AllergyChecker._find_allergen_matches
        "Almonds" ["sugar"; "cashew butter"]).
Proof.
  apply (proj1 (allergen_matches_characterised
                  "Almonds" ["sugar"; "cashew butter"] "cashew butter")).
  split.
  - simpl. tauto.
  - right. vm_compute. reflexivity.
Defined.

(** X6. Adding ingredients never lowers the verdict: for every profile,
    every allergen detected on a list is detected on the list extended by
    further ingredients, and the risk level of the extended list is at
    least the one of the list. *)
Theorem more_ingredients_never_safer :
  forall (ings extra : list string) (up : option UserProfile),
    incl (AllergyChecker.detected_allergens
            (AllergyChecker.check_allergens ings up))
         (AllergyChecker.detected_allergens
            (AllergyChecker.check_allergens (ings ++ extra) up))
    /\ rank (AllergyChecker.risk_level
               (AllergyChecker.check_allergens ings up))
       <= rank (AllergyChecker.risk_level
                  (AllergyChecker.check_allergens (ings ++ extra) up)).
Proof.
  intros ings extra up.
  destruct up as [p|]; [|split; [intros x [] | simpl; lia]].
  destruct (allergies p) as [|a l] eqn:E.
  - unfold AllergyChecker.check_allergens. rewrite E.
    split; [intros x [] | simpl; lia].
  - assert (Ha : allergies p <> []) by (rewrite E; discriminate).
    destruct (check_allergens_shape ings p Ha) as [Hd [Hr _]].
    destruct (check_allergens_shape (ings ++ extra) p Ha) as [Hd' [Hr' _]].
    rewrite Hd, Hd', Hr, Hr'.
    assert (Hmore : forall x,
               AllergySpec.has_match (AllergySpec.normalized ings) x = true ->
               AllergySpec.has_match
                 (AllergySpec.normalized (ings ++ extra)) x = true).
    { intros x Hx. unfold AllergySpec.normalized. rewrite map_app.
      now apply has_match_more. }
    split.
    + intros x Hx. apply filter_In in Hx. apply filter_In.
      destruct Hx as [Hin Hx]. split; [assumption | now apply Hmore].
    + now apply max_level_more.
Qed.

(** X7. The check does not depend on the letter case or the surrounding
    whitespace of the ingredients: checking the lower-cased, stripped
    ingredients gives the same analysis as checking the ingredients. *)
Theorem check_allergens_normalization :
  forall (ings : list string) (up : option UserProfile),
    AllergyChecker.check_allergens (AllergySpec.normalized ings) up
    = AllergyChecker.check_allergens ings up
    /\ AllergyChecker.check_allergens (map PyStr.lower ings) up
       = AllergyChecker.check_allergens ings up.
Proof.
  intros ings up.
  assert (H1 : AllergySpec.normalized (AllergySpec.normalized ings)
               = AllergySpec.normalized ings)
    by apply normalized_idempotent.
  assert (H2 : AllergySpec.normalized (map PyStr.lower ings)
               = AllergySpec.normalized ings).
  { unfold AllergySpec.normalized. rewrite map_map. apply map_ext.
    intros x. now rewrite lower_idempotent. }
  unfold AllergySpec.normalized in H1, H2.
  unfold AllergyChecker.check_allergens.
  destruct up as [p|]; [|now split].
  destruct (allergies p); [now split|].
  unfold AllergySpec.normalized. rewrite H1, H2. now split.
Qed.

(** ** The allergy checker: the lists of the analysis *)

Section AnalysisLists.
Import PyStr AllergyChecker AllergySpec.

Lemma filter_partition_length :
  forall l,
    List.length l
    = List.length (filter (severity_is High) l)
      + List.length (filter (severity_is Moderate) l)
      + List.length (filter (severity_is Low) l).
Proof.
  induction l as [|a l IH]; simpl; [reflexivity|].
  unfold severity_is in *.
  destruct (_get_allergen_severity a); simpl; lia.
Qed.

Lemma check_allergens_lists :
  forall ingredients p,
    allergies p <> [] ->
    let r := check_allergens ingredients (Some p) in
    high_risk_allergens r
    = filter (severity_is High) (detected_allergens r)
    /\ moderate_risk_allergens r
       = filter (severity_is Moderate) (detected_allergens r)
    /\ low_risk_allergens r
       = filter (severity_is Low) (detected_allergens r).
Proof.
  intros ingredients p Ha r.
  destruct (check_loop (normalized ingredients) (allergies p)
              (mkLocals [] [] [] [] [] []))
    as [Hd [Hh [Hm [Hl _]]]].
  simpl in Hd, Hh, Hm, Hl.
  subst r. unfold check_allergens.
  fold (normalized ingredients).
  destruct (allergies p) as [|a l] eqn:E; [contradiction|].
  cbn [high_risk_allergens moderate_risk_allergens low_risk_allergens
       detected_allergens].
  rewrite Hh, Hm, Hl, Hd. repeat split.
Qed.

Lemma last_matches :
  forall norm l a st,
    l_matches (fold_left (check_one norm) (l ++ [a]) st)
    = _find_allergen_matches a norm.
Proof.
  intros norm l a st. rewrite fold_left_app. simpl.
  unfold check_one.
  now destruct (_find_allergen_matches a norm).
Qed.

Lemma find_category_key :
  forall db x c, find_category db x = Some c -> In c (map fst db).
Proof.
  induction db as [|[k v] db IH]; intros x c H; simpl in *.
  - discriminate.
  - destruct (existsb _ v).
    + injection H as H. now left.
    + right. now apply (IH x).
Qed.

Lemma cross_contamination_In :
  forall a ings w,
    In w (_check_cross_contamination a ings) ->
    exists c rc,
      find_category allergen_database (strip (lower a)) = Some c
      /\ In rc (get_list cross_contamination_table c)
      /\ get_list allergen_database rc <> []
      /\ w = "Cross-contamination risk with " ++ rc.
Proof.
  intros a ings w H. unfold _check_cross_contamination in H.
  destruct (find_category allergen_database (strip (lower a))) as [c|];
    [|destruct H].
  destruct (negb (category_truthy (Some c))); [destruct H|].
  apply in_flat_map in H. destruct H as [rc [Hrc H]].
  exists c, rc. split; [reflexivity|]. split; [assumption|].
  destruct (get_list allergen_database rc) as [|al als] eqn:E.
  - exfalso. clear - H.
    assert (Hf : existsb (fun _ : string => false) ings = false)
      by (induction ings; auto).
    simpl in H. rewrite Hf in H. destruct H.
  - split; [discriminate|].
    destruct (existsb _ ings); [|destruct H].
    destruct H as [H | []]. now symmetry.
Qed.

End AnalysisLists.

(** X8. The three risk lists partition the detected allergens by
    severity: each is the detected allergens of that severity in their
    order, so every detected allergen is in exactly one of them, their
    lengths add up to the number of detected allergens, and every detected
    allergen is an allergy of the profile. *)
Theorem risk_lists_partition_detected :
  forall (ingredients : list string) (up : option UserProfile),
    let r := AllergyChecker.check_allergens ingredients up in
    AllergyChecker.high_risk_allergens r
    = filter (AllergySpec.severity_is High)
             (AllergyChecker.detected_allergens r)
    /\ AllergyChecker.moderate_risk_allergens r
       = filter (AllergySpec.severity_is Moderate)
                (AllergyChecker.detected_allergens r)
    /\ AllergyChecker.low_risk_allergens r
       = filter (AllergySpec.severity_is Low)
                (AllergyChecker.detected_allergens r)
    /\ List.length (AllergyChecker.detected_allergens r)
       = List.length (AllergyChecker.high_risk_allergens r)
         + List.length (AllergyChecker.moderate_risk_allergens r)
         + List.length (AllergyChecker.low_risk_allergens r)
    /\ (forall a, In a (AllergyChecker.detected_allergens r) ->
                  exists p, up = Some p /\ In a (allergies p)).
Proof.
  intros ingredients up r.
  assert (Hlists :
            AllergyChecker.high_risk_allergens r
            = filter (AllergySpec.severity_is High)
                     (AllergyChecker.detected_allergens r)
            /\ AllergyChecker.moderate_risk_allergens r
               = filter (AllergySpec.severity_is Moderate)
                        (AllergyChecker.detected_allergens r)
            /\ AllergyChecker.low_risk_allergens r
               = filter (AllergySpec.severity_is Low)
                        (AllergyChecker.detected_allergens r)).
  { destruct up as [p|]; [|now repeat split].
    destruct (allergies p) as [|a l] eqn:E.
    - subst r. unfold AllergyChecker.check_allergens. rewrite E.
      now repeat split.
    - apply check_allergens_lists. rewrite E. discriminate. }
  destruct Hlists as [Hh [Hm Hl]].
  split; [assumption|]. split; [assumption|]. split; [assumption|]. split.
  - rewrite Hh, Hm, Hl. apply filter_partition_length.
  - intros a Ha. destruct up as [p|]; [|destruct Ha].
    exists p. split; [reflexivity|].
    destruct (allergies p) as [|b l] eqn:E.
    + subst r. unfold AllergyChecker.check_allergens in Ha.
      rewrite E in Ha. destruct Ha.
    + assert (Hne : allergies p <> []) by (rewrite E; discriminate).
      destruct (check_allergens_shape ingredients p Hne) as [Hd _].
      subst r. rewrite Hd in Ha. apply filter_In in Ha.
      rewrite <- E. tauto.
Qed.

Lemma risk_lists_partition_detected_witness :
  exists p,
    Some (AllergySpec.profile_with ["soy"; "peanuts"; "milk"] []) = Some p
    /\ In "peanuts" (allergies p).
Proof.
  apply (proj2 (proj2 (proj2 (proj2
          (risk_lists_partition_detected
             ["peanut oil"; "soy sauce"]
             (Some (AllergySpec.profile_with
                      ["soy"; "peanuts"; "milk"] []))))))).
  vm_compute. tauto.
Defined.

(** X9. The ['ingredient_matches'] entry holds the matches of the last
    declared allergy only: for a profile whose allergies end with [a], it
    is the list of ingredients matching [a], whatever the earlier
    allergies matched; the early return has no such entry. *)
Theorem ingredient_matches_of_last_allergy :
  forall (ingredients : list string) (p : UserProfile)
         (earlier : list string) (a : string),
    allergies p = (earlier ++ [a])%list ->
    AllergyChecker.ingredient_matches
      (AllergyChecker.check_allergens ingredients (Some p))
    = Some (AllergyChecker._find_allergen_matches
              a (AllergySpec.normalized ingredients)).
Proof.
  intros ingredients p earlier a E.
  unfold AllergyChecker.check_allergens.
  destruct (allergies p) as [|b l] eqn:Ep.
  - destruct earlier; discriminate.
  - cbn [AllergyChecker.ingredient_matches]. rewrite E.
    fold (AllergySpec.normalized ingredients).
    now rewrite last_matches.
Qed.

Lemma ingredient_matches_of_last_allergy_witness :
  AllergyChecker.ingredient_matches
    (AllergyChecker.check_allergens
       ["peanut oil"; "sugar"]
       (Some (AllergySpec.profile_with ["peanuts"; "sesame"] [])))
  = Some [].
Proof.
  apply (ingredient_matches_of_last_allergy
           ["peanut oil"; "sugar"]
           (AllergySpec.profile_with ["peanuts"; "sesame"] [])
           ["peanuts"] "sesame").
  reflexivity.
Defined.

(** X10. Cross-contamination warnings name tree_nuts, soy, peanuts or eggs
    only: no user allergy and no ingredient list yields another warning
    (the categories oats, barley and rye related to wheat have no
    allergen list), and the analysis returns each warning at most
    once. *)
Theorem cross_contamination_warnings_bounded :
  forall (a : string) (ings : list string) (up : option UserProfile),
    incl (AllergyChecker._check_cross_contamination a ings)
         AllergySpec.possible_warnings
    /\ incl (AllergyChecker.cross_contamination_risks
               (AllergyChecker.check_allergens ings up))
            AllergySpec.possible_warnings
    /\ NoDup (AllergyChecker.cross_contamination_risks
                (AllergyChecker.check_allergens ings up)).
Proof.
  assert (Hone : forall a ings,
             incl (AllergyChecker._check_cross_contamination a ings)
                  AllergySpec.possible_warnings).
  { intros a ings w H. apply cross_contamination_In in H.
    destruct H as [c [rc [Hc [Hrc [Hne Hw]]]]]. subst w.
    apply find_category_key in Hc. simpl in Hc.
    repeat (destruct Hc as [Hc | Hc]; [subst c|]); try destruct Hc;
      simpl in Hrc;
      repeat (destruct Hrc as [Hrc | Hrc]; [subst rc|]); try destruct Hrc;
      try (exfalso; apply Hne; reflexivity);
      unfold AllergySpec.possible_warnings; simpl; tauto. }
  intros a ings up. split; [apply Hone|].
  destruct up as [p|]; [|split; [intros x [] | constructor]].
  destruct (allergies p) as [|b l] eqn:E.
  - unfold AllergyChecker.check_allergens. rewrite E.
    split; [intros x [] | constructor].
  - assert (Hne : allergies p <> []) by (rewrite E; discriminate).
    destruct (check_allergens_shape ings p Hne) as [_ [_ Hc]].
    rewrite Hc. unfold PyStr.list_set. split.
    + intros w Hw. apply nodup_In in Hw. apply in_flat_map in Hw.
      destruct Hw as [x [_ Hw]]. exact (Hone x _ w Hw).
    + apply NoDup_nodup.
Qed.

(** X11. The suggested alternatives are exactly the entries of the
    alternatives table for the categories related to some detected
    allergen (the category name occurs in the lower-cased allergen or the
    allergen in it), each listed once; no detected allergen gives no
    suggestion. *)
Theorem safe_alternatives_characterised :
  forall (detected : list string) (x : string),
    (In x (AllergyChecker.get_safe_alternatives detected)
     <-> exists a category alts,
           In a detected
           /\ In (category, alts) AllergyChecker.alternatives
           /\ (PyStr.contains category (PyStr.lower a)
               || PyStr.contains (PyStr.lower a) category) = true
           /\ In x alts)
    /\ NoDup (AllergyChecker.get_safe_alternatives detected)
    /\ AllergyChecker.get_safe_alternatives [] = [].
Proof.
  intros detected x. split; [|split].
  - unfold AllergyChecker.get_safe_alternatives, PyStr.list_set.
    rewrite nodup_In, in_flat_map. split.
    + intros [a [Ha H]]. unfold AllergyChecker.alternatives_for in H.
      apply in_flat_map in H. destruct H as [[category alts] [He H]].
      simpl in H.
      destruct (_ || _) eqn:E; [|destruct H].
      exists a, category, alts. auto.
    + intros [a [category [alts [Ha [He [E H]]]]]].
      exists a. split; [assumption|].
      unfold AllergyChecker.alternatives_for. apply in_flat_map.
      exists (category, alts). split; [assumption|].
      cbn [fst snd]. now rewrite E.
  - apply NoDup_nodup.
  - reflexivity.
Qed.

Lemma safe_alternatives_characterised_witness :
  In "Tahini" (AllergyChecker.get_safe_alternatives ["Peanuts"; "soy"]).
Proof.
  apply (proj1 (safe_alternatives_characterised
                  ["Peanuts"; "soy"] "Tahini")).
  exists "Peanuts", "nuts",
    ["Sunflower seed butter"; "Pumpkin seed butter"; "Tahini"].
  repeat split; simpl; tauto.
Defined.

(** ** The ingredient parser and analyzer *)

(** X12. Every token the parser returns is non-empty, in lower case, holds
    none of the separators, begins with no digit, dot, dash or whitespace
    and ends with none of the punctuation characters [.,;:]. *)
Theorem parsed_tokens_are_clean :
  forall (text t : string),
    In t (IngredientParser._parse_ingredients text) ->
    t <> ""
    /\ PyStr.lower t = t
    /\ PyStr.lstrip_by IngredientParser.is_leading t = t
    /\ PyStr.rstrip_by IngredientParser.is_trailing t = t
    /\ (forall sep, In sep IngredientParser.separators ->
                    PyStr.contains sep t = false).
Proof.
  exact parse_token_facts.
Qed.

Lemma parsed_tokens_are_clean_witness :
  PyStr.lower "peanut oil" = "peanut oil"
  /\ PyStr.contains ";" "peanut oil" = false.
Proof.
  assert (Hin : In "peanut oil"
                   (IngredientParser._parse_ingredients
                      "1. Wheat FLOUR; 2. Peanut Oil (5%)")).
  { vm_compute. tauto. }
  destruct (parsed_tokens_are_clean
              "1. Wheat FLOUR; 2. Peanut Oil (5%)" "peanut oil" Hin)
    as [_ [Hl [_ [_ Hs]]]].
  split; [exact Hl|]. apply Hs. simpl. tauto.
Defined.

Section BlankText.
Import PyStr IngredientParser ParserSpec.

Lemma blank_lower_char : forall c, blank c -> blank (lower_char c).
Proof.
  intros c [H | [H | [H | H]]].
  - left. now rewrite is_space_lower_char.
  - subst. right. now left.
  - subst. right. right. now left.
  - subst. right. right. now right.
Qed.

Lemma every_blank_lower : forall s, every blank s -> every blank (lower s).
Proof.
  induction s as [|c s IH]; simpl; [tauto|].
  intros [Hc Hs]. split; [now apply blank_lower_char | now apply IH].
Qed.

Lemma no_char_every :
  forall ch s,
    contains (String ch "") s = false -> every (fun c => c <> ch) s.
Proof.
  intros ch. induction s as [|c s IH]; intros H; simpl; [exact I|].
  cbn [contains] in H. apply orb_false_iff in H. destruct H as [H1 H2].
  rewrite starts_with_single in H1. apply Ascii.eqb_neq in H1.
  split; [congruence | now apply IH].
Qed.

Lemma every_conj :
  forall (P Q : ascii -> Prop) s,
    every P s -> every Q s -> every (fun c => P c /\ Q c) s.
Proof.
  intros P Q. induction s as [|c s IH]; simpl; [tauto|].
  intros [Hp Hs] [Hq Hs']. auto.
Qed.

Lemma every_impl :
  forall (P Q : ascii -> Prop) s,
    (forall c, P c -> Q c) -> every P s -> every Q s.
Proof.
  intros P Q s H. induction s as [|c s IH]; simpl; [tauto|].
  intros [Hp Hs]. auto.
Qed.

Lemma lstrip_all_space :
  forall s, every (fun c => is_space c = true) s -> lstrip_by is_space s = "".
Proof.
  induction s as [|c s IH]; simpl; [reflexivity|].
  intros [Hc Hs]. rewrite Hc. now apply IH.
Qed.

Lemma clean_all_space :
  forall f, every (fun c => is_space c = true) f -> clean f = [].
Proof.
  intros f H. unfold clean, strip. now rewrite (lstrip_all_space f H).
Qed.

Lemma flat_map_all_nil :
  forall (A B : Type) (f : A -> list B) (l : list A),
    (forall x, In x l -> f x = []) -> flat_map f l = [].
Proof.
  intros A B f l. induction l as [|x l IH]; intros H; simpl; [reflexivity|].
  rewrite (H x (or_introl eq_refl)). apply IH.
  intros y Hy. apply H. now right.
Qed.

Lemma blank_text_no_tokens :
  forall text, every blank text -> _parse_ingredients text = [].
Proof.
  intros text H. unfold _parse_ingredients.
  destruct (_ || _); [reflexivity|].
  apply flat_map_all_nil. intros f Hf.
  unfold split_all in Hf. apply rounds_facts in Hf.
  destruct Hf as [[y [[Ey | []] Hfy]] Hno]. subst y.
  apply clean_all_space.
  assert (Hb : every blank f).
  { apply (every_infix _ f _ Hfy). apply remove_patterns_every.
    apply (every_infix _ _ _ (strip_infix _)).
    now apply every_blank_lower. }
  assert (Hsep : forall ch,
             In (String ch "") separators -> every (fun c => c <> ch) f).
  { intros ch Hin. apply no_char_every. apply Hno; [assumption|].
    discriminate. }
  pose proof (Hsep ","%char (or_introl eq_refl)) as H1.
  pose proof (Hsep ";"%char (or_intror (or_introl eq_refl))) as H2.
  assert (H3 : every (fun c => c <> "|"%char) f).
  { apply Hsep. unfold separators. simpl. tauto. }
  pose proof (every_conj _ _ f Hb
                (every_conj _ _ f H1 (every_conj _ _ f H2 H3))) as Hall.
  apply (every_impl _ _ f) with (2 := Hall).
  intros c [[Hc | [Hc | [Hc | Hc]]] [N1 [N2 N3]]];
    [assumption | contradiction | contradiction | contradiction].
Qed.

End BlankText.

(** X13. A text made of whitespace and the separators [,], [;] and [|]
    only holds no ingredient: the parser returns the empty list, and
    [analyze_ingredients] returns its error variant, whose risk level is
    [unknown], for every profile. *)
Theorem blank_text_has_no_ingredients :
  forall (text : string) (up : option UserProfile),
    ParserSpec.every ParserSpec.blank text ->
    IngredientParser._parse_ingredients text = []
    /\ IngredientAnalyzer.analyze_ingredients text up
       = IngredientAnalyzer.NoIngredients
    /\ IngredientAnalyzer.result_risk_level
         (IngredientAnalyzer.analyze_ingredients text up) = Unknown.
Proof.
  intros text up H.
  pose proof (blank_text_no_tokens text H) as Hp.
  assert (Ha : IngredientAnalyzer.analyze_ingredients text up
               = IngredientAnalyzer.NoIngredients).
  { unfold IngredientAnalyzer.analyze_ingredients. now rewrite Hp. }
  split; [assumption|]. split; [assumption|]. now rewrite Ha.
Qed.

Lemma blank_text_has_no_ingredients_witness :
  IngredientAnalyzer.analyze_ingredients
    " , ;; |  ," (Some (AllergySpec.profile_with ["peanuts"] []))
  = IngredientAnalyzer.NoIngredients.
Proof.
  apply (blank_text_has_no_ingredients
           " , ;; |  ," (Some (AllergySpec.profile_with ["peanuts"] []))).
  unfold ParserSpec.blank. simpl.
  repeat split; auto; left; reflexivity.
Defined.

(** X14. The hidden allergens returned are exactly the labels
    "<ingredient> (hidden <category>)" for an ingredient of the list, a
    category of the hidden-source table related to some allergy of the
    profile (the category name occurs in the lower-cased allergy or the
    allergy in it) and a hidden name of that category occurring in the
    lower-cased ingredient; each label is returned once, and there is none
    without a profile or without ingredients. *)
Theorem hidden_allergens_characterised :
  forall (ingredients : list string) (p : UserProfile) (label : string),
    (In label (IngredientAnalyzer._detect_hidden_allergens
                 ingredients (Some p))
     <-> exists a category names ingredient,
           In a (allergies p)
           /\ In (category, names) IngredientAnalyzer.hidden_sources
           /\ (PyStr.contains category (PyStr.lower a)
               || PyStr.contains (PyStr.lower a) category) = true
           /\ In ingredient ingredients
           /\ existsb (fun hidden_name =>
                         PyStr.contains hidden_name (PyStr.lower ingredient))
                      names = true
           /\ label = IngredientAnalyzer.hidden_label ingredient category)
    /\ NoDup (IngredientAnalyzer._detect_hidden_allergens
                ingredients (Some p))
    /\ IngredientAnalyzer._detect_hidden_allergens ingredients None = []
    /\ IngredientAnalyzer._detect_hidden_allergens [] (Some p) = [].
Proof.
  intros ingredients p label.
  assert (Hset : forall ings,
             IngredientAnalyzer._detect_hidden_allergens ings (Some p)
             = PyStr.list_set
                 (flat_map (IngredientAnalyzer.hidden_for ings)
                           (allergies p))).
  { intros ings. unfold IngredientAnalyzer._detect_hidden_allergens,
      has_entries.
    destruct (allergies p); reflexivity. }
  split; [|split; [|split]].
  - rewrite Hset. unfold PyStr.list_set. rewrite nodup_In, in_flat_map.
    split.
    + intros [a [Ha H]]. unfold IngredientAnalyzer.hidden_for in H.
      apply in_flat_map in H. destruct H as [[category names] [He H]].
      destruct (_ || _) eqn:E; [|destruct H].
      apply in_flat_map in H. destruct H as [ingredient [Hi H]].
      destruct (existsb _ names) eqn:En; [|destruct H].
      destruct H as [H | []].
      exists a, category, names, ingredient. auto 10.
    + intros [a [category [names [ingredient
                                    [Ha [He [E [Hi [En Hl]]]]]]]]].
      exists a. split; [assumption|].
      unfold IngredientAnalyzer.hidden_for. apply in_flat_map.
      exists (category, names). split; [assumption|]. rewrite E.
      apply in_flat_map. exists ingredient. split; [assumption|].
      rewrite En. left. now symmetry.
  - rewrite Hset. apply NoDup_nodup.
  - reflexivity.
  - rewrite Hset. unfold PyStr.list_set.
    assert (Hnil : flat_map (IngredientAnalyzer.hidden_for [])
                            (allergies p) = []).
    { apply flat_map_all_nil. intros a _.
      unfold IngredientAnalyzer.hidden_for.
      apply flat_map_all_nil. intros [category names] _.
      now destruct (_ || _). }
    now rewrite Hnil.
Qed.

Lemma hidden_allergens_characterised_witness :
  In "Soy Lecithin (hidden egg)"
     (IngredientAnalyzer._detect_hidden_allergens
        ["Soy Lecithin"; "sugar"]
        (Some (AllergySpec.profile_with ["Eggs"] []))).
Proof.
  apply (proj1 (hidden_allergens_characterised
                  ["Soy Lecithin"; "sugar"]
                  (AllergySpec.profile_with ["Eggs"] [])
                  "Soy Lecithin (hidden egg)")).
  exists "Eggs", "egg",
    ["albumin"; "globulin"; "lecithin"; "lysozyme"; "ovalbumin";
     "egg whites"; "egg substitute"],
    "Soy Lecithin".
  repeat split; simpl; tauto.
Defined.

Section QualityFacts.
Import PyStr IngredientAnalyzer QualitySpec.

Lemma quality_step_invariant :
  forall n st ingredient,
    quality_invariant n st ->
    quality_invariant (S n) (quality_step st ingredient).
Proof.
  intros n st ingredient [Hs [Han [Hp [Had [Hw Hpr]]]]].
  unfold quality_step, quality_invariant, score_of_factors in *.
  destruct (any_in artificial_indicators (lower ingredient));
    [|destruct (any_in natural_indicators (lower ingredient))];
    destruct (any_in preservative_indicators (lower ingredient));
    destruct (any_in additive_indicators (lower ingredient));
    destruct (any_in whole_food_names (lower ingredient));
    cbn [q_score q_factors artificial_ingredients natural_ingredients
         preservatives_found additives_found whole_foods processed_foods];
    rewrite ?length_app; cbn [List.length];
    repeat split; try assumption; lia.
Qed.

Lemma quality_loop_invariant :
  forall ingredients n st,
    quality_invariant n st ->
    quality_invariant (n + List.length ingredients)
                      (fold_left quality_step ingredients st).
Proof.
  induction ingredients as [|i l IH]; intros n st H; simpl.
  - now rewrite Nat.add_0_r.
  - replace (n + S (List.length l)) with (S n + List.length l) by lia.
    apply IH. now apply quality_step_invariant.
Qed.

End QualityFacts.

(** X15. The quality score is determined by the factor lists: it is three
    times the natural ingredients minus five times the artificial ones,
    minus twice the preservatives, minus the additives, plus the whole
    foods.  No ingredient is counted both artificial and natural, so with
    [n] ingredients the score lies between [-8 n] and [4 n], and the
    category "excellent" needs at least three ingredients; the factor list
    ['processed_foods'] is always empty. *)
Theorem quality_score_from_factors :
  forall ingredients : list string,
    let q := IngredientAnalyzer._analyze_ingredient_quality ingredients in
    let n := Z.of_nat (List.length ingredients) in
    IngredientAnalyzer.quality_score q
    = QualitySpec.score_of_factors (IngredientAnalyzer.quality_factors q)
    /\ IngredientAnalyzer.total_artificial q
       + IngredientAnalyzer.total_natural q <= List.length ingredients
    /\ (-8 * n <= IngredientAnalyzer.quality_score q <= 4 * n)%Z
    /\ IngredientAnalyzer.processed_foods
         (IngredientAnalyzer.quality_factors q) = []
    /\ (IngredientAnalyzer.quality_category q = "excellent" ->
        3 <= List.length ingredients).
Proof.
  intros ingredients q n.
  assert (H0 : QualitySpec.quality_invariant
                 0 (IngredientAnalyzer.mkQualityState
                      0 (IngredientAnalyzer.mkQualityFactors
                           [] [] [] [] [] []))).
  { unfold QualitySpec.quality_invariant. simpl. repeat split; lia. }
  pose proof (quality_loop_invariant ingredients 0 _ H0) as H.
  simpl in H. destruct H as [Hs [Han [Hp [Had [Hw Hpr]]]]].
  subst q n. unfold IngredientAnalyzer._analyze_ingredient_quality.
  cbn [IngredientAnalyzer.quality_score IngredientAnalyzer.quality_factors
       IngredientAnalyzer.total_artificial IngredientAnalyzer.total_natural
       IngredientAnalyzer.quality_category].
  split; [assumption|]. split; [assumption|]. split.
  - rewrite Hs. unfold QualitySpec.score_of_factors. lia.
  - split; [assumption|].
    unfold IngredientAnalyzer.quality_category_of.
    destruct (Z.leb 10 _) eqn:E10.
    + intros _. apply Z.leb_le in E10. rewrite Hs in E10.
      unfold QualitySpec.score_of_factors in E10. lia.
    + destruct (Z.leb 5 _); [discriminate|].
      destruct (Z.leb 0 _); [discriminate|].
      destruct (Z.leb (-5) _); discriminate.
Qed.

Lemma quality_score_from_factors_witness :
  3 <= List.length ["organic oats"; "fresh fruit"; "pure water";
                    "natural whole milk"].
Proof.
  apply (proj2 (proj2 (proj2 (proj2
          (quality_score_from_factors
             ["organic oats"; "fresh fruit"; "pure water";
              "natural whole milk"]))))).
  vm_compute. reflexivity.
Defined.

(** ** The medication checker: what is reported *)

Section InteractionFacts.
Import PyStr MedicationChecker MedicationSpec.

Variable self : Checker.

Lemma ingredient_contains_nil :
  forall target, _ingredient_contains [] target = false.
Proof. reflexivity. Qed.

Lemma filter_none :
  forall (A : Type) (f : A -> bool) (l : list A),
    (forall x, f x = false) -> filter f l = [].
Proof.
  intros A f l H. induction l as [|x l IH]; simpl; [reflexivity|].
  now rewrite H.
Qed.

Lemma single_medication_no_ingredients :
  forall m, _check_single_medication self m [] = [].
Proof.
  intros m. unfold _check_single_medication.
  assert (H1 : forall r, record_interactions m [] r = []).
  { intros r. unfold record_interactions.
    now rewrite !(filter_none _ _ _ ingredient_contains_nil). }
  rewrite (flat_map_all_nil _ _ _ (known_interactions self)).
  - unfold _check_category_interactions.
    apply flat_map_all_nil. intros [c d] _.
    destruct (existsb _ _); [|reflexivity].
    now rewrite (filter_none _ _ _ ingredient_contains_nil).
  - intros [n r] _. destruct (resolves n _); [apply H1 | reflexivity].
Qed.

Lemma categorize_fold_lists :
  forall m l st,
    let st' := fold_left (categorize m) l st in
    high_list st'
    = (high_list st ++ filter (interaction_severity_is High) l)%list
    /\ moderate_list st'
       = (moderate_list st
          ++ filter (interaction_severity_is Moderate) l)%list
    /\ low_list st'
       = (low_list st ++ filter (interaction_severity_is Low) l)%list.
Proof.
  intros m l. induction l as [|i l IH]; intros st; simpl.
  - now rewrite !app_nil_r.
  - destruct (IH (categorize m st i)) as [Hh [Hm Hl]].
    rewrite Hh, Hm, Hl. unfold categorize, interaction_severity_is.
    cbn [high_list moderate_list low_list].
    destruct (severity i); simpl; rewrite <- ?app_assoc; auto.
Qed.

Lemma check_loop_lists :
  forall ingredients meds st,
    high_list st = filter (interaction_severity_is High) (all_interactions st)
    /\ moderate_list st
       = filter (interaction_severity_is Moderate) (all_interactions st)
    /\ low_list st
       = filter (interaction_severity_is Low) (all_interactions st) ->
    let st' := fold_left (check_medication self ingredients) meds st in
    high_list st'
    = filter (interaction_severity_is High) (all_interactions st')
    /\ moderate_list st'
       = filter (interaction_severity_is Moderate) (all_interactions st')
    /\ low_list st'
       = filter (interaction_severity_is Low) (all_interactions st').
Proof.
  intros ingredients. induction meds as [|m meds IH]; intros st H; simpl.
  - assumption.
  - apply IH. destruct H as [Hh [Hm Hl]]. unfold check_medication.
    pose proof (single_medication_name self ingredients m) as Hname.
    destruct (_check_single_medication self m ingredients) as [|i l];
      [now repeat split|].
    destruct (categorize_fold m (i :: l)
                (mkTally (all_interactions st ++ i :: l)
                         (high_list st) (moderate_list st) (low_list st)
                         (timing_list st)) Hname) as [Ha _].
    destruct (categorize_fold_lists m (i :: l)
                (mkTally (all_interactions st ++ i :: l)
                         (high_list st) (moderate_list st) (low_list st)
                         (timing_list st))) as [Hh' [Hm' Hl']].
    cbn [all_interactions high_list moderate_list low_list] in Ha, Hh', Hm', Hl'.
    rewrite Ha, Hh', Hm', Hl', !filter_app, Hh, Hm, Hl. now repeat split.
Qed.


Lemma existsb_map_compose :
  forall (A B : Type) (f : B -> bool) (g : A -> B) (l : list A),
    existsb f (map g l) = existsb (fun x => f (g x)) l.
Proof.
  intros A B f g l. induction l as [|x l IH]; simpl; [reflexivity|].
  now rewrite IH.
Qed.

Lemma ingredient_contains_more :
  forall ingredients extra target,
    _ingredient_contains ingredients target = true ->
    _ingredient_contains (ingredients ++ extra) target = true.
Proof.
  intros ingredients extra target H. unfold _ingredient_contains in *.
  rewrite existsb_app, H. reflexivity.
Qed.

Lemma filter_length_more :
  forall (A : Type) (f g : A -> bool) (l : list A),
    (forall x, f x = true -> g x = true) ->
    List.length (filter f l) <= List.length (filter g l).
Proof.
  intros A f g l H. induction l as [|x l IH]; simpl; [lia|].
  destruct (f x) eqn:E.
  - rewrite (H x E). simpl. lia.
  - destruct (g x); simpl; lia.
Qed.

Lemma flat_map_length_more :
  forall (A B : Type) (f g : A -> list B) (l : list A),
    (forall x, List.length (f x) <= List.length (g x)) ->
    List.length (flat_map f l) <= List.length (flat_map g l).
Proof.
  intros A B f g l H. induction l as [|x l IH]; simpl; [lia|].
  rewrite !length_app. specialize (H x). lia.
Qed.

Lemma single_medication_length_more :
  forall ingredients extra m,
    List.length (_check_single_medication self m ingredients)
    <= List.length (_check_single_medication self m (ingredients ++ extra)).
Proof.
  intros ingredients extra m. unfold _check_single_medication.
  rewrite !length_app.
  assert (Hf : forall l,
             List.length (filter (_ingredient_contains ingredients) l)
             <= List.length
                  (filter (_ingredient_contains (ingredients ++ extra)) l)).
  { intros l. apply filter_length_more. intros x.
    apply ingredient_contains_more. }
  apply Nat.add_le_mono.
  - apply flat_map_length_more. intros [n r].
    destruct (resolves n _); [|lia].
    unfold record_interactions. rewrite !length_app, !length_map.
    apply Nat.add_le_mono; apply Hf.
  - unfold _check_category_interactions.
    apply flat_map_length_more. intros [c d].
    destruct (existsb _ _); [|simpl; lia].
    rewrite !length_map. apply Hf.
Qed.

Lemma single_medication_In_more :
  forall ingredients extra m i,
    In i (_check_single_medication self m ingredients) ->
    In i (_check_single_medication self m (ingredients ++ extra)).
Proof.
  intros ingredients extra m i H. unfold _check_single_medication in *.
  apply in_app_iff in H. apply in_app_iff. destruct H as [H | H].
  - left. apply in_flat_map in H. destruct H as [[n r] [Hin H]].
    apply in_flat_map. exists (n, r). split; [assumption|].
    destruct (resolves n _); [|destruct H].
    apply record_interactions_In in H. apply record_interactions_In.
    destruct H as [[item [Hi [Hc E]]] | [item [Hi [Hc E]]]];
      [left | right]; exists item;
      (split; [assumption|]); (split; [|assumption]);
      now apply ingredient_contains_more.
  - right. unfold _check_category_interactions in *.
    apply in_flat_map in H. destruct H as [[c d] [Hin H]].
    apply in_flat_map. exists (c, d). split; [assumption|].
    destruct (existsb _ _); [|destruct H].
    apply in_map_iff in H. destruct H as [item [E Hi]].
    apply in_map_iff. exists item. split; [assumption|].
    apply filter_In in Hi. apply filter_In. destruct Hi as [Hi Hc].
    split; [assumption | now apply ingredient_contains_more].
Qed.

Lemma unresolved_no_interactions :
  forall ingredients m,
    unresolved self m = true ->
    _check_single_medication self m ingredients = [].
Proof.
  intros ingredients m H. unfold unresolved in H.
  apply andb_true_iff in H. destruct H as [H1 H2].
  rewrite forallb_forall in H1, H2.
  unfold _check_single_medication.
  rewrite (flat_map_all_nil _ _ _ (known_interactions self)).
  - unfold _check_category_interactions.
    apply flat_map_all_nil. intros [c d] Hin.
    specialize (H2 (c, d) Hin). apply negb_true_iff in H2.
    simpl in H2. now rewrite H2.
  - intros [n r] Hin. specialize (H1 (n, r) Hin).
    apply negb_true_iff in H1. simpl in H1. now rewrite H1.
Qed.

End InteractionFacts.

Lemma report_shape :
  forall self ingredients p,
    medications p <> [] ->
    let r := MedicationChecker.check_interactions self ingredients (Some p) in
    let found :=
      flat_map (fun m =>
                  MedicationChecker._check_single_medication self m ingredients)
               (medications p) in
    MedicationChecker.detailed_interactions r = Some found
    /\ MedicationChecker.total_interactions r = List.length found
    /\ MedicationChecker.interactions_found r
       = Nat.ltb 0 (List.length found)
    /\ MedicationChecker.high_risk_interactions r
       = filter (MedicationSpec.interaction_severity_is High) found
    /\ MedicationChecker.moderate_risk_interactions r
       = filter (MedicationSpec.interaction_severity_is Moderate) found
    /\ MedicationChecker.low_risk_interactions r
       = filter (MedicationSpec.interaction_severity_is Low) found
    /\ MedicationChecker.timing_recommendations r
       = map MedicationSpec.timing_of
             (filter MedicationChecker.has_timing found).
Proof.
  intros self ingredients p Hm r found.
  pose (st := fold_left (MedicationChecker.check_medication self ingredients)
                        (medications p)
                        (MedicationChecker.mkTally [] [] [] [] [])).
  assert (Hr : r = MedicationChecker.mkReport
                     (Nat.ltb 0 (List.length
                                   (MedicationChecker.all_interactions st)))
                     (List.length (MedicationChecker.all_interactions st))
                     (MedicationChecker.high_list st)
                     (MedicationChecker.moderate_list st)
                     (MedicationChecker.low_list st)
                     (MedicationChecker.timing_list st)
                     (Some (MedicationChecker.all_interactions st))).
  { subst r st. unfold MedicationChecker.check_interactions, has_entries.
    destruct (medications p); [contradiction | reflexivity]. }
  assert (Hall : MedicationChecker.all_interactions st = found).
  { subst st found. now rewrite check_loop_interactions. }
  destruct (check_loop_lists self ingredients (medications p)
              (MedicationChecker.mkTally [] [] [] [] []))
    as [Hh [Hmo Hl]]; [now repeat split|].
  destruct (check_loop_invariant self ingredients (medications p)
              (MedicationChecker.mkTally [] [] [] [] []))
    as [_ Ht]; [now split|].
  fold st in Hh, Hmo, Hl, Ht.
  rewrite Hr. simpl. rewrite Hh, Hmo, Hl, Ht, Hall. now repeat split.
Qed.

(** X16. With an empty ingredient list nothing is reported, whatever the
    checker holds and whatever the profile declares: no interaction is
    found, the total is 0, the three risk lists and the timing
    recommendations are empty. *)
Theorem no_ingredients_no_interactions :
  forall (self : MedicationChecker.Checker) (up : option UserProfile),
    let r := MedicationChecker.check_interactions self [] up in
    MedicationChecker.interactions_found r = false
    /\ MedicationChecker.total_interactions r = 0
    /\ MedicationChecker.high_risk_interactions r = []
    /\ MedicationChecker.moderate_risk_interactions r = []
    /\ MedicationChecker.low_risk_interactions r = []
    /\ MedicationChecker.timing_recommendations r = [].
Proof.
  intros self up r.
  destruct (has_entries medications up) eqn:E.
  - destruct up as [p|]; [|discriminate].
    assert (Hm : medications p <> []).
    { intros Hn. unfold has_entries in E. rewrite Hn in E. discriminate. }
    destruct (report_shape self [] p Hm)
      as [_ [Ht [Hf [Hh [Hmo [Hl Hti]]]]]].
    assert (Hnil : flat_map
                     (fun m =>
                        MedicationChecker._check_single_medication self m [])
                     (medications p) = []).
    { apply flat_map_all_nil. intros m _.
      apply single_medication_no_ingredients. }
    rewrite Hnil in *. subst r. now repeat split.
  - subst r. rewrite (report_without_medications self [] up E).
    now repeat split.
Qed.

(** X17. The three risk lists partition the detailed interactions by
    severity: for a profile with medications each list is the detailed
    interactions of its severity, in their order, so every reported
    interaction is in exactly one of the lists. *)
Theorem risk_lists_partition_interactions :
  forall (self : MedicationChecker.Checker) (ingredients : list string)
         (p : UserProfile),
    medications p <> [] ->
    let r := MedicationChecker.check_interactions self ingredients (Some p) in
    exists detailed,
      MedicationChecker.detailed_interactions r = Some detailed
      /\ MedicationChecker.high_risk_interactions r
         = filter (MedicationSpec.interaction_severity_is High) detailed
      /\ MedicationChecker.moderate_risk_interactions r
         = filter (MedicationSpec.interaction_severity_is Moderate) detailed
      /\ MedicationChecker.low_risk_interactions r
         = filter (MedicationSpec.interaction_severity_is Low) detailed.
Proof.
  intros self ingredients p Hm r.
  destruct (report_shape self ingredients p Hm)
    as [Hd [_ [_ [Hh [Hmo [Hl _]]]]]].
  eexists. split; [exact Hd|]. now repeat split.
Qed.

Lemma risk_lists_partition_interactions_witness :
  exists detailed,
    MedicationChecker.detailed_interactions
      (MedicationChecker.check_interactions
         MedicationChecker.init ["spinach"; "grapefruit juice"]
         (Some (MedicationSpec.profile_with_medications ["warfarin"])))
    = Some detailed
    /\ List.length detailed = 3.
Proof.
  assert (Hm : medications
                 (MedicationSpec.profile_with_medications ["warfarin"])
               <> []) by discriminate.
  destruct (risk_lists_partition_interactions
              MedicationChecker.init ["spinach"; "grapefruit juice"]
              (MedicationSpec.profile_with_medications ["warfarin"]) Hm)
    as [detailed [Hd _]].
  exists detailed. split; [exact Hd|].
  vm_compute in Hd. injection Hd as <-. reflexivity.
Defined.



(** X19. Adding ingredients never removes an interaction: every
    interaction reported for a medication on a list is reported on the
    list extended by further ingredients, and the total of the report
    does not decrease. *)
Theorem more_ingredients_more_interactions :
  forall (self : MedicationChecker.Checker) (ingredients extra : list string)
         (m : string) (up : option UserProfile),
    incl (MedicationChecker._check_single_medication self m ingredients)
         (MedicationChecker._check_single_medication
            self m (ingredients ++ extra))
    /\ MedicationChecker.total_interactions
         (MedicationChecker.check_interactions self ingredients up)
       <= MedicationChecker.total_interactions
            (MedicationChecker.check_interactions
               self (ingredients ++ extra) up).
Proof.
  intros self ingredients extra m up. split.
  - intros i. apply single_medication_In_more.
  - destruct (has_entries medications up) eqn:E.
    + destruct up as [p|]; [|discriminate].
      assert (Hm : medications p <> []).
      { intros Hn. unfold has_entries in E. rewrite Hn in E. discriminate. }
      destruct (report_shape self ingredients p Hm) as [_ [Ht _]].
      destruct (report_shape self (ingredients ++ extra) p Hm)
        as [_ [Ht' _]].
      rewrite Ht, Ht'. apply flat_map_length_more. intros x.
      apply single_medication_length_more.
    + rewrite !(report_without_medications self _ up E). simpl. lia.
Qed.

(** X20. A medication that selects no record and no category of the
    checker is skipped without an error: it contributes no interaction,
    whatever the ingredients, and a profile that declares only such
    medications gets the report of an empty result. *)
Theorem unresolved_medication_is_skipped :
  forall (self : MedicationChecker.Checker) (ingredients : list string)
         (p : UserProfile),
    forallb (MedicationSpec.unresolved self) (medications p) = true ->
    (forall m, In m (medications p) ->
               MedicationChecker._check_single_medication self m ingredients
               = [])
    /\ MedicationChecker.interactions_found
         (MedicationChecker.check_interactions self ingredients (Some p))
       = false
    /\ MedicationChecker.total_interactions
         (MedicationChecker.check_interactions self ingredients (Some p))
       = 0.
Proof.
  intros self ingredients p H. rewrite forallb_forall in H.
  assert (Hnone : forall m, In m (medications p) ->
                            MedicationChecker._check_single_medication
                              self m ingredients = []).
  { intros m Hin. apply unresolved_no_interactions. now apply H. }
  split; [assumption|].
  destruct (medications p) as [|m l] eqn:E.
  - unfold MedicationChecker.check_interactions, has_entries. rewrite E.
    now split.
  - assert (Hm : medications p <> []) by (rewrite E; discriminate).
    destruct (report_shape self ingredients p Hm) as [_ [Ht [Hf _]]].
    rewrite Ht, Hf, E.
    rewrite (flat_map_all_nil _ _ _ (m :: l)); [now split|].
    intros x Hx. apply Hnone. exact Hx.
Qed.

Lemma unresolved_medication_is_skipped_witness :
  MedicationChecker.total_interactions
    (MedicationChecker.check_interactions
       MedicationChecker.init ["red wine"; "spinach"]
       (Some (MedicationSpec.profile_with_medications
                ["ibuprofen"; "vitamin d"])))
  = 0.
Proof.
  apply (unresolved_medication_is_skipped
           MedicationChecker.init ["red wine"; "spinach"]
           (MedicationSpec.profile_with_medications
              ["ibuprofen"; "vitamin d"])).
  vm_compute. reflexivity.
Defined.

(** X21. A timing recommendation is never invented: each one names a
    medication of the profile that selects a record of the checker, and
    its text is the non-empty timing note of that record. *)
Theorem timing_recommendations_are_sound :
  forall (self : MedicationChecker.Checker) (ingredients : list string)
         (up : option UserProfile) (tr : MedicationChecker.TimingRecommendation),
    In tr (MedicationChecker.timing_recommendations
             (MedicationChecker.check_interactions self ingredients up)) ->
    exists p name r,
      up = Some p
      /\ In (MedicationChecker.t_medication tr) (medications p)
      /\ In (name, r) (MedicationChecker.known_interactions self)
      /\ MedicationChecker.resolves
           name (PyStr.strip (PyStr.lower (MedicationChecker.t_medication tr)))
         = true
      /\ MedicationChecker.timing_note r
         = Some (MedicationChecker.t_timing tr)
      /\ MedicationChecker.t_timing tr <> "".
Proof.
  intros self ingredients up tr H.
  destruct (has_entries medications up) eqn:E.
  - destruct up as [p|]; [|discriminate].
    assert (Hm : medications p <> []).
    { intros Hn. unfold has_entries in E. rewrite Hn in E. discriminate. }
    destruct (report_shape self ingredients p Hm)
      as [_ [_ [_ [_ [_ [_ Ht]]]]]].
    rewrite Ht in H. apply in_map_iff in H. destruct H as [i [Etr Hi]].
    apply filter_In in Hi. destruct Hi as [Hi Hti].
    apply in_flat_map in Hi. destruct Hi as [m [Hin Hi]].
    pose proof (single_medication_name self ingredients m i Hi) as Hname.
    assert (Hty : MedicationChecker.interaction_type i
                  <> MedicationChecker.CategoryInteraction).
    { intros Hc. unfold MedicationChecker._check_single_medication in Hi.
      apply in_app_iff in Hi. destruct Hi as [Hi | Hi].
      - apply in_flat_map in Hi. destruct Hi as [[n r] [_ Hi]].
        destruct (MedicationChecker.resolves n _); [|destruct Hi].
        apply record_interactions_In in Hi.
        destruct Hi as [[item [_ [_ Ei]]] | [item [_ [_ Ei]]]];
          subst i; discriminate.
      - unfold MedicationChecker._check_category_interactions in Hi.
        apply in_flat_map in Hi. destruct Hi as [[c d] [_ Hi]].
        destruct (existsb _ _); [|destruct Hi].
        apply in_map_iff in Hi. destruct Hi as [item [Ei _]].
        subst i. discriminate. }
    apply (single_medication_records self ingredients m i Hty) in Hi.
    destruct Hi as [name [r [Hrec [Hres Hi]]]].
    exists p, name, r. subst tr. unfold MedicationSpec.timing_of.
    cbn [MedicationChecker.t_medication MedicationChecker.t_timing].
    rewrite Hname. split; [reflexivity|]. split; [assumption|].
    split; [assumption|]. split; [assumption|].
    apply record_interactions_In in Hi.
    unfold MedicationChecker.has_timing in Hti.
    destruct Hi as [[item [_ [_ Ei]]] | [item [_ [_ Ei]]]]; subst i;
      cbn [MedicationChecker.timing MedicationChecker.avoid_interaction
           MedicationChecker.caution_interaction] in *;
      unfold MedicationChecker.timing_or_empty in *;
      destruct (MedicationChecker.timing_note r) as [t|];
      try discriminate;
      (split; [reflexivity | now apply truthy_nonempty]).
  - rewrite (report_without_medications self ingredients up E) in H.
    destruct H.
Qed.

Lemma timing_recommendations_are_sound_witness :
  exists p name r,
    Some (MedicationSpec.profile_with_medications ["Tetracycline 250"])
    = Some p
    /\ In "Tetracycline 250" (medications p)
    /\ In (name, r) (MedicationChecker.known_interactions
                       MedicationChecker.init)
    /\ MedicationChecker.resolves
         name (PyStr.strip (PyStr.lower "Tetracycline 250")) = true
    /\ MedicationChecker.timing_note r
       = Some "take 1 hour before or 2 hours after meals"
    /\ "take 1 hour before or 2 hours after meals" <> "".
Proof.
  apply (timing_recommendations_are_sound
           MedicationChecker.init ["milk"]
           (Some (MedicationSpec.profile_with_medications
                    ["Tetracycline 250"]))
           (MedicationChecker.mkTiming
              "Tetracycline 250"
              "take 1 hour before or 2 hours after meals")).
  vm_compute. tauto.
Defined.

Section ContainsCase.
Import PyStr MedicationChecker.

Lemma existsb_pointwise :
  forall (A : Type) (f g : A -> bool) (l : list A),
    (forall x, f x = g x) -> existsb f l = existsb g l.
Proof.
  intros A f g l H. induction l as [|x l IH]; simpl; [reflexivity|].
  now rewrite H, IH.
Qed.

Lemma ingredient_contains_lower_list :
  forall ingredients target,
    _ingredient_contains (map lower ingredients) target
    = _ingredient_contains ingredients target.
Proof.
  intros ingredients target. unfold _ingredient_contains.
  rewrite existsb_map_compose. apply existsb_pointwise.
  intros x. now rewrite lower_idempotent.
Qed.

Lemma ingredient_contains_lower_target :
  forall ingredients target,
    _ingredient_contains ingredients (lower target)
    = _ingredient_contains ingredients target.
Proof.
  intros ingredients target. unfold _ingredient_contains.
  now rewrite lower_idempotent.
Qed.

Lemma ingredient_contains_substring :
  forall ingredients target ingredient,
    In ingredient ingredients ->
    contains (lower target) (lower ingredient) = true ->
    _ingredient_contains ingredients target = true.
Proof.
  intros ingredients target ingredient Hin Hc. unfold _ingredient_contains.
  apply existsb_exists. exists ingredient. split; [assumption|].
  now rewrite Hc.
Qed.

Lemma get_record_In :
  forall known key r, get_record known key = Some r -> In (key, r) known.
Proof.
  induction known as [|[k v] known IH]; intros key r H; simpl in *.
  - discriminate.
  - destruct (String.eqb k key) eqn:E.
    + apply String.eqb_eq in E. injection H as H. subst. now left.
    + right. now apply IH.
Qed.

Lemma get_record_has :
  forall known key,
    has_record known key = false -> get_record known key = None.
Proof.
  induction known as [|[k v] known IH]; intros key H; simpl in *.
  - reflexivity.
  - apply orb_false_iff in H. destruct H as [H1 H2].
    rewrite H1. now apply IH.
Qed.

Lemma has_record_get :
  forall known key,
    has_record known key = true -> exists r, get_record known key = Some r.
Proof.
  induction known as [|[k v] known IH]; intros key H; simpl in *.
  - discriminate.
  - destruct (String.eqb k key); [now exists v|]. now apply IH.
Qed.

Lemma get_record_app_new :
  forall known key r,
    get_record known key = None ->
    get_record (known ++ [(key, r)]) key = Some r.
Proof.
  induction known as [|[k v] known IH]; intros key r H; simpl in *.
  - now rewrite String.eqb_refl.
  - destruct (String.eqb k key); [discriminate|]. now apply IH.
Qed.

Lemma get_record_app_other :
  forall known key r other,
    other <> key ->
    get_record (known ++ [(key, r)]) other = get_record known other.
Proof.
  induction known as [|[k v] known IH]; intros key r other H; simpl.
  - apply String.eqb_neq in H. rewrite String.eqb_sym in H. now rewrite H.
  - destruct (String.eqb k other); [reflexivity|]. now apply IH.
Qed.

Lemma get_record_update_same :
  forall known key f r,
    get_record known key = Some r ->
    get_record (update_record known key f) key = Some (f r).
Proof.
  induction known as [|[k v] known IH]; intros key f r H; simpl in *.
  - discriminate.
  - destruct (String.eqb k key) eqn:E; simpl; rewrite E.
    + now injection H as ->.
    + now apply IH.
Qed.

Lemma get_record_update_other :
  forall known key f other,
    other <> key ->
    get_record (update_record known key f) other = get_record known other.
Proof.
  induction known as [|[k v] known IH]; intros key f other H; simpl.
  - reflexivity.
  - destruct (String.eqb k key) eqn:E; simpl.
    + apply String.eqb_eq in E. subst k.
      apply String.eqb_neq in H. rewrite String.eqb_sym in H. now rewrite H.
    + destruct (String.eqb k other); [reflexivity|]. now apply IH.
Qed.

Lemma update_record_twice :
  forall known key f,
    (forall r, f (f r) = f r) ->
    update_record (update_record known key f) key f
    = update_record known key f.
Proof.
  induction known as [|[k v] known IH]; intros key f H; simpl.
  - reflexivity.
  - destruct (String.eqb k key) eqn:E; simpl; rewrite E.
    + now rewrite H.
    + now rewrite IH.
Qed.

Lemma has_record_update :
  forall known key f other,
    has_record (update_record known key f) other = has_record known other.
Proof.
  unfold has_record.
  induction known as [|[k v] known IH]; intros key f other; simpl.
  - reflexivity.
  - destruct (String.eqb k key); simpl; [reflexivity|].
    now rewrite IH.
Qed.

Lemma has_record_app_new :
  forall known key r, has_record (known ++ [(key, r)]) key = true.
Proof.
  intros known key r. unfold has_record. rewrite existsb_app. simpl.
  rewrite String.eqb_refl. now rewrite orb_true_r.
Qed.

Lemma with_item_twice :
  forall s ing r, with_item s ing (with_item s ing r) = with_item s ing r.
Proof.
  intros s ing r. unfold with_item.
  destruct s.
  - destruct (mem ing (caution r)) eqn:E; [now rewrite E|].
    cbn [caution]. rewrite (proj2 (mem_In ing (caution r ++ [ing]))).
    + reflexivity.
    + apply in_or_app. right. now left.
  - destruct (mem ing (caution r)) eqn:E; [now rewrite E|].
    cbn [caution]. rewrite (proj2 (mem_In ing (caution r ++ [ing]))).
    + reflexivity.
    + apply in_or_app. right. now left.
  - destruct (mem ing (avoid r)) eqn:E; [now rewrite E|].
    cbn [avoid]. rewrite (proj2 (mem_In ing (avoid r ++ [ing]))).
    + reflexivity.
    + apply in_or_app. right. now left.
Qed.

Lemma with_item_holds :
  forall s ing r,
    In ing (MedicationSpec.custom_list s (with_item s ing r))
    /\ med_severity (with_item s ing r) = med_severity r
    /\ timing_note (with_item s ing r) = timing_note r
    /\ incl (avoid r) (avoid (with_item s ing r))
    /\ incl (caution r) (caution (with_item s ing r)).
Proof.
  intros s ing r. unfold with_item, MedicationSpec.custom_list.
  destruct s.
  - destruct (mem ing (caution r)) eqn:E; simpl.
    + apply mem_In in E. repeat split; auto using incl_refl.
    + repeat split; auto using incl_refl, incl_appl.
      apply in_or_app. right. now left.
  - destruct (mem ing (caution r)) eqn:E; simpl.
    + apply mem_In in E. repeat split; auto using incl_refl.
    + repeat split; auto using incl_refl, incl_appl.
      apply in_or_app. right. now left.
  - destruct (mem ing (avoid r)) eqn:E; simpl.
    + apply mem_In in E. repeat split; auto using incl_refl.
    + repeat split; auto using incl_refl, incl_appl.
      apply in_or_app. right. now left.
Qed.

End ContainsCase.

(** X22. Matching an ingredient list against a term ignores letter case on
    both sides: lower-casing the ingredients or the term does not change
    the answer; and the answer is true as soon as the lower-cased term
    occurs in some lower-cased ingredient. *)
Theorem ingredient_contains_ignores_case :
  forall (ingredients : list string) (target ingredient : string),
    MedicationChecker._ingredient_contains (map PyStr.lower ingredients) target
    = MedicationChecker._ingredient_contains ingredients target
    /\ MedicationChecker._ingredient_contains ingredients (PyStr.lower target)
       = MedicationChecker._ingredient_contains ingredients target
    /\ (In ingredient ingredients ->
        PyStr.contains (PyStr.lower target) (PyStr.lower ingredient) = true ->
        MedicationChecker._ingredient_contains ingredients target = true).
Proof.
  intros ingredients target ingredient. split; [|split].
  - apply ingredient_contains_lower_list.
  - apply ingredient_contains_lower_target.
  - apply ingredient_contains_substring.
Qed.

Lemma ingredient_contains_ignores_case_witness :
  MedicationChecker._ingredient_contains
    ["Olive Oil"; "GRAPEFRUIT Juice"] "Grapefruit" = true.
Proof.
  apply (proj2 (proj2 (ingredient_contains_ignores_case
                         ["Olive Oil"; "GRAPEFRUIT Juice"]
                         "Grapefruit" "GRAPEFRUIT Juice"))).
  - simpl. tauto.
  - vm_compute. reflexivity.
Defined.

(** X23. [add_custom_interaction] files the ingredient under the
    medication: afterwards the record of the medication holds the
    ingredient in its avoid list for the severity [high] and in its
    caution list otherwise.  A record that existed keeps its severity, its
    timing note and all its terms; the records of the other medications
    and the categories are unchanged; and repeating the call changes
    nothing. *)
Theorem add_custom_interaction_files_ingredient :
  forall (self : MedicationChecker.Checker) (m ing : string)
         (s : Severity) (description : string),
    let after :=
      MedicationChecker.add_custom_interaction self m ing s description in
    (exists r,
        MedicationChecker.get_record
          (MedicationChecker.known_interactions after) m = Some r
        /\ In ing (MedicationSpec.custom_list s r)
        /\ (forall old,
               MedicationChecker.get_record
                 (MedicationChecker.known_interactions self) m = Some old ->
               MedicationChecker.med_severity r
               = MedicationChecker.med_severity old
               /\ MedicationChecker.timing_note r
                  = MedicationChecker.timing_note old
               /\ incl (MedicationChecker.avoid old)
                       (MedicationChecker.avoid r)
               /\ incl (MedicationChecker.caution old)
                       (MedicationChecker.caution r)))
    /\ (forall other,
           other <> m ->
           MedicationChecker.get_record
             (MedicationChecker.known_interactions after) other
           = MedicationChecker.get_record
               (MedicationChecker.known_interactions self) other)
    /\ MedicationChecker.medication_categories after
       = MedicationChecker.medication_categories self
    /\ MedicationChecker.add_custom_interaction after m ing s description
       = after.
Proof.
  intros self m ing s description after.
  subst after. unfold MedicationChecker.add_custom_interaction.
  cbn [MedicationChecker.known_interactions
       MedicationChecker.medication_categories].
  destruct (MedicationChecker.has_record
              (MedicationChecker.known_interactions self) m) eqn:E.
  - destruct (has_record_get _ _ E) as [old Hold].
    split; [|split; [|split]].
    + exists (MedicationChecker.with_item s ing old).
      split; [now apply get_record_update_same|].
      destruct (with_item_holds s ing old) as [H1 [H2 [H3 [H4 H5]]]].
      split; [assumption|].
      intros old' Hold'. rewrite Hold in Hold'. injection Hold' as <-.
      auto.
    + intros other Hne. now apply get_record_update_other.
    + reflexivity.
    + rewrite has_record_update, E.
      rewrite update_record_twice; [reflexivity|].
      intros r. apply with_item_twice.
  - pose proof (get_record_has _ _ E) as Hnone.
    split; [|split; [|split]].
    + exists (MedicationChecker.with_item
                s ing (MedicationChecker.mkMedRecord [] [] None s)).
      split.
      * apply get_record_update_same. now apply get_record_app_new.
      * destruct (with_item_holds
                    s ing (MedicationChecker.mkMedRecord [] [] None s))
          as [H1 _].
        split; [assumption|].
        intros old Hold. rewrite Hnone in Hold. discriminate.
    + intros other Hne.
      rewrite get_record_update_other by assumption.
      now apply get_record_app_other.
    + reflexivity.
    + rewrite has_record_update, has_record_app_new.
      rewrite update_record_twice; [reflexivity|].
      intros r. apply with_item_twice.
Qed.

Lemma add_custom_interaction_files_ingredient_witness :
  MedicationChecker.get_record
    (MedicationChecker.known_interactions
       (MedicationChecker.add_custom_interaction
          MedicationChecker.init "warfarin" "natto" High "rich in vitamin k"))
    "aspirin"
  = MedicationChecker.get_record
      (MedicationChecker.known_interactions MedicationChecker.init) "aspirin".
Proof.
  apply (proj1 (proj2 (add_custom_interaction_files_ingredient
                         MedicationChecker.init "warfarin" "natto" High
                         "rich in vitamin k"))).
  discriminate.
Defined.

Lemma add_custom_interaction_shape :
  forall (self : MedicationChecker.Checker) (m ing : string)
         (s : Severity) (description : string),
    exists r,
      MedicationChecker.get_record
        (MedicationChecker.known_interactions
           (MedicationChecker.add_custom_interaction
              self m ing s description)) m = Some r
      /\ In ing (MedicationSpec.custom_list s r).
Proof.
  intros self m ing s description.
  unfold MedicationChecker.add_custom_interaction.
  cbn [MedicationChecker.known_interactions].
  destruct (MedicationChecker.has_record
              (MedicationChecker.known_interactions self) m) eqn:E.
  - destruct (has_record_get _ _ E) as [old Hold].
    exists (MedicationChecker.with_item s ing old).
    split; [now apply get_record_update_same|].
    apply with_item_holds.
  - exists (MedicationChecker.with_item
              s ing (MedicationChecker.mkMedRecord [] [] None s)).
    split.
    + apply get_record_update_same. apply get_record_app_new.
      now apply get_record_has.
    + apply with_item_holds.
Qed.

(** X24. A custom interaction is reported: after
    [add_custom_interaction] for a medication name that occurs in its own
    lower-cased, stripped form (a lower-case name without surrounding
    whitespace does), checking that medication against ingredients that
    match the filed ingredient reports an interaction for it, of kind
    [avoid] for the severity [high] and [caution] otherwise. *)
Theorem custom_interaction_is_reported :
  forall (self : MedicationChecker.Checker) (m ing : string)
         (s : Severity) (description : string) (ingredients : list string),
    PyStr.contains m (PyStr.strip (PyStr.lower m)) = true ->
    MedicationChecker._ingredient_contains ingredients ing = true ->
    exists i,
      In i (MedicationChecker._check_single_medication
              (MedicationChecker.add_custom_interaction
                 self m ing s description)
              m ingredients)
      /\ MedicationChecker.medication i = m
      /\ MedicationChecker.ingredient i = ing
      /\ MedicationChecker.interaction_type i = MedicationSpec.custom_kind s.
Proof.
  intros self m ing s description ingredients Hm Hc.
  destruct (add_custom_interaction_shape self m ing s description)
    as [r [Hr Hin]].
  apply get_record_In in Hr.
  assert (Hres : MedicationChecker.resolves
                   m (PyStr.strip (PyStr.lower m)) = true).
  { unfold MedicationChecker.resolves. now rewrite Hm. }
  destruct s; unfold MedicationSpec.custom_list in Hin;
    cbn [MedicationSpec.custom_kind].
  - exists (MedicationChecker.caution_interaction m r ing).
    repeat split. apply single_medication_records; [discriminate|].
    exists m, r. repeat split; try assumption.
    apply record_interactions_In. right. exists ing. auto.
  - exists (MedicationChecker.caution_interaction m r ing).
    repeat split. apply single_medication_records; [discriminate|].
    exists m, r. repeat split; try assumption.
    apply record_interactions_In. right. exists ing. auto.
  - exists (MedicationChecker.avoid_interaction m r ing).
    repeat split. apply single_medication_records; [discriminate|].
    exists m, r. repeat split; try assumption.
    apply record_interactions_In. left. exists ing. auto.
Qed.

Lemma custom_interaction_is_reported_witness :
  exists i,
    In i (MedicationChecker._check_single_medication
            (MedicationChecker.add_custom_interaction
               MedicationChecker.init "ibuprofen" "alcohol" Moderate "")
            "ibuprofen" ["red wine"])
    /\ MedicationChecker.medication i = "ibuprofen"
    /\ MedicationChecker.ingredient i = "alcohol"
    /\ MedicationChecker.interaction_type i = MedicationChecker.Caution.
Proof.
  apply (custom_interaction_is_reported
           MedicationChecker.init "ibuprofen" "alcohol" Moderate ""
           ["red wine"]); vm_compute; reflexivity.
Defined.

Section MedicationInfoFacts.
Import PyStr MedicationChecker.

Lemma info_scan_some :
  forall known x n r,
    info_scan known x = Some (n, r) ->
    In (n, r) known /\ contains n x = true.
Proof.
  induction known as [|[k v] known IH]; intros x n r H; simpl in *.
  - discriminate.
  - destruct (contains k x) eqn:E.
    + injection H as H1 H2. subst. split; [now left | assumption].
    + destruct (IH x n r H) as [Hin Hc]. split; [now right | assumption].
Qed.

Lemma info_scan_none :
  forall known x,
    info_scan known x = None ->
    forall n r, In (n, r) known -> contains n x = false.
Proof.
  induction known as [|[k v] known IH]; intros x H n r Hin; simpl in *.
  - destruct Hin.
  - destruct (contains k x) eqn:E; [discriminate|].
    destruct Hin as [Hin | Hin].
    + injection Hin as H1 H2. now subst.
    + now apply (IH x H n r).
Qed.

End MedicationInfoFacts.

(** X25. [get_medication_info] and the checker agree on the records found
    by name: when the information has a severity, its name is a record
    name that occurs in the lower-cased, stripped medication, its foods
    are those of that record, and every food to avoid that the ingredients
    match is reported by [_check_single_medication] as an [avoid]
    interaction.  When no record name occurs in the medication the
    information keeps the name as given, with empty food lists and the
    severity unknown. *)
Theorem medication_info_agrees_with_checker :
  forall (self : MedicationChecker.Checker) (m : string)
         (ingredients : list string),
    let info := MedicationChecker.get_medication_info self m in
    (forall sev,
        MedicationChecker.info_severity info = Some sev ->
        (exists r,
            In (MedicationChecker.info_name info, r)
               (MedicationChecker.known_interactions self)
            /\ MedicationChecker.med_severity r = sev
            /\ MedicationChecker.avoid_foods info = MedicationChecker.avoid r
            /\ MedicationChecker.caution_foods info
               = MedicationChecker.caution r)
        /\ PyStr.contains (MedicationChecker.info_name info)
                          (PyStr.strip (PyStr.lower m)) = true
        /\ (forall item,
               In item (MedicationChecker.avoid_foods info) ->
               MedicationChecker._ingredient_contains ingredients item
                 = true ->
               exists i,
                 In i (MedicationChecker._check_single_medication
                         self m ingredients)
                 /\ MedicationChecker.ingredient i = item
                 /\ MedicationChecker.interaction_type i
                    = MedicationChecker.Avoid))
    /\ (MedicationChecker.info_severity info = None ->
        info = MedicationChecker.mkMedicationInfo m [] [] None "" []
        /\ forall n r,
             In (n, r) (MedicationChecker.known_interactions self) ->
             PyStr.contains n (PyStr.strip (PyStr.lower m)) = false).
Proof.
  intros self m ingredients info. subst info.
  unfold MedicationChecker.get_medication_info.
  destruct (MedicationChecker.info_scan
              (MedicationChecker.known_interactions self)
              (PyStr.strip (PyStr.lower m))) as [[n r]|] eqn:E.
  - apply info_scan_some in E. destruct E as [Hin Hc].
    cbn [MedicationChecker.info_severity MedicationChecker.info_name
         MedicationChecker.avoid_foods MedicationChecker.caution_foods].
    split; [|discriminate].
    intros sev Hsev. injection Hsev as Hsev.
    split; [exists r; auto|]. split; [assumption|].
    intros item Hitem Hmatch.
    exists (MedicationChecker.avoid_interaction m r item).
    repeat split. apply single_medication_records; [discriminate|].
    exists n, r. split; [assumption|]. split.
    + unfold MedicationChecker.resolves. now rewrite Hc.
    + apply record_interactions_In. left. exists item. auto.
  - cbn [MedicationChecker.info_severity]. split; [discriminate|].
    intros _. split; [reflexivity|]. now apply info_scan_none.
Qed.

Lemma medication_info_agrees_with_checker_witness :
  exists i,
    In i (MedicationChecker._check_single_medication
            MedicationChecker.init "Simvastatin 20mg" ["pink grapefruit"])
    /\ MedicationChecker.ingredient i = "grapefruit"
    /\ MedicationChecker.interaction_type i = MedicationChecker.Avoid.
Proof.
  refine (proj2 (proj2 (proj1 (medication_info_agrees_with_checker
                                 MedicationChecker.init "Simvastatin 20mg"
                                 ["pink grapefruit"]) High _))
                "grapefruit" _ _).
  - reflexivity.
  - vm_compute. tauto.
  - vm_compute. reflexivity.
Defined.

Lemma max_level_of_member :
  forall l s,
    In s l -> rank (Risk s) <= rank (AllergySpec.max_level_of l).
Proof.
  induction l as [|x l IH]; intros s H.
  - destruct H.
  - change (AllergySpec.max_level_of (x :: l))
      with (level_max (Risk x) (AllergySpec.max_level_of l)).
    rewrite rank_level_max. destruct H as [H | H].
    + subst. apply Nat.le_max_l.
    + etransitivity; [apply (IH s H) | apply Nat.le_max_r].
Qed.

(** X26. An allergy that an ingredient spells out is always flagged: when
    the lower-cased, stripped form of a declared allergy occurs in the
    lower-cased, stripped form of some ingredient, the allergy is among
    the detected allergens and the risk level is at least the severity of
    that allergy, hence neither [safe] nor [unknown]. *)
Theorem named_allergy_is_detected :
  forall (ingredients : list string) (p : UserProfile) (a ing : string),
    In a (allergies p) ->
    In ing ingredients ->
    PyStr.contains (PyStr.strip (PyStr.lower a))
                   (PyStr.strip (PyStr.lower ing)) = true ->
    let r := AllergyChecker.check_allergens ingredients (Some p) in
    In a (AllergyChecker.detected_allergens r)
    /\ rank (Risk (AllergyChecker._get_allergen_severity a))
       <= rank (AllergyChecker.risk_level r)
    /\ AllergyChecker.risk_level r <> Safe
    /\ AllergyChecker.risk_level r <> Unknown.
Proof.
  intros ingredients p a ing Ha Hing Hc r.
  assert (Hne : allergies p <> []) by (intros E; rewrite E in Ha; destruct Ha).
  destruct (check_allergens_shape ingredients p Hne) as [Hd [Hr _]].
  assert (Hdet : In a (AllergyChecker.detected_allergens r)).
  { subst r. rewrite Hd. apply filter_In. split; [assumption|].
    apply has_match_exists. exists (PyStr.strip (PyStr.lower ing)). split.
    - unfold AllergySpec.normalized.
      apply (in_map (fun i => PyStr.strip (PyStr.lower i))). exact Hing.
    - left. unfold AllergySpec.direct_match. now rewrite Hc. }
  assert (Hrank : rank (Risk (AllergyChecker._get_allergen_severity a))
                  <= rank (AllergyChecker.risk_level r)).
  { subst r. rewrite Hr. apply max_level_of_member.
    apply in_map. rewrite <- Hd. exact Hdet. }
  split; [assumption|]. split; [assumption|].
  split; intros E; rewrite E in Hrank;
    destruct (AllergyChecker._get_allergen_severity a);
    cbv in Hrank; lia.
Qed.

Lemma named_allergy_is_detected_witness :
  AllergyChecker.risk_level
    (AllergyChecker.check_allergens
       ["Sugar"; " Roasted SESAME seeds "]
       (Some (AllergySpec.profile_with ["milk"; "Sesame"] [])))
  <> Safe.
Proof.
  refine (proj1 (proj2 (proj2 (named_allergy_is_detected
                                 ["Sugar"; " Roasted SESAME seeds "]
                                 (AllergySpec.profile_with
                                    ["milk"; "Sesame"] [])
                                 "Sesame" " Roasted SESAME seeds "
                                 _ _ _)))).
  - simpl. tauto.
  - simpl. tauto.
  - vm_compute. reflexivity.
Defined.
